(** * Cart-to-order core of the e-commerce backend: model and verification

    The development embeds the Mongoose models [Product], [Cart] and [Order],
    the cart and order controllers and the payment webhook service, and
    checks the properties the specification states about them.

    Conventions of the embedding:
    - JavaScript numbers that count things (quantities, stock) are integers
      [Z]; amounts of money are binary64 floating-point numbers, as every
      JavaScript number is: the primitive [float] of Rocq, whose operations
      round as IEEE 754 prescribes.  Every sum keeps the order in which the
      source evaluates it.
    - ObjectIds are the strings that [toString()] yields.
    - A request handler is a function from the stores it touches to a
      [result] and the stores it leaves behind: a thrown exception keeps
      the writes that were already saved, as in the source.
    - Populated references ([populate('items.product')]) are resolved
      through the product store: two lines that reference the same product
      denote the same product document.  A cart line records whether its
      product reference has been populated, since [toString()] of a
      populated reference is the printed document and not the id. *)

From Stdlib Require Import ZArith QArith String Ascii List Lia.
From Stdlib Require Import DecimalString DecimalN Floats.
From stdpp Require Import gmap strings list fin_maps.

Import ListNotations.
#[local] Set Warnings "-register-all".
#[local] Set Warnings "-inexact-float".
Local Open Scope string_scope.
Local Open Scope Z_scope.

(** ** Exceptions and results *)

(** The exceptions the handlers throw: [ApiError] carries the HTTP status
    and the message, [JsError] is a plain [new Error(msg)], [TypeError] a
    property access on [null], [ValidationError] a Mongoose validator that
    rejected the named path on [save]. *)
Inductive error : Type :=
| ApiError (statusCode : Z) (message : string)
| JsError (message : string)
| TypeError (message : string)
| ValidationError (path : string).

Inductive result (A : Type) : Type :=
| Ok (a : A)
| Throw (e : error).
Arguments Ok {A} a.
Arguments Throw {A} e.

Definition is_ok {A} (r : result A) : bool :=
  match r with Ok _ => true | Throw _ => false end.

(** The failure kinds of the specification, as the exceptions that carry
    them in the source. *)
Definition InsufficientStock : error := JsError "Insufficient stock".
Definition InvalidTransition : error :=
  ApiError 400 "Order cannot be cancelled at this stage".
Definition LockBusy : error :=
  ApiError 409 "Cart is being updated, please try again".
Definition EmptyCart : error := ApiError 400 "Cart is empty".
Definition Forbidden : error := ApiError 403 "Access denied".
Definition OrderNotFound : error := ApiError 404 "Order not found".

(** ** JavaScript helpers *)
Module JS.

(** Truthiness of a possibly missing string: [undefined], [null] and the
    empty string are falsy. *)
Definition truthy (v : option string) : bool :=
  match v with
  | None => false
  | Some s => negb (String.eqb s "")
  end.

(** [Number(z)] of an integer: the nearest binary64 number (the integer
    itself up to 2^53). *)
Definition ofZ (z : Z) : float :=
  SF2Prim (binary_normalize prec emax z 0 false).

(** Truthiness of a number: [0], [-0] and [NaN] are falsy. *)
Definition truthy_num (x : float) : bool :=
  negb (PrimFloat.eqb x 0 || PrimFloat.is_nan x).

(** [a || b] on numbers: [undefined] and the falsy numbers give [b]. *)
Definition or_num (a : option float) (b : float) : float :=
  match a with
  | Some x => if truthy_num x then x else b
  | None => b
  end.

(** [Math.max(a, b)]: [NaN] if either is, else the larger. *)
Definition max (a b : float) : float :=
  if (PrimFloat.is_nan a || PrimFloat.is_nan b)%bool then PrimFloat.nan
  else if PrimFloat.ltb a b then b else a.

(** The exact value of a finite number, as a rational. *)
Definition exact (x : float) : option Q :=
  match Prim2SF x with
  | S754_zero _ => Some 0%Q
  | S754_finite s m e =>
      Some (inject_Z (if s then Z.neg m else Z.pos m) * (2 # 1) ^ e)%Q
  | _ => None
  end.

Definition upper_ascii (c : ascii) : ascii :=
  let n := nat_of_ascii c in
  if ((97 <=? n)%nat && (n <=? 122)%nat)%bool then ascii_of_nat (n - 32) else c.

(** [String.prototype.toUpperCase] on the ASCII range. *)
Fixpoint toUpperCase (s : string) : string :=
  match s with
  | EmptyString => EmptyString
  | String c r => String (upper_ascii c) (toUpperCase r)
  end.

(** [String(n)] of a natural number: its decimal numeral. *)
Definition toString (n : N) : string :=
  NilEmpty.string_of_uint (N.to_uint n).

(** Reading a decimal numeral back (leading zeros allowed). *)
Definition parseDec (s : string) : option N :=
  match s with
  | EmptyString => None
  | _ => option_map N.of_uint (NilEmpty.uint_of_string s)
  end.

(** [String(z)] of an integer. *)
Definition showZ (z : Z) : string :=
  if (z <? 0)%Z then ("-" ++ toString (Z.to_N (- z)))%string
  else toString (Z.to_N z).

Fixpoint repeat0 (n : nat) : string :=
  match n with
  | O => EmptyString
  | S k => String "0"%char (repeat0 k)
  end.

(** [s.padStart(k, '0')]. *)
Definition padStart (k : nat) (s : string) : string :=
  repeat0 (k - String.length s) ++ s.

(** The line feed of a template literal. *)
Definition newline : string := String (ascii_of_nat 10) EmptyString.

(** [s.slice(-k)]: the last [k] characters. *)
Definition sliceLast (k : nat) (s : string) : string :=
  let n := String.length s in
  substring (n - k) (Nat.min k n) s.

End JS.

(** ** Product model (models/Product.js) *)
Module Product.

Record t : Type := mk {
  _id : string;
  name : string;
  sku : string;
  image : option string;
  price : float;
  salePrice : option float;
  stock : Z;
  isActive : bool
}.

Definition set_stock (p : t) (s : Z) : t :=
  {| _id := _id p; name := name p; sku := sku p; image := image p;
     price := price p; salePrice := salePrice p; stock := s;
     isActive := isActive p |}.

(** The product collection, keyed by [_id]. *)
Abbreviation store := (gmap string t).

(** [save()]: the schema validator of the path the stock methods modify
    ([stock: { min: 0 }]) runs, then the document is written. *)
Definition save (p : t) (db : gmap string t) : result t * gmap string t :=
  if stock p <? 0 then (Throw (ValidationError "stock"), db)
  else (Ok p, <[_id p := p]> db).

(** [productSchema.methods.reserveStock]. *)
Definition reserveStock (p : t) (quantity : Z) (db : gmap string t)
  : result t * gmap string t :=
  if stock p <? quantity then (Throw (JsError "Insufficient stock"), db)
  else save (set_stock p (stock p - quantity)) db.

(** [productSchema.methods.releaseStock]. *)
Definition releaseStock (p : t) (quantity : Z) (db : gmap string t)
  : result t * gmap string t :=
  save (set_stock p (stock p + quantity)) db.

(** [productSchema.methods.isAvailable]. *)
Definition isAvailable (p : t) (quantity : Z) : bool :=
  isActive p && (quantity <=? stock p).

(** The price a cart line captures: the sale price when there is one
    below the list price. *)
Definition effectivePrice (p : t) : float :=
  match salePrice p with
  | Some sp =>
      if (JS.truthy_num sp && PrimFloat.ltb sp (price p))%bool then sp
      else price p
  | None => price p
  end.

End Product.

(** ** Dates *)

(** A JavaScript [Date] in the server's time zone: the calendar fields that
    [getFullYear()], [getMonth()] (0-based) and [getDate()] return, and the
    epoch milliseconds of [getTime()]. *)
Record Date : Type := mkDate {
  fullYear : N;
  monthIndex : N;
  dayOfMonth : N;
  epochMs : N
}.

(** [startOfDay <= d < endOfDay] for the day of [now]: [d] falls on the
    same calendar day. *)
Definition sameDay (now d : Date) : bool :=
  (fullYear d =? fullYear now)%N && (monthIndex d =? monthIndex now)%N
  && (dayOfMonth d =? dayOfMonth now)%N.

(** ** Cart model (models/Cart.js) *)
Module Cart.

(** What [item.product] holds on the document in memory: the stored
    ObjectId, or, after [populate('items.product')], the product document
    or [null] when no such product exists. *)
Inductive view : Type :=
| Unpopulated
| Loaded (p : Product.t)
| Missing.

Record item : Type := mkItem {
  product : string;
  view_ : view;
  variant : option string;
  quantity : Z;
  price : float;
  addedAt : Date
}.

Record t : Type := mk {
  user : string;
  items : list item;
  totalAmount : float;
  totalItems : Z;
  lastModified : Date
}.

Abbreviation store := (gmap string t).

Definition set_items (c : t) (l : list item) : t :=
  {| user := user c; items := l; totalAmount := totalAmount c;
     totalItems := totalItems c; lastModified := lastModified c |}.

Definition set_quantity (it : item) (q : Z) : item :=
  {| product := product it; view_ := view_ it; variant := variant it;
     quantity := q; price := price it; addedAt := addedAt it |}.

Definition set_price (it : item) (p : float) : item :=
  {| product := product it; view_ := view_ it; variant := variant it;
     quantity := quantity it; price := p; addedAt := addedAt it |}.

Definition set_view (it : item) (v : view) : item :=
  {| product := product it; view_ := v; variant := variant it;
     quantity := quantity it; price := price it; addedAt := addedAt it |}.

(** [populate('items.product')]: every line's reference is resolved
    through the product collection. *)
Definition populate (products : gmap string Product.t) (c : t) : t :=
  set_items c
    (map (fun it => set_view it match products !! product it with
                                | Some p => Loaded p
                                | None => Missing
                                end) (items c)).

(** What is written to the collection: references are stored as ids. *)
Definition depopulate (c : t) : t :=
  set_items c (map (fun it => set_view it Unpopulated) (items c)).

(** [doc.toString()] of a populated product: Mongoose prints the document
    the way [util.inspect] prints its plain object, an opening brace
    first.  The rendering keeps the paths of the model; the handlers only
    ever compare it with an ObjectId string. *)
Definition printed (p : Product.t) : string :=
  "{ _id: new ObjectId('" ++ Product._id p ++ "'), name: '" ++ Product.name p
    ++ "', sku: '" ++ Product.sku p ++ "', stock: " ++ JS.showZ (Product.stock p)
    ++ ", isActive: " ++ (if Product.isActive p then "true" else "false") ++ " }".

(** [item.product.toString()]; on [null] the property access throws. *)
Definition refText (it : item) : result string :=
  match view_ it with
  | Unpopulated => Ok (product it)
  | Loaded p => Ok (printed p)
  | Missing => Throw (TypeError "Cannot read properties of null")
  end.

(** The predicate the three line operations share:
    [item.product.toString() === productId.toString() &&
     (!variantId || item.variant?.toString() === variantId.toString())]. *)
Definition matches (productId : string) (variantId : option string)
  (it : item) : result bool :=
  match refText it with
  | Throw e => Throw e
  | Ok text =>
      Ok (String.eqb text productId
          && (negb (JS.truthy variantId)
              || match variant it, variantId with
                 | Some v, Some w => String.eqb v w
                 | _, _ => false
                 end))
  end.

(** [Array.prototype.findIndex] with a callback that may throw; [None]
    stands for [-1]. *)
Fixpoint findIndex {A} (f : A -> result bool) (l : list A)
  : result (option nat) :=
  match l with
  | [] => Ok None
  | x :: r =>
      match f x with
      | Throw e => Throw e
      | Ok true => Ok (Some O)
      | Ok false =>
          match findIndex f r with
          | Throw e => Throw e
          | Ok i => Ok (option_map S i)
          end
      end
  end.

(** [Array.prototype.filter] keeping the elements the callback rejects,
    with a callback that may throw. *)
Fixpoint reject {A} (f : A -> result bool) (l : list A) : result (list A) :=
  match l with
  | [] => Ok []
  | x :: r =>
      match f x with
      | Throw e => Throw e
      | Ok b =>
          match reject f r with
          | Throw e => Throw e
          | Ok r' => Ok (if b then r' else x :: r')
          end
      end
  end.

(** The schema validators of a line ([quantity: min 1], [price: min 0]). *)
Definition validItem (it : item) : bool :=
  (1 <=? quantity it) && PrimFloat.leb 0 (price it).

(** Validation on [save()] sees the document before the [pre('save')]
    hook runs: the lines as they are now and the totals as they were
    stored. *)
Definition valid (c : t) : bool :=
  forallb validItem (items c)
  && PrimFloat.leb 0 (totalAmount c) && (0 <=? totalItems c).

(** [cartSchema.pre('save', ...)]: both totals are recomputed by a
    left-to-right [reduce] from 0. *)
Definition preSave (now : Date) (c : t) : t :=
  {| user := user c;
     items := items c;
     totalAmount :=
       fold_left (fun sum it => (sum + price it * JS.ofZ (quantity it))%float)
                 (items c) 0%float;
     totalItems := fold_left (fun sum it => sum + quantity it) (items c) 0;
     lastModified := now |}.

(** [this.save()]: validate, run the hook, write the document.  The
    document in memory keeps its populated references. *)
Definition save (now : Date) (c : t) (db : gmap string t)
  : result t * gmap string t :=
  if valid c then
    let c' := preSave now c in (Ok c', <[user c' := depopulate c']> db)
  else (Throw (ValidationError "Cart"), db).

(** [cartSchema.methods.addItem]. *)
Definition addItem (now : Date) (c : t) (productId : string) (qty : Z)
  (unitPrice : float) (variantId : option string) (db : gmap string t)
  : result t * gmap string t :=
  match findIndex (matches productId variantId) (items c) with
  | Throw e => (Throw e, db)
  | Ok existingItemIndex =>
      let items' :=
        match existingItemIndex with
        | Some i =>
            alter (fun it => set_price (set_quantity it (quantity it + qty)) unitPrice)
                  i (items c)
        | None =>
            (items c ++ [ {| product := productId; view_ := Unpopulated;
                             variant := variantId; quantity := qty;
                             price := unitPrice; addedAt := now |} ])%list
        end in
      save now (set_items c items') db
  end.

(** [cartSchema.methods.updateItem]. *)
Definition updateItem (now : Date) (c : t) (productId : string) (qty : Z)
  (variantId : option string) (db : gmap string t)
  : result t * gmap string t :=
  match findIndex (matches productId variantId) (items c) with
  | Throw e => (Throw e, db)
  | Ok None => (Throw (JsError "Item not found in cart"), db)
  | Ok (Some i) =>
      let items' :=
        if qty <=? 0 then delete i (items c)
        else alter (fun it => set_quantity it qty) i (items c) in
      save now (set_items c items') db
  end.

(** [cartSchema.methods.removeItem]. *)
Definition removeItem (now : Date) (c : t) (productId : string)
  (variantId : option string) (db : gmap string t)
  : result t * gmap string t :=
  match reject (matches productId variantId) (items c) with
  | Throw e => (Throw e, db)
  | Ok items' => save now (set_items c items') db
  end.

(** [cartSchema.methods.clearCart]. *)
Definition clearCart (now : Date) (c : t) (db : gmap string t)
  : result t * gmap string t :=
  save now (set_items c []) db.

(** [cartSchema.methods.isEmpty]. *)
Definition isEmpty (c : t) : bool :=
  match items c with [] => true | _ => false end.

(** [cartSchema.statics.getOrCreateCart]:
    [findOne({ user }).populate('items.product')], or a new cart. *)
Definition getOrCreateCart (now : Date) (userId : string)
  (products : gmap string Product.t) (db : gmap string t)
  : result t * gmap string t :=
  match db !! userId with
  | Some c => (Ok (populate products c), db)
  | None =>
      save now {| user := userId; items := []; totalAmount := 0%float;
                  totalItems := 0; lastModified := now |} db
  end.

(** [`${item.product}`] in a message. *)
Definition refShown (it : item) : string :=
  match view_ it with
  | Unpopulated => product it
  | Loaded p => printed p
  | Missing => "null"
  end.

(** [Product.findById(item.product)]: a populated reference is cast back
    to its id, [null] finds nothing. *)
Definition findProduct (products : gmap string Product.t) (it : item)
  : option Product.t :=
  match view_ it with
  | Unpopulated => products !! product it
  | Loaded p => products !! Product._id p
  | Missing => None
  end.

(** [cartSchema.methods.validateItems]: one message per offending line,
    in line order. *)
Fixpoint validateItems (products : gmap string Product.t) (l : list item)
  : list string :=
  match l with
  | [] => []
  | it :: r =>
      match findProduct products it with
      | None => ("Product " ++ refShown it ++ " not found")%string
                  :: validateItems products r
      | Some p =>
          if negb (Product.isActive p) then
            ("Product " ++ Product.name p ++ " is no longer available")%string
              :: validateItems products r
          else if Product.stock p <? quantity it then
            ("Only " ++ JS.showZ (Product.stock p) ++ " units of "
               ++ Product.name p ++ " are available")%string
              :: validateItems products r
          else validateItems products r
      end
  end.

End Cart.

(** ** Plain JavaScript values, as [toObject()] produces them *)
Inductive jsval : Type :=
| JNull
| JBool (b : bool)
| JNum (q : float)
| JStr (s : string)
| JDate (d : Date)
| JArr (l : list jsval)
| JObj (fields : list (string * jsval)).

(** A path that is [undefined] on the document is absent from the object. *)
Definition optField {A} (key : string) (f : A -> jsval) (v : option A)
  : list (string * jsval) :=
  match v with
  | Some x => [(key, f x)]
  | None => []
  end.

(** [delete obj[key]]. *)
Definition deleteKey (key : string) (fields : list (string * jsval))
  : list (string * jsval) :=
  List.filter (fun kv => negb (String.eqb (fst kv) key)) fields.

(** Does the value have a property named [key], at any depth? *)
Fixpoint hasKey (key : string) (v : jsval) : bool :=
  match v with
  | JArr l => existsb (hasKey key) l
  | JObj fields =>
      existsb (fun kv => String.eqb (fst kv) key || hasKey key (snd kv)) fields
  | _ => false
  end.

(** ** Order model (models/Order.js) *)
Module Order.

Inductive status : Type :=
| pending | confirmed | processing | shipped | out_for_delivery
| delivered | cancelled | refunded.

Inductive paymentStatus : Type :=
| pay_pending | pay_processing | pay_succeeded | pay_failed
| pay_cancelled | pay_refunded.

Inductive couponType : Type := percentage | fixed.

#[global] Instance status_eq_dec : EqDecision status.
Proof. solve_decision. Defined.
#[global] Instance paymentStatus_eq_dec : EqDecision paymentStatus.
Proof. solve_decision. Defined.

Definition statusName (s : status) : string :=
  match s with
  | pending => "pending" | confirmed => "confirmed"
  | processing => "processing" | shipped => "shipped"
  | out_for_delivery => "out_for_delivery" | delivered => "delivered"
  | cancelled => "cancelled" | refunded => "refunded"
  end.

Definition paymentStatusName (s : paymentStatus) : string :=
  match s with
  | pay_pending => "pending" | pay_processing => "processing"
  | pay_succeeded => "succeeded" | pay_failed => "failed"
  | pay_cancelled => "cancelled" | pay_refunded => "refunded"
  end.

Definition couponTypeName (c : couponType) : string :=
  match c with percentage => "percentage" | fixed => "fixed" end.

Record snapshot : Type := mkSnapshot {
  snapName : string;
  snapSku : string;
  snapImage : option string
}.

Record item : Type := mkItem {
  product : string;
  variant : option string;
  quantity : Z;
  price : float;
  total : float;
  productSnapshot : snapshot
}.

Record address : Type := mkAddress {
  firstName : string;
  lastName : string;
  street : string;
  city : string;
  state : string;
  zipCode : string;
  country : string;
  phone : option string
}.

Record historyEntry : Type := mkEntry {
  entryStatus : status;
  timestamp : Date;
  note : string;
  updatedBy : option string
}.

Record payment : Type := mkPayment {
  method : string;
  payStatus : paymentStatus;
  transactionId : option string;
  paymentIntentId : option string;
  amount : float;
  currency : string;
  paidAt : option Date;
  refundedAt : option Date
}.

Record pricing : Type := mkPricing {
  subtotal : float;
  shippingFee : float;
  tax : float;
  discount : float;
  grandTotal : float
}.

Record shipping : Type := mkShipping {
  shipMethod : string;
  cost : float;
  shipEstimatedDelivery : option Date;
  shipActualDelivery : option Date;
  trackingNumber : option string;
  carrier : option string
}.

Record coupon : Type := mkCoupon {
  code : string;
  couponDiscount : float;
  type : couponType
}.

Record t : Type := mk {
  _id : string;
  isNew : bool;
  orderNumber : string;
  user : string;
  items : list item;
  orderStatus : status;
  statusHistory : list historyEntry;
  shippingAddress : option address;
  billingAddress : option address;
  pay : payment;
  price_ : pricing;
  ship : shipping;
  appliedCoupon : option coupon;
  notes : option string;
  internalNotes : option string;
  estimatedDelivery : option Date;
  actualDelivery : option Date;
  cancelledAt : option Date;
  cancelReason : option string;
  refundAmount : float;
  refundReason : option string;
  createdAt : option Date;
  updatedAt : option Date
}.

(** The order collection, in insertion order. *)
Abbreviation store := (list t).

(** [orderSchema.methods.addStatusHistory(status, note = '', updatedBy = null)]:
    one entry is pushed and [status] is set, on the same document. *)
Definition addStatusHistory (now : Date) (o : t) (s : status)
  (note_ : option string) (updatedBy_ : option string) : t :=
  {| _id := _id o; isNew := isNew o; orderNumber := orderNumber o;
     user := user o; items := items o;
     orderStatus := s;
     statusHistory :=
       (statusHistory o
          ++ [ {| entryStatus := s; timestamp := now;
                  note := default "" note_; updatedBy := updatedBy_ |} ])%list;
     shippingAddress := shippingAddress o; billingAddress := billingAddress o;
     pay := pay o; price_ := price_ o; ship := ship o;
     appliedCoupon := appliedCoupon o; notes := notes o;
     internalNotes := internalNotes o;
     estimatedDelivery := estimatedDelivery o;
     actualDelivery := actualDelivery o; cancelledAt := cancelledAt o;
     cancelReason := cancelReason o; refundAmount := refundAmount o;
     refundReason := refundReason o; createdAt := createdAt o;
     updatedAt := updatedAt o |}.

(** [orderSchema.methods.canBeCancelled]. *)
Definition canBeCancelled (o : t) : bool :=
  match orderStatus o with
  | pending | confirmed | processing => true
  | _ => false
  end.

(** [orderSchema.methods.canBeRefunded]. *)
Definition canBeRefunded (o : t) : bool :=
  match orderStatus o with
  | delivered => bool_decide (payStatus (pay o) = pay_succeeded)
  | _ => false
  end.

(** [orderSchema.methods.calculateTotals]: the two paths it writes. *)
Definition calculateTotals (o : t) : pricing :=
  let sub := fold_left (fun sum it => (sum + total it)%float) (items o) 0%float in
  {| subtotal := sub; shippingFee := shippingFee (price_ o);
     tax := tax (price_ o); discount := discount (price_ o);
     grandTotal := (sub + shippingFee (price_ o) + tax (price_ o)
                    - discount (price_ o))%float |}.

(** Field updates of the document. *)
Definition set_isNew (o : t) (v : bool) : t :=
  {| _id := _id o; isNew := v; orderNumber := orderNumber o;
     user := user o; items := items o; orderStatus := orderStatus o;
     statusHistory := statusHistory o;
     shippingAddress := shippingAddress o;
     billingAddress := billingAddress o; pay := pay o; price_ := price_ o;
     ship := ship o; appliedCoupon := appliedCoupon o; notes := notes o;
     internalNotes := internalNotes o;
     estimatedDelivery := estimatedDelivery o;
     actualDelivery := actualDelivery o; cancelledAt := cancelledAt o;
     cancelReason := cancelReason o; refundAmount := refundAmount o;
     refundReason := refundReason o; createdAt := createdAt o;
     updatedAt := updatedAt o |}.

Definition set_orderNumber (o : t) (v : string) : t :=
  {| _id := _id o; isNew := isNew o; orderNumber := v; user := user o;
     items := items o; orderStatus := orderStatus o;
     statusHistory := statusHistory o;
     shippingAddress := shippingAddress o;
     billingAddress := billingAddress o; pay := pay o; price_ := price_ o;
     ship := ship o; appliedCoupon := appliedCoupon o; notes := notes o;
     internalNotes := internalNotes o;
     estimatedDelivery := estimatedDelivery o;
     actualDelivery := actualDelivery o; cancelledAt := cancelledAt o;
     cancelReason := cancelReason o; refundAmount := refundAmount o;
     refundReason := refundReason o; createdAt := createdAt o;
     updatedAt := updatedAt o |}.

Definition set_pay (o : t) (v : payment) : t :=
  {| _id := _id o; isNew := isNew o; orderNumber := orderNumber o;
     user := user o; items := items o; orderStatus := orderStatus o;
     statusHistory := statusHistory o;
     shippingAddress := shippingAddress o;
     billingAddress := billingAddress o; pay := v; price_ := price_ o;
     ship := ship o; appliedCoupon := appliedCoupon o; notes := notes o;
     internalNotes := internalNotes o;
     estimatedDelivery := estimatedDelivery o;
     actualDelivery := actualDelivery o; cancelledAt := cancelledAt o;
     cancelReason := cancelReason o; refundAmount := refundAmount o;
     refundReason := refundReason o; createdAt := createdAt o;
     updatedAt := updatedAt o |}.

Definition set_ship (o : t) (v : shipping) : t :=
  {| _id := _id o; isNew := isNew o; orderNumber := orderNumber o;
     user := user o; items := items o; orderStatus := orderStatus o;
     statusHistory := statusHistory o;
     shippingAddress := shippingAddress o;
     billingAddress := billingAddress o; pay := pay o; price_ := price_ o;
     ship := v; appliedCoupon := appliedCoupon o; notes := notes o;
     internalNotes := internalNotes o;
     estimatedDelivery := estimatedDelivery o;
     actualDelivery := actualDelivery o; cancelledAt := cancelledAt o;
     cancelReason := cancelReason o; refundAmount := refundAmount o;
     refundReason := refundReason o; createdAt := createdAt o;
     updatedAt := updatedAt o |}.

Definition set_cancelledAt (o : t) (v : option Date) : t :=
  {| _id := _id o; isNew := isNew o; orderNumber := orderNumber o;
     user := user o; items := items o; orderStatus := orderStatus o;
     statusHistory := statusHistory o;
     shippingAddress := shippingAddress o;
     billingAddress := billingAddress o; pay := pay o; price_ := price_ o;
     ship := ship o; appliedCoupon := appliedCoupon o; notes := notes o;
     internalNotes := internalNotes o;
     estimatedDelivery := estimatedDelivery o;
     actualDelivery := actualDelivery o; cancelledAt := v;
     cancelReason := cancelReason o; refundAmount := refundAmount o;
     refundReason := refundReason o; createdAt := createdAt o;
     updatedAt := updatedAt o |}.

Definition set_cancelReason (o : t) (v : option string) : t :=
  {| _id := _id o; isNew := isNew o; orderNumber := orderNumber o;
     user := user o; items := items o; orderStatus := orderStatus o;
     statusHistory := statusHistory o;
     shippingAddress := shippingAddress o;
     billingAddress := billingAddress o; pay := pay o; price_ := price_ o;
     ship := ship o; appliedCoupon := appliedCoupon o; notes := notes o;
     internalNotes := internalNotes o;
     estimatedDelivery := estimatedDelivery o;
     actualDelivery := actualDelivery o; cancelledAt := cancelledAt o;
     cancelReason := v; refundAmount := refundAmount o;
     refundReason := refundReason o; createdAt := createdAt o;
     updatedAt := updatedAt o |}.

Definition set_createdAt (o : t) (v : option Date) : t :=
  {| _id := _id o; isNew := isNew o; orderNumber := orderNumber o;
     user := user o; items := items o; orderStatus := orderStatus o;
     statusHistory := statusHistory o;
     shippingAddress := shippingAddress o;
     billingAddress := billingAddress o; pay := pay o; price_ := price_ o;
     ship := ship o; appliedCoupon := appliedCoupon o; notes := notes o;
     internalNotes := internalNotes o;
     estimatedDelivery := estimatedDelivery o;
     actualDelivery := actualDelivery o; cancelledAt := cancelledAt o;
     cancelReason := cancelReason o; refundAmount := refundAmount o;
     refundReason := refundReason o; createdAt := v;
     updatedAt := updatedAt o |}.

Definition set_updatedAt (o : t) (v : option Date) : t :=
  {| _id := _id o; isNew := isNew o; orderNumber := orderNumber o;
     user := user o; items := items o; orderStatus := orderStatus o;
     statusHistory := statusHistory o;
     shippingAddress := shippingAddress o;
     billingAddress := billingAddress o; pay := pay o; price_ := price_ o;
     ship := ship o; appliedCoupon := appliedCoupon o; notes := notes o;
     internalNotes := internalNotes o;
     estimatedDelivery := estimatedDelivery o;
     actualDelivery := actualDelivery o; cancelledAt := cancelledAt o;
     cancelReason := cancelReason o; refundAmount := refundAmount o;
     refundReason := refundReason o; createdAt := createdAt o;
     updatedAt := v |}.

Definition set_internalNotes (o : t) (v : option string) : t :=
  {| _id := _id o; isNew := isNew o; orderNumber := orderNumber o;
     user := user o; items := items o; orderStatus := orderStatus o;
     statusHistory := statusHistory o;
     shippingAddress := shippingAddress o;
     billingAddress := billingAddress o; pay := pay o; price_ := price_ o;
     ship := ship o; appliedCoupon := appliedCoupon o; notes := notes o;
     internalNotes := v; estimatedDelivery := estimatedDelivery o;
     actualDelivery := actualDelivery o; cancelledAt := cancelledAt o;
     cancelReason := cancelReason o; refundAmount := refundAmount o;
     refundReason := refundReason o; createdAt := createdAt o;
     updatedAt := updatedAt o |}.

Definition set_notes (o : t) (v : option string) : t :=
  {| _id := _id o; isNew := isNew o; orderNumber := orderNumber o;
     user := user o; items := items o; orderStatus := orderStatus o;
     statusHistory := statusHistory o;
     shippingAddress := shippingAddress o;
     billingAddress := billingAddress o; pay := pay o; price_ := price_ o;
     ship := ship o; appliedCoupon := appliedCoupon o; notes := v;
     internalNotes := internalNotes o;
     estimatedDelivery := estimatedDelivery o;
     actualDelivery := actualDelivery o; cancelledAt := cancelledAt o;
     cancelReason := cancelReason o; refundAmount := refundAmount o;
     refundReason := refundReason o; createdAt := createdAt o;
     updatedAt := updatedAt o |}.

Definition set_refundAmount (o : t) (v : float) : t :=
  {| _id := _id o; isNew := isNew o; orderNumber := orderNumber o;
     user := user o; items := items o; orderStatus := orderStatus o;
     statusHistory := statusHistory o;
     shippingAddress := shippingAddress o;
     billingAddress := billingAddress o; pay := pay o; price_ := price_ o;
     ship := ship o; appliedCoupon := appliedCoupon o; notes := notes o;
     internalNotes := internalNotes o;
     estimatedDelivery := estimatedDelivery o;
     actualDelivery := actualDelivery o; cancelledAt := cancelledAt o;
     cancelReason := cancelReason o; refundAmount := v;
     refundReason := refundReason o; createdAt := createdAt o;
     updatedAt := updatedAt o |}.

Definition set_refundReason (o : t) (v : option string) : t :=
  {| _id := _id o; isNew := isNew o; orderNumber := orderNumber o;
     user := user o; items := items o; orderStatus := orderStatus o;
     statusHistory := statusHistory o;
     shippingAddress := shippingAddress o;
     billingAddress := billingAddress o; pay := pay o; price_ := price_ o;
     ship := ship o; appliedCoupon := appliedCoupon o; notes := notes o;
     internalNotes := internalNotes o;
     estimatedDelivery := estimatedDelivery o;
     actualDelivery := actualDelivery o; cancelledAt := cancelledAt o;
     cancelReason := cancelReason o; refundAmount := refundAmount o;
     refundReason := v; createdAt := createdAt o;
     updatedAt := updatedAt o |}.

Definition pay_set_payStatus (p : payment) (v : paymentStatus) : payment :=
  {| method := method p; payStatus := v; transactionId := transactionId p;
     paymentIntentId := paymentIntentId p; amount := amount p;
     currency := currency p; paidAt := paidAt p;
     refundedAt := refundedAt p |}.

Definition pay_set_paymentIntentId (p : payment) (v : option string) : payment :=
  {| method := method p; payStatus := payStatus p;
     transactionId := transactionId p; paymentIntentId := v;
     amount := amount p; currency := currency p; paidAt := paidAt p;
     refundedAt := refundedAt p |}.

Definition pay_set_transactionId (p : payment) (v : option string) : payment :=
  {| method := method p; payStatus := payStatus p; transactionId := v;
     paymentIntentId := paymentIntentId p; amount := amount p;
     currency := currency p; paidAt := paidAt p;
     refundedAt := refundedAt p |}.

Definition pay_set_paidAt (p : payment) (v : option Date) : payment :=
  {| method := method p; payStatus := payStatus p;
     transactionId := transactionId p;
     paymentIntentId := paymentIntentId p; amount := amount p;
     currency := currency p; paidAt := v; refundedAt := refundedAt p |}.

Definition pay_set_refundedAt (p : payment) (v : option Date) : payment :=
  {| method := method p; payStatus := payStatus p;
     transactionId := transactionId p;
     paymentIntentId := paymentIntentId p; amount := amount p;
     currency := currency p; paidAt := paidAt p; refundedAt := v |}.

Definition ship_set_shipActualDelivery (s : shipping) (v : option Date) : shipping :=
  {| shipMethod := shipMethod s; cost := cost s;
     shipEstimatedDelivery := shipEstimatedDelivery s;
     shipActualDelivery := v; trackingNumber := trackingNumber s;
     carrier := carrier s |}.

Definition ship_set_trackingNumber (s : shipping) (v : option string) : shipping :=
  {| shipMethod := shipMethod s; cost := cost s;
     shipEstimatedDelivery := shipEstimatedDelivery s;
     shipActualDelivery := shipActualDelivery s; trackingNumber := v;
     carrier := carrier s |}.

Definition ship_set_carrier (s : shipping) (v : option string) : shipping :=
  {| shipMethod := shipMethod s; cost := cost s;
     shipEstimatedDelivery := shipEstimatedDelivery s;
     shipActualDelivery := shipActualDelivery s;
     trackingNumber := trackingNumber s; carrier := v |}.

Definition set_shippingAddress (o : t) (v : option address) : t :=
  {| _id := _id o; isNew := isNew o; orderNumber := orderNumber o;
     user := user o; items := items o; orderStatus := orderStatus o;
     statusHistory := statusHistory o; shippingAddress := v;
     billingAddress := billingAddress o; pay := pay o; price_ := price_ o;
     ship := ship o; appliedCoupon := appliedCoupon o; notes := notes o;
     internalNotes := internalNotes o;
     estimatedDelivery := estimatedDelivery o;
     actualDelivery := actualDelivery o; cancelledAt := cancelledAt o;
     cancelReason := cancelReason o; refundAmount := refundAmount o;
     refundReason := refundReason o; createdAt := createdAt o;
     updatedAt := updatedAt o |}.

(** *** Schema validation *)

Definition nonneg (q : float) : bool := PrimFloat.leb 0 q.

Definition present (s : string) : bool := negb (String.eqb s "").

Definition validItem (it : item) : bool :=
  present (product it) && (1 <=? quantity it) && nonneg (price it)
  && nonneg (total it).

Definition validAddress (a : address) : bool :=
  present (firstName a) && present (lastName a) && present (street a)
  && present (city a) && present (state a) && present (zipCode a)
  && present (country a).

Definition paymentMethods : list string :=
  ["stripe"; "paypal"; "cash_on_delivery"].

Definition shippingMethods : list string :=
  ["standard"; "express"; "overnight"; "pickup"].

Definition isIn (s : string) (l : list string) : bool :=
  existsb (String.eqb s) l.

(** The validators of [orderSchema]: required paths, enumerations and
    minima.  [save()] validates the whole document. *)
Definition valid (o : t) : bool :=
  present (orderNumber o) && present (user o)
  && forallb validItem (items o)
  && match shippingAddress o with Some a => validAddress a | None => false end
  && match billingAddress o with Some a => validAddress a | None => true end
  && isIn (method (pay o)) paymentMethods && nonneg (amount (pay o))
  && nonneg (subtotal (price_ o)) && nonneg (shippingFee (price_ o))
  && nonneg (tax (price_ o)) && nonneg (discount (price_ o))
  && nonneg (grandTotal (price_ o))
  && isIn (shipMethod (ship o)) shippingMethods && nonneg (cost (ship o))
  && nonneg (refundAmount o).

(** *** The [pre('save')] hook: order number *)

(** [countDocuments({ createdAt: { $gte: startOfDay, $lt: endOfDay } })]. *)
Definition countToday (now : Date) (db : list t) : N :=
  N.of_nat
    (length (List.filter
               (fun o => match createdAt o with
                         | Some d => sameDay now d
                         | None => false
                         end) db)).

(** [`ORD-${year}${month}${day}-${String(count + 1).padStart(4, '0')}`]. *)
Definition formatOrderNumber (now : Date) (count : N) : string :=
  "ORD-" ++ JS.toString (fullYear now)
    ++ JS.padStart 2 (JS.toString (monthIndex now + 1))
    ++ JS.padStart 2 (JS.toString (dayOfMonth now))
    ++ "-" ++ JS.padStart 4 (JS.toString (count + 1)).

Definition preSave (now : Date) (db : list t) (o : t) : t :=
  if isNew o then set_orderNumber o (formatOrderNumber now (countToday now db))
  else o.

(** The [timestamps: true] option. *)
Definition stamp (now : Date) (o : t) : t :=
  let o1 := if isNew o then set_createdAt o (Some now) else o in
  set_updatedAt o1 (Some now).

(** Writing the document: a new one is inserted, a stored one replaced. *)
Definition write (o : t) (db : list t) : list t :=
  if isNew o then (db ++ [set_isNew o false])%list
  else map (fun x => if String.eqb (_id x) (_id o) then o else x) db.

(** [order.save()]: validation first, then the hooks, then the write. *)
Definition save (now : Date) (o : t) (db : list t) : result t * list t :=
  if valid o then
    let o' := stamp now (preSave now db o) in
    (Ok (set_isNew o' false), write o' db)
  else (Throw (ValidationError "Order"), db).

(** [Order.findById]. *)
Definition findById (id : string) (db : list t) : option t :=
  List.find (fun o => String.eqb (_id o) id) db.

(** [Order.findOne({ 'payment.paymentIntentId': id })]. *)
Definition findByPaymentIntent (id : string) (db : list t) : option t :=
  List.find (fun o => match paymentIntentId (pay o) with
                      | Some i => String.eqb i id
                      | None => false
                      end) db.

(** *** Serialisation *)

Definition itemObject (it : item) : jsval :=
  JObj ([("product", JStr (product it))]
        ++ optField "variant" JStr (variant it)
        ++ [("quantity", JNum (JS.ofZ (quantity it)));
            ("price", JNum (price it));
            ("total", JNum (total it));
            ("productSnapshot",
             JObj ([("name", JStr (snapName (productSnapshot it)));
                    ("sku", JStr (snapSku (productSnapshot it)))]
                   ++ optField "image" JStr (snapImage (productSnapshot it))))])%list.

Definition addressObject (a : address) : jsval :=
  JObj ([("firstName", JStr (firstName a)); ("lastName", JStr (lastName a));
         ("street", JStr (street a)); ("city", JStr (city a));
         ("state", JStr (state a)); ("zipCode", JStr (zipCode a));
         ("country", JStr (country a))]
        ++ optField "phone" JStr (phone a))%list.

Definition entryObject (e : historyEntry) : jsval :=
  JObj ([("status", JStr (statusName (entryStatus e)));
         ("timestamp", JDate (timestamp e));
         ("note", JStr (note e))]
        ++ [("updatedBy", match updatedBy e with
                          | Some u => JStr u
                          | None => JNull
                          end)])%list.

Definition paymentObject (p : payment) : jsval :=
  JObj ([("method", JStr (method p));
         ("status", JStr (paymentStatusName (payStatus p)))]
        ++ optField "transactionId" JStr (transactionId p)
        ++ optField "paymentIntentId" JStr (paymentIntentId p)
        ++ [("amount", JNum (amount p)); ("currency", JStr (currency p))]
        ++ optField "paidAt" JDate (paidAt p)
        ++ optField "refundedAt" JDate (refundedAt p))%list.

Definition pricingObject (p : pricing) : jsval :=
  JObj [("subtotal", JNum (subtotal p)); ("shipping", JNum (shippingFee p));
        ("tax", JNum (tax p)); ("discount", JNum (discount p));
        ("total", JNum (grandTotal p))].

Definition shippingObject (s : shipping) : jsval :=
  JObj ([("method", JStr (shipMethod s)); ("cost", JNum (cost s))]
        ++ optField "estimatedDelivery" JDate (shipEstimatedDelivery s)
        ++ optField "actualDelivery" JDate (shipActualDelivery s)
        ++ optField "trackingNumber" JStr (trackingNumber s)
        ++ optField "carrier" JStr (carrier s))%list.

Definition couponObject (c : coupon) : jsval :=
  JObj [("code", JStr (code c)); ("discount", JNum (couponDiscount c));
        ("type", JStr (couponTypeName (type c)))].

(** [this.toObject()]: every path of the schema that is set. *)
Definition toObject (o : t) : list (string * jsval) :=
  ([("_id", JStr (_id o));
    ("orderNumber", JStr (orderNumber o));
    ("user", JStr (user o));
    ("items", JArr (map itemObject (items o)));
    ("status", JStr (statusName (orderStatus o)));
    ("statusHistory", JArr (map entryObject (statusHistory o)))]
   ++ optField "shippingAddress" addressObject (shippingAddress o)
   ++ optField "billingAddress" addressObject (billingAddress o)
   ++ [("payment", paymentObject (pay o));
       ("pricing", pricingObject (price_ o));
       ("shipping", shippingObject (ship o))]
   ++ optField "coupon" couponObject (appliedCoupon o)
   ++ optField "notes" JStr (notes o)
   ++ optField "internalNotes" JStr (internalNotes o)
   ++ optField "estimatedDelivery" JDate (estimatedDelivery o)
   ++ optField "actualDelivery" JDate (actualDelivery o)
   ++ optField "cancelledAt" JDate (cancelledAt o)
   ++ optField "cancelReason" JStr (cancelReason o)
   ++ [("refundAmount", JNum (refundAmount o))]
   ++ optField "refundReason" JStr (refundReason o)
   ++ optField "createdAt" JDate (createdAt o)
   ++ optField "updatedAt" JDate (updatedAt o))%list.

(** [orderSchema.methods.toJSON]. *)
Definition toJSON (o : t) : list (string * jsval) :=
  let orderObject := toObject o in
  deleteKey "internalNotes" orderObject.

End Order.

(** ** The Redis commands the cart controller issues *)
Module Redis.

(** The keys the handlers use hold strings and are never given an
    expiry. *)
Abbreviation store := (gmap string string).

(** [GET key]. *)
Definition get (key : string) (r : gmap string string) : option string :=
  r !! key.

(** [redis.set(key, value, 'PX', 5000, 'NX')] on the client of the
    repository ([redis ^4.6.10], no legacy mode), whose signature is
    [set(key, value, options)]: the third argument is read as an options
    object, the string ['PX'] has none of the option properties, and the
    arguments after it are dropped.  The server receives [SET key value],
    which sets the key whatever it held and replies [OK]. *)
Definition set (key val : string) (r : gmap string string)
  : option string * gmap string string :=
  (Some "OK", <[key := val]> r).

(** [DEL key]. *)
Definition del (key : string) (r : gmap string string) : gmap string string :=
  delete key r.

End Redis.

(** ** The stores the handlers share *)
Record World : Type := mkWorld {
  products : gmap string Product.t;
  carts : gmap string Cart.t;
  orders : list Order.t;
  redis : option (gmap string string)
}.

Definition set_products (w : World) (p : gmap string Product.t) : World :=
  {| products := p; carts := carts w; orders := orders w; redis := redis w |}.
Definition set_carts (w : World) (c : gmap string Cart.t) : World :=
  {| products := products w; carts := c; orders := orders w; redis := redis w |}.
Definition set_orders (w : World) (o : list Order.t) : World :=
  {| products := products w; carts := carts w; orders := o; redis := redis w |}.
Definition set_redis (w : World) (r : option (gmap string string)) : World :=
  {| products := products w; carts := carts w; orders := orders w; redis := r |}.

(** [req.user]. *)
Record ReqUser : Type := mkReqUser {
  userId : string;
  role : string
}.

(** ** Cart controller (controllers/cart.controller.js) *)
Module CartController.

Record mockCoupon : Type := mkMock {
  type : Order.couponType;
  value : Z;
  minAmount : Z
}.

(** The table of [applyCoupon]. *)
Definition mockCoupons (codeUpper : string) : option mockCoupon :=
  if String.eqb codeUpper "SAVE10" then
    Some {| type := Order.percentage; value := 10; minAmount := 50 |}
  else if String.eqb codeUpper "FLAT20" then
    Some {| type := Order.fixed; value := 20; minAmount := 100 |}
  else None.

Record couponResponse : Type := mkResponse {
  couponCode : string;
  discount : float;
  originalTotal : float;
  discountedTotal : float
}.

(** [applyCoupon]: the coupon evaluation offered on the cart. *)
Definition applyCoupon (code : string) (u : ReqUser) (w : World)
  : result couponResponse :=
  match carts w !! userId u with
  | None => Throw (ApiError 404 "Cart not found")
  | Some cart =>
      match mockCoupons (JS.toUpperCase code) with
      | None => Throw (ApiError 400 "Invalid coupon code")
      | Some coupon =>
          if PrimFloat.ltb (Cart.totalAmount cart) (JS.ofZ (minAmount coupon)) then
            Throw (ApiError 400
                     ("Minimum order amount of $" ++ JS.showZ (minAmount coupon)
                        ++ " required"))
          else
            let discount :=
              match type coupon with
              | Order.percentage =>
                  (Cart.totalAmount cart * JS.ofZ (value coupon) / 100)%float
              | Order.fixed => JS.ofZ (value coupon)
              end in
            Ok {| couponCode := code;
                  discount := discount;
                  originalTotal := Cart.totalAmount cart;
                  discountedTotal :=
                    JS.max 0 (Cart.totalAmount cart - discount)%float |}
      end
  end.

(** *** [addToCart], one step per round trip to a store *)

Record addRequest : Type := mkAdd {
  productId : string;
  quantity : Z;
  variantId : option string
}.

Definition lockKey (u : ReqUser) (rq : addRequest) : string :=
  "cart_lock:" ++ userId u ++ ":" ++ productId rq.

(** Where a running [addToCart] request stands.  [acquired] records
    whether this request's [SET] was answered [OK]; [outcome] is what the
    handler answers once the [finally] block is through. *)
Inductive pc : Type :=
| AtValidate
| AtAcquire (p : Product.t) (lockValue : string)
| AtMutate (p : Product.t) (lockValue : string)
| AtReleaseGet (lockValue : string) (acquired : bool) (outcome : result Cart.t)
| AtReleaseDel (acquired : bool) (outcome : result Cart.t)
| Finished (outcome : result Cart.t).

Definition nullClient : error :=
  TypeError "Cannot read properties of null".

(** One step of the handler at time [now]. *)
Definition step (now : Date) (u : ReqUser) (rq : addRequest) (p : pc)
  (w : World) : pc * World :=
  match p with
  | AtValidate =>
      match products w !! productId rq with
      | None => (Finished (Throw (ApiError 404 "Product not found")), w)
      | Some product =>
          if negb (Product.isActive product) then
            (Finished (Throw (ApiError 400 "Product is not available")), w)
          else if Product.stock product <? quantity rq then
            (Finished (Throw (ApiError 400
               ("Only " ++ JS.showZ (Product.stock product) ++ " units available"))), w)
          else (AtAcquire product (JS.toString (epochMs now)), w)
      end
  | AtAcquire product lockValue =>
      match redis w with
      | None => (Finished (Throw nullClient), w)
      | Some r =>
          let '(lockAcquired, r') := Redis.set (lockKey u rq) lockValue r in
          if JS.truthy lockAcquired
          then (AtMutate product lockValue, set_redis w (Some r'))
          else (AtReleaseGet lockValue false
                  (Throw (ApiError 409 "Cart is being updated, please try again")),
                set_redis w (Some r'))
      end
  | AtMutate product lockValue =>
      match Cart.getOrCreateCart now (userId u) (products w) (carts w) with
      | (Throw e, cs) => (AtReleaseGet lockValue true (Throw e), set_carts w cs)
      | (Ok cart, cs) =>
          let '(r, cs') :=
            Cart.addItem now cart (productId rq) (quantity rq)
              (Product.effectivePrice product) (variantId rq) cs in
          (AtReleaseGet lockValue true r, set_carts w cs')
      end
  | AtReleaseGet lockValue acquired outcome =>
      match redis w with
      | None => (Finished (Throw nullClient), w)
      | Some r =>
          if bool_decide (Redis.get (lockKey u rq) r = Some lockValue)
          then (AtReleaseDel acquired outcome, w)
          else (Finished outcome, w)
      end
  | AtReleaseDel acquired outcome =>
      match redis w with
      | None => (Finished (Throw nullClient), w)
      | Some r => (Finished outcome, set_redis w (Some (Redis.del (lockKey u rq) r)))
      end
  | Finished outcome => (Finished outcome, w)
  end.

(** The request holds the lock: its [SET] succeeded and its [finally]
    block has not finished. *)
Definition holding (p : pc) : bool :=
  match p with
  | AtMutate _ _ => true
  | AtReleaseGet _ acquired _ => acquired
  | AtReleaseDel acquired _ => acquired
  | _ => false
  end.

(** [addToCart] run from start to end with nothing in between: the
    [i]-th step happens at [clock i]. *)
Fixpoint run (clock : nat -> Date) (u : ReqUser) (rq : addRequest)
  (i n : nat) (p : pc) (w : World) : pc * World :=
  match n with
  | O => (p, w)
  | S k => let '(p', w') := step (clock i) u rq p w in
           run clock u rq (S i) k p' w'
  end.

Definition addToCart (clock : nat -> Date) (u : ReqUser) (rq : addRequest)
  (w : World) : pc * World :=
  run clock u rq 0 5 AtValidate w.

(** *** Two requests of the same user for the same product *)

Inductive who : Type := First | Second.

Record system : Type := mkSystem {
  first : pc;
  second : pc;
  world : World
}.

(** The scheduler lets one of the two requests take its next step. *)
Definition sysStep (u : ReqUser) (rq1 rq2 : addRequest)
  (ev : who * Date) (s : system) : system :=
  match fst ev with
  | First =>
      let '(p, w) := step (snd ev) u rq1 (first s) (world s) in
      {| first := p; second := second s; world := w |}
  | Second =>
      let '(p, w) := step (snd ev) u rq2 (second s) (world s) in
      {| first := first s; second := p; world := w |}
  end.

Definition sysRun (u : ReqUser) (rq1 rq2 : addRequest)
  (schedule : list (who * Date)) (s : system) : system :=
  fold_left (fun s ev => sysStep u rq1 rq2 ev s) schedule s.

Definition initial (w : World) : system :=
  {| first := AtValidate; second := AtValidate; world := w |}.

(** *** [updateCartItem], run from start to end with nothing in between *)

Record updateRequest : Type := mkUpdate {
  updProductId : string;
  updQuantity : Z;
  updVariantId : option string
}.

(** The [finally] block: [GET], compare with the own token, [DEL]. *)
Definition release (key lockValue : string) (r : gmap string string)
  : gmap string string :=
  if bool_decide (Redis.get key r = Some lockValue)
  then Redis.del key r
  else r.

(** [updateCartItem]: [clock 0] is the instant the token is taken and
    [clock 2] the instant of the cart update. *)
Definition updateCartItem (clock : nat -> Date) (u : ReqUser)
  (rq : updateRequest) (w : World) : result Cart.t * World :=
  match products w !! updProductId rq with
  | None => (Throw (ApiError 404 "Product not found"), w)
  | Some product =>
      if Product.stock product <? updQuantity rq then
        (Throw (ApiError 400
           ("Only " ++ JS.showZ (Product.stock product) ++ " units available")), w)
      else
        match redis w with
        | None => (Throw nullClient, w)
        | Some r =>
            let key := "cart_lock:" ++ userId u ++ ":" ++ updProductId rq in
            let lockValue := JS.toString (epochMs (clock 0%nat)) in
            let '(lockAcquired, r1) := Redis.set key lockValue r in
            if JS.truthy lockAcquired then
              match carts w !! userId u with
              | None =>
                  (Throw (ApiError 404 "Cart not found"),
                   set_redis w (Some (release key lockValue r1)))
              | Some cart =>
                  let '(res, cs) :=
                    Cart.updateItem (clock 2%nat) cart (updProductId rq)
                      (updQuantity rq) (updVariantId rq) (carts w) in
                  (res,
                   set_redis (set_carts w cs)
                     (Some (release key lockValue r1)))
              end
            else
              (Throw (ApiError 409 "Cart is being updated, please try again"),
               set_redis w (Some (release key lockValue r1)))
        end
  end.

End CartController.

(** ** Handlers as state transformers *)

(** A handler reads and writes the stores and either answers or throws;
    what it wrote before throwing stays written. *)
Definition M (A : Type) : Type := World -> result A * World.

Definition ret {A} (a : A) : M A := fun w => (Ok a, w).
Definition throw {A} (e : error) : M A := fun w => (Throw e, w).
Definition bind {A B} (c : M A) (k : A -> M B) : M B :=
  fun w => match c w with
           | (Ok a, w') => k a w'
           | (Throw e, w') => (Throw e, w')
           end.

(** Running a model method on one of the collections. *)
Definition onProducts {A}
  (f : gmap string Product.t -> result A * gmap string Product.t) : M A :=
  fun w => let '(r, p) := f (products w) in (r, set_products w p).
Definition onCarts {A}
  (f : gmap string Cart.t -> result A * gmap string Cart.t) : M A :=
  fun w => let '(r, c) := f (carts w) in (r, set_carts w c).
Definition onOrders {A}
  (f : list Order.t -> result A * list Order.t) : M A :=
  fun w => let '(r, o) := f (orders w) in (r, set_orders w o).

Declare Scope handler_scope.
Delimit Scope handler_scope with handler.
Notation "x <- c ;; k" := (bind c (fun x => k))
  (at level 100, c at next level, right associativity) : handler_scope.
Notation "c ;;; k" := (bind c (fun _ => k))
  (at level 100, right associativity) : handler_scope.

(** [for (const item of items) await item.product.<method>(item.quantity)]:
    the loop stops at the first line whose call throws. *)
Fixpoint forEachLine (method : Product.t -> Z -> gmap string Product.t
                               -> result Product.t * gmap string Product.t)
  (lines : list (string * Z)) (db : gmap string Product.t)
  : result unit * gmap string Product.t :=
  match lines with
  | [] => (Ok tt, db)
  | (productId, qty) :: rest =>
      match db !! productId with
      | None => (Throw (TypeError "Cannot read properties of null"), db)
      | Some p =>
          match method p qty db with
          | (Ok _, db') => forEachLine method rest db'
          | (Throw e, db') => (Throw e, db')
          end
      end
  end.

(** ** Order controller (controllers/order.controller.js) *)
Module OrderController.

Record createRequest : Type := mkCreate {
  shippingAddress : option Order.address;
  billingAddress : option Order.address;
  paymentMethod : string;
  shippingMethod : option string;
  couponCode : option string;
  notes : option string
}.

(** What the handler takes from its environment: the clock, the date a
    week from now, the ObjectId generated for the new document and the
    answer of the payment gateway ([None]: the call failed). *)
Record env : Type := mkEnv {
  now : Date;
  weekAhead : Date;
  newId : string;
  paymentIntent : option string
}.

Definition shippingCosts (m : string) : option float :=
  if String.eqb m "standard" then Some 5.99%float
  else if String.eqb m "express" then Some 12.99%float
  else if String.eqb m "overnight" then Some 24.99%float
  else if String.eqb m "pickup" then Some 0%float
  else None.

Definition taxRate : float := 0.08%float.

Record mockCoupon : Type := mkMock {
  type : Order.couponType;
  value : Z
}.

(** The table of [createOrder]. *)
Definition mockCoupons (codeUpper : string) : option mockCoupon :=
  if String.eqb codeUpper "SAVE10" then
    Some {| type := Order.percentage; value := 10 |}
  else if String.eqb codeUpper "FLAT20" then
    Some {| type := Order.fixed; value := 20 |}
  else None.

(** The coupon block of [createOrder]: the discount and the [coupon]
    sub-document. *)
Definition couponFor (code : option string) (subtotal : float)
  : float * option Order.coupon :=
  if JS.truthy code then
    match mockCoupons (JS.toUpperCase (default "" code)) with
    | Some appliedCoupon =>
        let discount :=
          match type appliedCoupon with
          | Order.percentage =>
              (subtotal * JS.ofZ (value appliedCoupon) / 100)%float
          | Order.fixed => JS.ofZ (value appliedCoupon)
          end in
        (discount,
         Some {| Order.code := default "" code;
                 Order.couponDiscount := discount;
                 Order.type := type appliedCoupon |})
    | None => (0%float, None)
    end
  else (0%float, None).

(** [cart.items.map(item => ({ ... }))] over the lines of the cart that
    createOrder has populated through the product collection [db]. *)
Fixpoint orderItems (db : gmap string Product.t) (l : list Cart.item)
  : result (list Order.item) :=
  match l with
  | [] => Ok []
  | it :: rest =>
      match db !! Cart.product it with
      | None => Throw (TypeError "Cannot read properties of null")
      | Some p =>
          match orderItems db rest with
          | Throw e => Throw e
          | Ok r =>
              Ok ({| Order.product := Product._id p;
                     Order.variant := Cart.variant it;
                     Order.quantity := Cart.quantity it;
                     Order.price := Cart.price it;
                     Order.total :=
                       (Cart.price it * JS.ofZ (Cart.quantity it))%float;
                     Order.productSnapshot :=
                       {| Order.snapName := Product.name p;
                          Order.snapSku := Product.sku p;
                          Order.snapImage := Product.image p |} |} :: r)
          end
      end
  end.

Definition cartLines (l : list Cart.item) : list (string * Z) :=
  map (fun it => (Cart.product it, Cart.quantity it)) l.

Definition orderLines (l : list Order.item) : list (string * Z) :=
  map (fun it => (Order.product it, Order.quantity it)) l.

Definition join (sep : string) (l : list string) : string :=
  String.concat sep l.

(** [PaymentService.createPaymentIntent(order)] followed by the
    controller's own assignment and [save()], all inside the [try]. *)
Definition setupPayment (e : env) (order : Order.t) : M Order.t :=
  match paymentIntent e with
  | None => throw (ApiError 500 "Payment setup failed")
  | Some intentId =>
      let order1 :=
        Order.set_pay order
          (Order.pay_set_payStatus
             (Order.pay_set_paymentIntentId (Order.pay order) (Some intentId))
             Order.pay_processing) in
      fun w =>
        match onOrders (Order.save (now e) order1) w with
        | (Throw _, w') => (Throw (ApiError 500 "Payment setup failed"), w')
        | (Ok order2, w') =>
            match onOrders (Order.save (now e) order2) w' with
            | (Throw _, w'') => (Throw (ApiError 500 "Payment setup failed"), w'')
            | (Ok order3, w'') => (Ok order3, w'')
            end
        end
  end.

(** [createOrder]. *)
Definition createOrder (e : env) (u : ReqUser) (rq : createRequest)
  : M Order.t :=
  fun w =>
  match carts w !! userId u with
  | None => (Throw (ApiError 400 "Cart is empty"), w)
  | Some cart =>
    if Cart.isEmpty cart then (Throw (ApiError 400 "Cart is empty"), w)
    else
    match Cart.validateItems (products w)
            (Cart.items (Cart.populate (products w) cart)) with
    | (_ :: _) as validationErrors =>
        (Throw (ApiError 400
                  ("Cart validation failed: " ++ join ", " validationErrors)), w)
    | [] =>
      let method := default "standard" (shippingMethod rq) in
      let shippingCost := JS.or_num (shippingCosts method) 5.99%float in
      let subtotal := Cart.totalAmount cart in
      let tax := (subtotal * taxRate)%float in
      let '(discount, coupon) := couponFor (couponCode rq) subtotal in
      let total := (subtotal + shippingCost + tax - discount)%float in
      match orderItems (products w) (Cart.items cart) with
      | Throw err => (Throw err, w)
      | Ok items =>
        let order0 :=
          {| Order._id := newId e;
             Order.isNew := true;
             Order.orderNumber :=
               "ORD-" ++ JS.toString (fullYear (now e))
                 ++ JS.sliceLast 6 (JS.toString (epochMs (now e)));
             Order.user := userId u;
             Order.items := items;
             Order.orderStatus := Order.pending;
             Order.statusHistory := [];
             Order.shippingAddress := shippingAddress rq;
             Order.billingAddress :=
               match billingAddress rq with
               | Some a => Some a
               | None => shippingAddress rq
               end;
             Order.pay :=
               {| Order.method := paymentMethod rq;
                  Order.payStatus := Order.pay_pending;
                  Order.transactionId := None;
                  Order.paymentIntentId := None;
                  Order.amount := total;
                  Order.currency := "USD";
                  Order.paidAt := None;
                  Order.refundedAt := None |};
             Order.price_ :=
               {| Order.subtotal := subtotal;
                  Order.shippingFee := shippingCost;
                  Order.tax := tax;
                  Order.discount := discount;
                  Order.grandTotal := total |};
             Order.ship :=
               {| Order.shipMethod := method;
                  Order.cost := shippingCost;
                  Order.shipEstimatedDelivery := Some (weekAhead e);
                  Order.shipActualDelivery := None;
                  Order.trackingNumber := None;
                  Order.carrier := None |};
             Order.appliedCoupon := coupon;
             Order.notes := notes rq;
             Order.internalNotes := None;
             Order.estimatedDelivery := None;
             Order.actualDelivery := None;
             Order.cancelledAt := None;
             Order.cancelReason := None;
             Order.refundAmount := 0%float;
             Order.refundReason := None;
             Order.createdAt := None;
             Order.updatedAt := None |} in
        let order1 :=
          Order.addStatusHistory (now e) order0 Order.pending
            (Some "Order created") None in
        (order <- onOrders (Order.save (now e) order1) ;;
         onProducts (forEachLine Product.reserveStock
                       (cartLines (Cart.items cart))) ;;;
         onCarts (Cart.clearCart (now e) cart) ;;;
         if String.eqb (paymentMethod rq) "stripe"
         then setupPayment e order
         else ret order)%handler w
      end
    end
  end.

(** [cancelOrder]. *)
Definition cancelOrder (now_ : Date) (u : ReqUser) (id : string)
  (reason : option string) : M Order.t :=
  fun w =>
  match Order.findById id (orders w) with
  | None => (Throw (ApiError 404 "Order not found"), w)
  | Some order =>
    if negb (String.eqb (Order.user order) (userId u))
       && negb (String.eqb (role u) "admin")
    then (Throw (ApiError 403 "Access denied"), w)
    else if negb (Order.canBeCancelled order)
    then (Throw (ApiError 400 "Order cannot be cancelled at this stage"), w)
    else
      (onProducts (forEachLine Product.releaseStock
                     (orderLines (Order.items order))) ;;;
       let order1 :=
         Order.addStatusHistory now_ order Order.cancelled reason
           (Some (userId u)) in
       let order2 :=
         Order.set_cancelReason (Order.set_cancelledAt order1 (Some now_))
           reason in
       onOrders (Order.save now_ order2))%handler w
  end.

Record statusRequest : Type := mkStatus {
  status : Order.status;
  note : option string;
  trackingNumber : option string;
  carrier : option string
}.

(** [updateOrderStatus] (admin only). *)
Definition updateOrderStatus (now_ : Date) (u : ReqUser) (id : string)
  (rq : statusRequest) : M Order.t :=
  fun w =>
  match Order.findById id (orders w) with
  | None => (Throw (ApiError 404 "Order not found"), w)
  | Some order =>
      let order1 :=
        Order.addStatusHistory now_ order (status rq) (note rq)
          (Some (userId u)) in
      let ship1 :=
        if JS.truthy (trackingNumber rq)
        then Order.ship_set_trackingNumber (Order.ship order1) (trackingNumber rq)
        else Order.ship order1 in
      let ship2 :=
        if JS.truthy (carrier rq)
        then Order.ship_set_carrier ship1 (carrier rq)
        else ship1 in
      let ship3 :=
        if bool_decide (status rq = Order.delivered)
        then Order.ship_set_shipActualDelivery ship2 (Some now_)
        else ship2 in
      onOrders (Order.save now_ (Order.set_ship order1 ship3)) w
  end.

(** [addOrderNote] (admin only).  [iso] is [new Date().toISOString()]. *)
Definition addOrderNote (now_ : Date) (iso : string) (id : string)
  (note_ : string) (isInternal : bool) : M unit :=
  fun w =>
  match Order.findById id (orders w) with
  | None => (Throw (ApiError 404 "Order not found"), w)
  | Some order =>
      let line := JS.newline ++ "[" ++ iso ++ "] " ++ note_ in
      let order1 :=
        if isInternal
        then Order.set_internalNotes order
               (Some (default "" (Order.internalNotes order) ++ line))
        else Order.set_notes order (Some (default "" (Order.notes order) ++ line)) in
      match onOrders (Order.save now_ order1) w with
      | (Ok _, w') => (Ok tt, w')
      | (Throw err, w') => (Throw err, w')
      end
  end.

(** The fields of the address a request may carry ([None]: not sent). *)
Record addressUpdates : Type := mkUpdates {
  newFirstName : option string;
  newLastName : option string;
  newStreet : option string;
  newCity : option string;
  newState : option string;
  newZipCode : option string;
  newCountry : option string;
  newPhone : option string
}.

Definition noUpdates (up : addressUpdates) : bool :=
  match newFirstName up, newLastName up, newStreet up, newCity up,
        newState up, newZipCode up, newCountry up, newPhone up with
  | None, None, None, None, None, None, None, None => true
  | _, _, _, _, _, _, _, _ => false
  end.

(** [Object.keys(updates).forEach(key => { if (updates[key] !== undefined)
    order.shippingAddress[key] = updates[key]; })]. *)
Definition applyUpdates (up : addressUpdates) (a : Order.address) : Order.address :=
  {| Order.firstName := default (Order.firstName a) (newFirstName up);
     Order.lastName := default (Order.lastName a) (newLastName up);
     Order.street := default (Order.street a) (newStreet up);
     Order.city := default (Order.city a) (newCity up);
     Order.state := default (Order.state a) (newState up);
     Order.zipCode := default (Order.zipCode a) (newZipCode up);
     Order.country := default (Order.country a) (newCountry up);
     Order.phone := match newPhone up with
                    | Some ph => Some ph
                    | None => Order.phone a
                    end |}.

(** [updateShippingAddress]. *)
Definition updateShippingAddress (now_ : Date) (u : ReqUser) (id : string)
  (updates : addressUpdates) : M (option Order.address) :=
  fun w =>
  match Order.findById id (orders w) with
  | None => (Throw (ApiError 404 "Order not found"), w)
  | Some order =>
      if negb (String.eqb (Order.user order) (userId u))
      then (Throw (ApiError 403 "Access denied"), w)
      else if negb (match Order.orderStatus order with
                    | Order.pending | Order.confirmed => true
                    | _ => false
                    end)
      then (Throw (ApiError 400
                     "Cannot update shipping address after order is processed"), w)
      else
        match Order.shippingAddress order with
        | None =>
            if noUpdates updates then
              match onOrders (Order.save now_ order) w with
              | (Ok o, w') => (Ok (Order.shippingAddress o), w')
              | (Throw err, w') => (Throw err, w')
              end
            else (Throw (TypeError "Cannot set properties of undefined"), w)
        | Some a =>
            let order1 :=
              Order.set_shippingAddress order (Some (applyUpdates updates a)) in
            match onOrders (Order.save now_ order1) w with
            | (Ok o, w') => (Ok (Order.shippingAddress o), w')
            | (Throw err, w') => (Throw err, w')
            end
        end
  end.

End OrderController.

(** ** Payment service (services/payment.service.js) *)
Module PaymentService.

(** [handlePaymentFailure(paymentIntent)]: whatever is thrown inside is
    caught and logged, so the handler itself never throws. *)
Definition handlePaymentFailure (now_ : Date) (intentId : string)
  : World -> World :=
  fun w =>
  match Order.findByPaymentIntent intentId (orders w) with
  | None => w
  | Some order =>
      let order1 :=
        Order.set_pay order
          (Order.pay_set_payStatus (Order.pay order) Order.pay_failed) in
      let order2 :=
        Order.addStatusHistory now_ order1 Order.cancelled
          (Some "Payment failed") None in
      snd (onOrders (Order.save now_ order2) w)
  end.

(** [handlePaymentCancellation(paymentIntent)]. *)
Definition handlePaymentCancellation (now_ : Date) (intentId : string)
  : World -> World :=
  fun w =>
  match Order.findByPaymentIntent intentId (orders w) with
  | None => w
  | Some order =>
      let order1 :=
        Order.set_pay order
          (Order.pay_set_payStatus (Order.pay order) Order.pay_cancelled) in
      let order2 :=
        Order.addStatusHistory now_ order1 Order.cancelled
          (Some "Payment cancelled by user") None in
      snd (onOrders (Order.save now_ order2) w)
  end.

(** [handlePaymentSuccess(paymentIntent)]. *)
Definition handlePaymentSuccess (now_ : Date) (intentId : string)
  : World -> World :=
  fun w =>
  match Order.findByPaymentIntent intentId (orders w) with
  | None => w
  | Some order =>
      let pay1 := Order.pay_set_payStatus (Order.pay order) Order.pay_succeeded in
      let pay2 := Order.pay_set_transactionId pay1 (Some intentId) in
      let pay3 := Order.pay_set_paidAt pay2 (Some now_) in
      let order1 := Order.set_pay order pay3 in
      let order2 :=
        Order.addStatusHistory now_ order1 Order.confirmed
          (Some "Payment received successfully") None in
      snd (onOrders (Order.save now_ order2) w)
  end.

(** The Stripe event once its signature is verified: [event.type] and
    [event.data.object.id]. *)
Record event : Type := mkEvent {
  eventType : string;
  intent : string
}.

(** [handleWebhook(payload, signature)].  [constructEvent] either yields
    the event or throws ([None]). *)
Definition handleWebhook (now_ : Date) (verified : option event) : M unit :=
  fun w =>
  match verified with
  | None => (Throw (ApiError 400 "Webhook signature verification failed"), w)
  | Some ev =>
      if String.eqb (eventType ev) "payment_intent.succeeded"
      then (Ok tt, handlePaymentSuccess now_ (intent ev) w)
      else if String.eqb (eventType ev) "payment_intent.payment_failed"
      then (Ok tt, handlePaymentFailure now_ (intent ev) w)
      else if String.eqb (eventType ev) "payment_intent.canceled"
      then (Ok tt, handlePaymentCancellation now_ (intent ev) w)
      else (Ok tt, w)
  end.

(** The body of the [try] of [processRefund(orderId, amount, reason)] up
    to its first store write.  The module imports [createPaymentIntent],
    [confirmPayment] and [constructEvent] from config/stripe.js but not
    [stripe], so evaluating [stripe.refunds.create] throws a
    [ReferenceError] before the order is touched. *)
Definition refundAttempt (orderId : string) (w : World) : error :=
  match Order.findById orderId (orders w) with
  | None => ApiError 404 "Order not found"
  | Some order =>
      if negb (bool_decide (Order.payStatus (Order.pay order) = Order.pay_succeeded))
      then ApiError 400 "Cannot refund unpaid order"
      else JsError "stripe is not defined"
  end.

(** [processRefund]: whatever the [try] throws is logged and replaced. *)
Definition processRefund (orderId : string) (refundAmount : float)
  (reason : option string) : M unit :=
  fun w =>
  match refundAttempt orderId w with
  | _ => (Throw (ApiError 500 "Refund processing failed"), w)
  end.

End PaymentService.

(** ** Refunds (controllers/order.controller.js, after the service it calls) *)
Module Refund.

(** [requestRefund].  [show] is the conversion of a number to a string
    that the template literal applies. *)
Definition requestRefund (show : float -> string) (now_ : Date) (u : ReqUser)
  (id : string) (reason : option string) (amount : option float) : M Order.t :=
  fun w =>
  match Order.findById id (orders w) with
  | None => (Throw (ApiError 404 "Order not found"), w)
  | Some order =>
      if negb (String.eqb (Order.user order) (userId u))
      then (Throw (ApiError 403 "Access denied"), w)
      else if negb (Order.canBeRefunded order)
      then (Throw (ApiError 400 "Order is not eligible for refund"), w)
      else
        let refundAmount :=
          JS.or_num amount (Order.grandTotal (Order.price_ order)) in
        match PaymentService.processRefund (Order._id order) refundAmount reason w with
        | (Throw _, w') => (Throw (ApiError 500 "Refund processing failed"), w')
        | (Ok _, w') =>
            let order1 :=
              Order.addStatusHistory now_ order Order.refunded
                (Some ("Refund processed: $" ++ show refundAmount)) (Some (userId u)) in
            let order2 :=
              Order.set_refundReason (Order.set_refundAmount order1 refundAmount)
                reason in
            match onOrders (Order.save now_ order2) w' with
            | (Ok o, w'') => (Ok o, w'')
            | (Throw _, w'') => (Throw (ApiError 500 "Refund processing failed"), w'')
            end
        end
  end.

End Refund.

(** ** Sample data *)
Module Sample.

Definition today : Date :=
  {| fullYear := 2026; monthIndex := 10; dayOfMonth := 2;
     epochMs := 1793577600000 |}.

Definition nextWeek : Date :=
  {| fullYear := 2026; monthIndex := 10; dayOfMonth := 9;
     epochMs := 1794182400000 |}.

Definition tenDollars : float := 10%float.

Definition productP (id : string) (units : Z) : Product.t :=
  {| Product._id := id; Product.name := "Widget"; Product.sku := "W-1";
     Product.image := None; Product.price := tenDollars;
     Product.salePrice := None; Product.stock := units;
     Product.isActive := true |}.

Definition line (productId : string) (variantId : option string) (qty : Z)
  : Cart.item :=
  {| Cart.product := productId; Cart.view_ := Cart.Unpopulated;
     Cart.variant := variantId; Cart.quantity := qty;
     Cart.price := tenDollars; Cart.addedAt := today |}.

Definition cartOf (l : list Cart.item) : Cart.t :=
  {| Cart.user := "u1"; Cart.items := l;
     Cart.totalAmount :=
       fold_left (fun sum it => (sum + Cart.price it * JS.ofZ (Cart.quantity it))%float)
                 l 0%float;
     Cart.totalItems := fold_left (fun sum it => sum + Cart.quantity it) l 0;
     Cart.lastModified := today |}.

Definition alice : ReqUser := {| userId := "u1"; role := "user" |}.
Definition admin : ReqUser := {| userId := "a1"; role := "admin" |}.

Definition home : Order.address :=
  {| Order.firstName := "Alice"; Order.lastName := "Doe";
     Order.street := "1 Main St"; Order.city := "Springfield";
     Order.state := "IL"; Order.zipCode := "62701";
     Order.country := "USA"; Order.phone := None |}.

(** One product with three units left and a cart that holds it twice,
    in two variants, two units each. *)
Definition twoVariants : World :=
  {| products := {[ "p1" := productP "p1" 3 ]};
     carts := {[ "u1" := cartOf [line "p1" (Some "v1") 2; line "p1" (Some "v2") 2] ]};
     orders := [];
     redis := None |}.

Definition checkout : OrderController.createRequest :=
  {| OrderController.shippingAddress := Some home;
     OrderController.billingAddress := None;
     OrderController.paymentMethod := "paypal";
     OrderController.shippingMethod := None;
     OrderController.couponCode := None;
     OrderController.notes := None |}.

Definition env : OrderController.env :=
  {| OrderController.now := today;
     OrderController.weekAhead := nextWeek;
     OrderController.newId := "o1";
     OrderController.paymentIntent := Some "pi_1" |}.

(** An order for two units of [p1], placed when five were in stock. *)
Definition placed (st : Order.status) : Order.t :=
  {| Order._id := "o1";
     Order.isNew := false;
     Order.orderNumber := "ORD-20261102-0001";
     Order.user := "u1";
     Order.items :=
       [ {| Order.product := "p1"; Order.variant := None;
            Order.quantity := 2; Order.price := tenDollars;
            Order.total := 20%float;
            Order.productSnapshot :=
              {| Order.snapName := "Widget"; Order.snapSku := "W-1";
                 Order.snapImage := None |} |} ];
     Order.orderStatus := st;
     Order.statusHistory :=
       [ {| Order.entryStatus := Order.pending; Order.timestamp := today;
            Order.note := "Order created"; Order.updatedBy := None |} ];
     Order.shippingAddress := Some home;
     Order.billingAddress := Some home;
     Order.pay :=
       {| Order.method := "stripe"; Order.payStatus := Order.pay_processing;
          Order.transactionId := None; Order.paymentIntentId := Some "pi_1";
          Order.amount := 27.59%float; Order.currency := "USD";
          Order.paidAt := None; Order.refundedAt := None |};
     Order.price_ :=
       {| Order.subtotal := 20%float;
          Order.shippingFee := 5.99%float;
          Order.tax := 1.6%float;
          Order.discount := 0%float;
          Order.grandTotal := 27.59%float |};
     Order.ship :=
       {| Order.shipMethod := "standard"; Order.cost := 5.99%float;
          Order.shipEstimatedDelivery := Some nextWeek;
          Order.shipActualDelivery := None;
          Order.trackingNumber := None; Order.carrier := None |};
     Order.appliedCoupon := None;
     Order.notes := None;
     Order.internalNotes := Some "call the customer first";
     Order.estimatedDelivery := None;
     Order.actualDelivery := None;
     Order.cancelledAt := None;
     Order.cancelReason := None;
     Order.refundAmount := 0%float;
     Order.refundReason := None;
     Order.createdAt := Some today;
     Order.updatedAt := Some today |}.

(** The stores after that checkout: three units are left. *)
Definition afterCheckout (st : Order.status) : World :=
  {| products := {[ "p1" := productP "p1" 3 ]};
     carts := {[ "u1" := cartOf [] ]};
     orders := [placed st];
     redis := None |}.

(** A cart worth 20.00: two units at 10.00. *)
Definition smallCart : World :=
  {| products := {[ "p1" := productP "p1" 5 ]};
     carts := {[ "u1" := cartOf [line "p1" None 2] ]};
     orders := [];
     redis := None |}.

Definition checkoutWith (code : string) : OrderController.createRequest :=
  {| OrderController.shippingAddress := Some home;
     OrderController.billingAddress := None;
     OrderController.paymentMethod := "paypal";
     OrderController.shippingMethod := None;
     OrderController.couponCode := Some code;
     OrderController.notes := None |}.

Definition backTo (st : Order.status) : OrderController.statusRequest :=
  {| OrderController.status := st; OrderController.note := None;
     OrderController.trackingNumber := None; OrderController.carrier := None |}.

(** A document about to be saved for the first time, on a day that
    already has 9999 orders. *)
Definition fresh : Order.t :=
  Order.set_isNew (Order.set_orderNumber (placed Order.pending) "ORD-2026600000")
    true.

Definition busyDay : list Order.t :=
  repeat (placed Order.pending) (N.to_nat 9999).

(** Two requests of one user for one product, and the stores they meet:
    five units in stock, no cart yet, Redis up and empty. *)
Definition addOne : CartController.addRequest :=
{| CartController.productId := "p1"; CartController.quantity := 1;
   CartController.variantId := None |}.

Definition shop : World :=
{| products := {[ "p1" := productP "p1" 5 ]};
   carts := ∅;
   orders := [];
   redis := Some ∅ |}.

(** One millisecond after [today]. *)
Definition aMsLater : Date :=
{| fullYear := 2026; monthIndex := 10; dayOfMonth := 2;
   epochMs := 1793577600001 |}.

(** The second request starts while the first is between its [SET] and
    its cart update. *)
Definition overlap : list (CartController.who * Date) :=
[ (CartController.First, today); (CartController.First, today);
  (CartController.Second, aMsLater); (CartController.Second, aMsLater) ].

(** Both requests run to their end. *)
Definition toTheEnd : list (CartController.who * Date) :=
[ (CartController.First, aMsLater); (CartController.Second, aMsLater);
  (CartController.First, aMsLater); (CartController.First, aMsLater);
  (CartController.Second, aMsLater); (CartController.Second, aMsLater) ].

End Sample.

(** ** Notions of the specification *)
Module Spec.

(** Σ quantity over the lines. *)
Fixpoint sumQuantities (l : list Cart.item) : Z :=
  match l with
  | [] => 0
  | it :: r => Cart.quantity it + sumQuantities r
  end.

(** Σ quantity × unitPrice over the lines, on the exact values of the
    prices ([None] when a price has none: an infinity or [NaN]). *)
Fixpoint sumAmounts (l : list Cart.item) : option Q :=
  match l with
  | [] => Some 0%Q
  | it :: r =>
      match JS.exact (Cart.price it), sumAmounts r with
      | Some p, Some s => Some (inject_Z (Cart.quantity it) * p + s)%Q
      | _, _ => None
      end
  end.

(** The same sum the way the hook computes it: in binary64, from 0, one
    line after the other, every product and every partial sum rounded. *)
Definition reducedAmounts (l : list Cart.item) : float :=
  fold_left (fun sum it => (sum + Cart.price it * JS.ofZ (Cart.quantity it))%float)
            l 0%float.

(** The lines hold plain product references: none has been populated. *)
Definition plain (l : list Cart.item) : Prop :=
  forall it, In it l -> Cart.view_ it = Cart.Unpopulated.

(** The match of a line that holds a plain reference: the product is
    [productId] and either no variant is asked for or the variant is the
    one asked for. *)
Definition matchesId (productId : string) (variantId : option string)
  (it : Cart.item) : bool :=
  String.eqb (Cart.product it) productId
  && (negb (JS.truthy variantId)
      || match Cart.variant it, variantId with
         | Some v, Some w => String.eqb v w
         | _, _ => false
         end).

(** The first position of a list that satisfies a test. *)
Fixpoint firstIndex {A} (f : A -> bool) (l : list A) : option nat :=
  match l with
  | [] => None
  | x :: r => if f x then Some O else option_map S (firstIndex f r)
  end.

(** The uniqueness key of a line: (productRef, variantRef). *)
Definition sameKey (productId : string) (variantId : option string)
  (it : Cart.item) : Prop :=
  Cart.product it = productId /\ Cart.variant it = variantId.

(** The four mutating operations of the cart aggregate. *)
Inductive cartOp : Type :=
| AddItem (productId : string) (qty : Z) (unitPrice : float)
    (variantId : option string)
| UpdateItem (productId : string) (qty : Z) (variantId : option string)
| RemoveItem (productId : string) (variantId : option string)
| Clear.

Definition perform (now : Date) (c : Cart.t) (op : cartOp)
  (db : gmap string Cart.t) : result Cart.t * gmap string Cart.t :=
  match op with
  | AddItem p q u v => Cart.addItem now c p q u v db
  | UpdateItem p q v => Cart.updateItem now c p q v db
  | RemoveItem p v => Cart.removeItem now c p v db
  | Clear => Cart.clearCart now c db
  end.

(** The transition graph of section 4.4:
    pending → confirmed → processing → shipped → out_for_delivery →
    delivered; pending|confirmed|processing → cancelled;
    delivered → refunded. *)
Definition allowedTransition (from to : Order.status) : bool :=
  match from, to with
  | Order.pending, Order.confirmed
  | Order.confirmed, Order.processing
  | Order.processing, Order.shipped
  | Order.shipped, Order.out_for_delivery
  | Order.out_for_delivery, Order.delivered
  | Order.pending, Order.cancelled
  | Order.confirmed, Order.cancelled
  | Order.processing, Order.cancelled
  | Order.delivered, Order.refunded => true
  | _, _ => false
  end.

(** The units of product [productId] that the lines carry. *)
Fixpoint unitsOf (productId : string) (lines : list (string * Z)) : Z :=
  match lines with
  | [] => 0
  | (p, q) :: r =>
      (if String.eqb p productId then q else 0) + unitsOf productId r
  end.

(** Every document of the product collection is stored under its own
    [_id]. *)
Definition keyed (db : gmap string Product.t) : Prop :=
  forall k p, db !! k = Some p -> Product._id p = k.

(** The value carries no property named [internalNotes], at any depth. *)
Definition clean (v : jsval) : Prop := hasKey "internalNotes" v = false.

(** The request is not on the path of a refused lock: it has not been
    answered 409 and is not about to be. *)
Definition notRefused (p : CartController.pc) : Prop :=
match p with
| CartController.AtReleaseGet _ acquired outcome
| CartController.AtReleaseDel acquired outcome =>
    acquired = true /\ forall msg, outcome <> Throw (ApiError 409 msg)
| CartController.Finished outcome =>
    forall msg, outcome <> Throw (ApiError 409 msg)
| _ => True
end.

(** A string of decimal digits. *)
Definition isDigit (c : ascii) : bool :=
  let n := nat_of_ascii c in ((48 <=? n)%nat && (n <=? 57)%nat)%bool.

Fixpoint allDigits (s : string) : bool :=
  match s with
  | EmptyString => true
  | String c r => isDigit c && allDigits r
  end.

(** No product of the collection has negative stock. *)
Definition nonnegStock (db : gmap string Product.t) : Prop :=
forall k p, db !! k = Some p -> 0 <= Product.stock p.

(** The line passes the three checks of [validateItems]. *)
Definition available (db : gmap string Product.t) (it : Cart.item) : Prop :=
exists p, Cart.findProduct db it = Some p
          /\ Product.isActive p = true
          /\ Cart.quantity it <= Product.stock p.

(** The order's status is the status of its last history entry. *)
Definition inSync (o : Order.t) : Prop :=
Order.entryStatus <$> last (Order.statusHistory o) = Some (Order.orderStatus o).

(** The requests that write to the order collection. *)
Inductive request : Type :=
| CreateOrder (e : OrderController.env) (u : ReqUser)
    (rq : OrderController.createRequest)
| CancelOrder (now : Date) (u : ReqUser) (id : string) (reason : option string)
| UpdateOrderStatus (now : Date) (u : ReqUser) (id : string)
    (rq : OrderController.statusRequest)
| AddOrderNote (now : Date) (iso id note : string) (isInternal : bool)
| UpdateShippingAddress (now : Date) (u : ReqUser) (id : string)
    (updates : OrderController.addressUpdates)
| RequestRefund (show : float -> string) (now : Date) (u : ReqUser) (id : string)
    (reason : option string) (amount : option float)
| Webhook (now : Date) (verified : option PaymentService.event).

(** The stores a request leaves behind, whether it answers or throws. *)
Definition handle (r : request) (w : World) : World :=
match r with
| CreateOrder e u rq => snd (OrderController.createOrder e u rq w)
| CancelOrder now u id reason => snd (OrderController.cancelOrder now u id reason w)
| UpdateOrderStatus now u id rq =>
    snd (OrderController.updateOrderStatus now u id rq w)
| AddOrderNote now iso id note isInternal =>
    snd (OrderController.addOrderNote now iso id note isInternal w)
| UpdateShippingAddress now u id updates =>
    snd (OrderController.updateShippingAddress now u id updates w)
| RequestRefund show now u id reason amount =>
    snd (Refund.requestRefund show now u id reason amount w)
| Webhook now verified => snd (PaymentService.handleWebhook now verified w)
end.

(** Every cart is stored under its owner. *)
Definition cartsKeyed (db : gmap string Cart.t) : Prop :=
forall k c, db !! k = Some c -> Cart.user c = k.

End Spec.

(** * Verification *)

(** ** Cart totals *)

Lemma fold_quantities (l : list Cart.item) (acc : Z) :
  fold_left (fun sum it => sum + Cart.quantity it) l acc
  = acc + Spec.sumQuantities l.
Proof.
  revert acc. induction l as [|it l IH]; intros acc; simpl.
  - lia.
  - rewrite IH. lia.
Qed.

Lemma preSave_totals (now : Date) (c : Cart.t) :
  Cart.totalItems (Cart.preSave now c) = Spec.sumQuantities (Cart.items c)
  /\ Cart.totalAmount (Cart.preSave now c) = Spec.reducedAmounts (Cart.items c)
  /\ Cart.items (Cart.preSave now c) = Cart.items c
  /\ Cart.user (Cart.preSave now c) = Cart.user c.
Proof.
  unfold Cart.preSave; simpl. rewrite fold_quantities.
  repeat split; try reflexivity; lia.
Qed.

(** Storing the references as ids changes neither total. *)
Lemma depopulate_totals (c : Cart.t) :
  Spec.sumQuantities (Cart.items (Cart.depopulate c))
  = Spec.sumQuantities (Cart.items c)
  /\ Spec.reducedAmounts (Cart.items (Cart.depopulate c))
     = Spec.reducedAmounts (Cart.items c).
Proof.
  unfold Cart.depopulate, Spec.reducedAmounts. simpl. split.
  - induction (Cart.items c) as [|it l IH]; simpl; [reflexivity | now rewrite IH].
  - generalize 0%float.
    induction (Cart.items c) as [|it l IH]; intros acc; simpl;
      [reflexivity | apply IH].
Qed.

Lemma cart_save_ok (now : Date) (c c' : Cart.t) (db db' : gmap string Cart.t) :
  Cart.save now c db = (Ok c', db') ->
  Cart.valid c = true /\ c' = Cart.preSave now c
  /\ db' = <[Cart.user c := Cart.depopulate c']> db.
Proof.
  unfold Cart.save. destruct (Cart.valid c); [|discriminate].
  intros H; inversion H; subst. auto.
Qed.

Lemma cart_save_throw (now : Date) (c : Cart.t) (e : error)
  (db db' : gmap string Cart.t) :
  Cart.save now c db = (Throw e, db') -> db' = db.
Proof.
  unfold Cart.save. destruct (Cart.valid c); intros H; inversion H; auto.
Qed.

(** Every operation that completes ends in [save()] of the same document
    with new lines. *)
Lemma perform_saves (now : Date) (c c' : Cart.t) (op : Spec.cartOp)
  (db db' : gmap string Cart.t) :
  Spec.perform now c op db = (Ok c', db') ->
  exists l, Cart.save now (Cart.set_items c l) db = (Ok c', db').
Proof.
  destruct op as [p q u v|p q v|p v|]; simpl.
  - unfold Cart.addItem.
    destruct (Cart.findIndex _ _) as [i|e]; [eauto | discriminate].
  - unfold Cart.updateItem.
    destruct (Cart.findIndex _ _) as [[i|]|e]; [eauto | discriminate..].
  - unfold Cart.removeItem.
    destruct (Cart.reject _ _) as [l|e]; [eauto | discriminate].
  - unfold Cart.clearCart. eauto.
Qed.

(** C4, as the source has it. After every mutating operation of the cart
    that completes (addItem, updateItem, removeItem, clearCart), the
    returned cart and the cart stored for the user have [totalItems] equal
    to the sum of the quantities of their lines, and [totalAmount] equal
    to the binary64 sum of price times quantity, taken from 0 in line
    order. *)
Theorem cart_totals_after_mutation
  (now : Date) (c c' : Cart.t) (op : Spec.cartOp) (db db' : gmap string Cart.t) :
  Spec.perform now c op db = (Ok c', db') ->
  Cart.totalItems c' = Spec.sumQuantities (Cart.items c')
  /\ Cart.totalAmount c' = Spec.reducedAmounts (Cart.items c')
  /\ exists stored,
       db' !! Cart.user c = Some stored
       /\ Cart.totalItems stored = Spec.sumQuantities (Cart.items stored)
       /\ Cart.totalAmount stored = Spec.reducedAmounts (Cart.items stored).
Proof.
  intros H. apply perform_saves in H as [l H].
  apply cart_save_ok in H as (_ & -> & ->).
  destruct (preSave_totals now (Cart.set_items c l)) as (Hi & Ha & Hl & _).
  rewrite Hi, Ha, Hl. simpl.
  split; [reflexivity|]. split; [reflexivity|].
  eexists. split; [apply lookup_insert_eq|].
  destruct (depopulate_totals (Cart.preSave now (Cart.set_items c l)))
    as [-> ->].
  rewrite Hl. simpl. rewrite fold_quantities. split; [lia | reflexivity].
Qed.

Lemma cart_totals_after_mutation_witness :
  let '(r, db') :=
    Spec.perform Sample.today (Sample.cartOf [Sample.line "p1" None 2])
      (Spec.AddItem "p2" 3 Sample.tenDollars None) ∅ in
  match r with
  | Ok c' =>
      Cart.totalItems c' = Spec.sumQuantities (Cart.items c')
      /\ Cart.totalAmount c' = Spec.reducedAmounts (Cart.items c')
      /\ exists stored,
           db' !! "u1" = Some stored
           /\ Cart.totalItems stored = Spec.sumQuantities (Cart.items stored)
           /\ Cart.totalAmount stored = Spec.reducedAmounts (Cart.items stored)
  | Throw _ => False
  end.
Proof.
  destruct (Spec.perform _ _ _ _) as [r db'] eqn:E.
  destruct r as [c'|e].
  - exact (cart_totals_after_mutation _ _ _ _ _ _ E).
  - vm_compute in E. discriminate E.
Defined.

(** C4, as stated, fails on the amount: the sum is taken in binary64.
    Three units at 0.1 give a stored total of 0.30000000000000004, which
    is not the sum of quantity times unit price of the line, whose exact
    value is three times that of the number 0.1. *)
Lemma cart_totals_rounding_counterexample :
  exists c' db' stored exactSum,
    Spec.perform Sample.today (Sample.cartOf [])
      (Spec.AddItem "p1" 3 0.1%float None) ∅ = (Ok c', db')
    /\ Cart.totalAmount c' = 0.30000000000000004%float
    /\ JS.exact (Cart.totalAmount c') = Some stored
    /\ Spec.sumAmounts (Cart.items c') = Some exactSum
    /\ ~ (stored == exactSum)%Q.
Proof.
  destruct (Spec.perform Sample.today (Sample.cartOf [])
              (Spec.AddItem "p1" 3 0.1%float None) ∅) as [[c'|e] db'] eqn:E;
    [|vm_compute in E; discriminate E].
  vm_compute in E. injection E as <- <-.
  eexists _, _, _, _. split; [reflexivity|]. split; [reflexivity|].
  split; [vm_compute; reflexivity|]. split; [vm_compute; reflexivity|].
  unfold Qeq. simpl. lia.
Qed.

(** ** addItem *)

Lemma firstIndex_Some {A} (f : A -> bool) (l : list A) (i : nat) :
  Spec.firstIndex f l = Some i ->
  exists x, l !! i = Some x /\ f x = true
            /\ forall j y, (j < i)%nat -> l !! j = Some y -> f y = false.
Proof.
  revert i. induction l as [|a l IH]; intros i; simpl; [discriminate|].
  destruct (f a) eqn:Fa.
  - intros [= <-]. exists a. repeat split; auto. intros j y Hj. lia.
  - destruct (Spec.firstIndex f l) as [k|]; [|discriminate].
    intros [= <-]. destruct (IH k eq_refl) as (x & Hx & Fx & Hmin).
    exists x. repeat split; auto.
    intros [|j] y Hj; simpl.
    + intros [= <-]. exact Fa.
    + apply Hmin. lia.
Qed.

Lemma firstIndex_None {A} (f : A -> bool) (l : list A) :
  Spec.firstIndex f l = None -> forall x, x ∈ l -> f x = false.
Proof.
  induction l as [|a l IH]; simpl; intros H x Hx.
  - inversion Hx.
  - destruct (f a) eqn:Fa; [discriminate|].
    destruct (Spec.firstIndex f l); [discriminate|].
    apply elem_of_cons in Hx as [->|Hx]; auto.
Qed.

Lemma firstIndex_is_Some {A} (f : A -> bool) (l : list A) (x : A) :
  x ∈ l -> f x = true -> exists i, Spec.firstIndex f l = Some i.
Proof.
  intros Hx Fx. destruct (Spec.firstIndex f l) as [i|] eqn:E; [eauto|].
  rewrite (firstIndex_None f l E x Hx) in Fx. discriminate.
Qed.

Lemma plain_cons (it : Cart.item) (l : list Cart.item) :
  Spec.plain (it :: l) <-> Cart.view_ it = Cart.Unpopulated /\ Spec.plain l.
Proof.
  unfold Spec.plain. split.
  - intros H. split; [apply H; now left | intros x Hx; apply H; now right].
  - intros [Hit Hl] x [<-|Hx]; auto.
Qed.

(** On a line that holds a plain reference the predicate compares ids. *)
Lemma matches_plain (productId : string) (variantId : option string)
  (it : Cart.item) :
  Cart.view_ it = Cart.Unpopulated ->
  Cart.matches productId variantId it = Ok (Spec.matchesId productId variantId it).
Proof. unfold Cart.matches, Cart.refText. intros ->. reflexivity. Qed.

Lemma findIndex_plain (productId : string) (variantId : option string)
  (l : list Cart.item) :
  Spec.plain l ->
  Cart.findIndex (Cart.matches productId variantId) l
  = Ok (Spec.firstIndex (Spec.matchesId productId variantId) l).
Proof.
  induction l as [|it l IH]; intros Hl; simpl; [reflexivity|].
  apply plain_cons in Hl as [Hit Hl]. rewrite (matches_plain _ _ _ Hit).
  destruct (Spec.matchesId productId variantId it); [reflexivity|].
  rewrite (IH Hl). reflexivity.
Qed.

Lemma reject_plain (productId : string) (variantId : option string)
  (l : list Cart.item) :
  Spec.plain l ->
  Cart.reject (Cart.matches productId variantId) l
  = Ok (List.filter (fun it => negb (Spec.matchesId productId variantId it)) l).
Proof.
  induction l as [|it l IH]; intros Hl; simpl; [reflexivity|].
  apply plain_cons in Hl as [Hit Hl]. rewrite (matches_plain _ _ _ Hit), (IH Hl).
  destruct (Spec.matchesId productId variantId it); reflexivity.
Qed.

(** What the predicate decides on plain references. *)
Lemma matches_spec (productId : string) (variantId : option string)
  (it : Cart.item) :
  Spec.matchesId productId variantId it = true
  <-> Cart.product it = productId
      /\ (JS.truthy variantId = false \/ Cart.variant it = variantId).
Proof.
  unfold Spec.matchesId. rewrite andb_true_iff, orb_true_iff, String.eqb_eq.
  rewrite negb_true_iff.
  split; intros [Hp Hv]; split; auto.
  - destruct Hv as [Hv|Hv]; [auto|right].
    destruct (Cart.variant it) as [v|], variantId as [w|]; try discriminate.
    apply String.eqb_eq in Hv. congruence.
  - destruct Hv as [Hv|Hv]; [auto|].
    destruct (JS.truthy variantId) eqn:T; [right|auto].
    rewrite Hv. destruct variantId as [w|]; [|discriminate].
    apply String.eqb_refl.
Qed.

(** C7, as the source has it, on a cart whose lines hold plain product
    references. A line matches when its product is productRef and either
    no variantRef is supplied or its variant is variantRef.  If some line
    matches, addItem increments the quantity of the first matching line by
    qty and overwrites its price with the supplied price; otherwise it
    appends a new line; no other line is changed. *)
Theorem addItem_first_match
  (now : Date) (c c' : Cart.t) (productId : string) (qty : Z) (unitPrice : float)
  (variantId : option string) (db db' : gmap string Cart.t) :
  Spec.plain (Cart.items c) ->
  Cart.addItem now c productId qty unitPrice variantId db = (Ok c', db') ->
  ((exists it, it ∈ Cart.items c /\ Spec.matchesId productId variantId it = true) ->
   exists i it,
     Cart.items c !! i = Some it
     /\ Cart.product it = productId
     /\ (JS.truthy variantId = false \/ Cart.variant it = variantId)
     /\ (forall j y, (j < i)%nat -> Cart.items c !! j = Some y ->
                     Spec.matchesId productId variantId y = false)
     /\ Cart.items c' !! i
        = Some {| Cart.product := Cart.product it; Cart.view_ := Cart.view_ it;
                  Cart.variant := Cart.variant it;
                  Cart.quantity := Cart.quantity it + qty;
                  Cart.price := unitPrice; Cart.addedAt := Cart.addedAt it |}
     /\ (forall j, j <> i -> Cart.items c' !! j = Cart.items c !! j)
     /\ length (Cart.items c') = length (Cart.items c))
  /\ ((forall it, it ∈ Cart.items c -> Spec.matchesId productId variantId it = false) ->
      Cart.items c'
      = (Cart.items c
           ++ [ {| Cart.product := productId; Cart.view_ := Cart.Unpopulated;
                   Cart.variant := variantId;
                   Cart.quantity := qty; Cart.price := unitPrice;
                   Cart.addedAt := now |} ])%list).
Proof.
  unfold Cart.addItem. intros Hplain H.
  rewrite (findIndex_plain _ _ _ Hplain) in H.
  apply cart_save_ok in H as (_ & -> & _).
  simpl. split.
  - intros (it0 & Hin & Hm).
    destruct (firstIndex_is_Some _ _ _ Hin Hm) as [i Hi]. rewrite Hi.
    destruct (firstIndex_Some _ _ _ Hi) as (it & Hit & Hmit & Hmin).
    exists i, it. apply matches_spec in Hmit as [Hp Hv].
    repeat split; auto.
    + rewrite list_lookup_alter_eq, Hit. reflexivity.
    + intros j Hj. apply list_lookup_alter_ne. auto.
    + apply length_alter.
  - intros Hnone.
    destruct (Spec.firstIndex _ _) as [i|] eqn:Hi; [|reflexivity].
    destruct (firstIndex_Some _ _ _ Hi) as (it & Hit & Hmit & _).
    rewrite (Hnone it) in Hmit; [discriminate|].
    apply list_elem_of_lookup. eauto.
Qed.

(** The sample lines hold plain references. *)
Lemma plain_lines (l : list Cart.item) :
  forallb (fun it => match Cart.view_ it with
                     | Cart.Unpopulated => true
                     | _ => false
                     end) l = true ->
  Spec.plain l.
Proof.
  intros H it Hin. rewrite forallb_forall in H. specialize (H it Hin).
  destruct (Cart.view_ it); [reflexivity | discriminate..].
Qed.

Lemma addItem_first_match_witness :
  let '(r, _) :=
    Cart.addItem Sample.today (Sample.cartOf [Sample.line "p1" (Some "v1") 1])
      "p1" 2 Sample.tenDollars None ∅ in
  match r with
  | Ok c' =>
      Cart.items c' = [Sample.line "p1" (Some "v1") 3]
  | Throw _ => False
  end.
Proof.
  destruct (Cart.addItem _ _ _ _ _ _ _) as [r db'] eqn:E.
  destruct r as [c'|e].
  - destruct (addItem_first_match Sample.today
                (Sample.cartOf [Sample.line "p1" (Some "v1") 1]) c' "p1" 2
                Sample.tenDollars None ∅ db'
                (plain_lines [Sample.line "p1" (Some "v1") 1] eq_refl) E)
      as [Hsome _].
    destruct Hsome as (i & it & Hit & _ & _ & _ & Hnew & _ & Hlen).
    + exists (Sample.line "p1" (Some "v1") 1). split; [|reflexivity].
      apply list_elem_of_here.
    + destruct i as [|i]; [|destruct i; discriminate Hit].
      injection Hit as <-.
      destruct (Cart.items c') as [|x [|y l]]; try discriminate Hlen.
      injection Hnew as ->. reflexivity.
  - vm_compute in E. discriminate E.
Defined.

(** C7, as stated, fails: the cart holds one line with key (p1, v1) and no
    line with key (p1, none); addItem(p1, 2, price) without a variant does
    not append a line but increments the (p1, v1) line. *)
Lemma addItem_same_key_counterexample :
  let c := Sample.cartOf [Sample.line "p1" (Some "v1") 1] in
  let r := fst (Cart.addItem Sample.today c "p1" 2 Sample.tenDollars None ∅) in
  (forall it, it ∈ Cart.items c -> ~ Spec.sameKey "p1" None it)
  /\ match r with
     | Ok c' =>
         Cart.items c' = [Sample.line "p1" (Some "v1") 3]
         /\ Cart.items c'
            <> (Cart.items c
                  ++ [ {| Cart.product := "p1"; Cart.view_ := Cart.Unpopulated;
                          Cart.variant := None;
                          Cart.quantity := 2; Cart.price := Sample.tenDollars;
                          Cart.addedAt := Sample.today |} ])%list
     | Throw _ => False
     end.
Proof.
  split.
  - intros it Hin [_ Hv]. simpl in Hin.
    apply list_elem_of_singleton in Hin. subst it. discriminate Hv.
  - vm_compute. split; [reflexivity | discriminate].
Qed.

(** ** Stock reservation and release *)

Lemma set_stock_same (p : Product.t) : Product.set_stock p (Product.stock p) = p.
Proof. destruct p; reflexivity. Qed.

Lemma set_stock_twice (p : Product.t) (a b : Z) :
  Product.set_stock (Product.set_stock p a) b = Product.set_stock p b.
Proof. reflexivity. Qed.

Lemma product_save_ok (p p' : Product.t) (db db' : gmap string Product.t) :
  Product.save p db = (Ok p', db') ->
  0 <= Product.stock p /\ p' = p /\ db' = <[Product._id p := p]> db.
Proof.
  unfold Product.save. destruct (Z.ltb_spec (Product.stock p) 0); [discriminate|].
  intros [= <- <-]. auto.
Qed.

Lemma product_save_throw (p : Product.t) (e : error) (db db' : gmap string Product.t) :
  Product.save p db = (Throw e, db') ->
  Product.stock p < 0 /\ e = ValidationError "stock" /\ db' = db.
Proof.
  unfold Product.save. destruct (Z.ltb_spec (Product.stock p) 0); [|discriminate].
  intros [= <- <-]. auto.
Qed.

Lemma reserveStock_ok (p p' : Product.t) (q : Z) (db db' : gmap string Product.t) :
  Product.reserveStock p q db = (Ok p', db') ->
  q <= Product.stock p
  /\ db' = <[Product._id p := Product.set_stock p (Product.stock p + (-1) * q)]> db.
Proof.
  unfold Product.reserveStock.
  destruct (Z.ltb_spec (Product.stock p) q); [discriminate|].
  intros Hs. apply product_save_ok in Hs as (_ & _ & ->). simpl.
  split; [lia|].
  replace (Product.stock p + -1 * q) with (Product.stock p - q) by lia.
  reflexivity.
Qed.

Lemma reserveStock_throw (p : Product.t) (q : Z) (e : error)
  (db db' : gmap string Product.t) :
  Product.reserveStock p q db = (Throw e, db') ->
  Product.stock p < q /\ e = JsError "Insufficient stock" /\ db' = db.
Proof.
  unfold Product.reserveStock.
  destruct (Z.ltb_spec (Product.stock p) q).
  - intros [= <- <-]. auto.
  - intros Hs. apply product_save_throw in Hs as (Hneg & _ & _).
    simpl in Hneg. lia.
Qed.

Lemma releaseStock_ok (p p' : Product.t) (q : Z) (db db' : gmap string Product.t) :
  Product.releaseStock p q db = (Ok p', db') ->
  db' = <[Product._id p := Product.set_stock p (Product.stock p + 1 * q)]> db.
Proof.
  unfold Product.releaseStock.
  intros Hs. apply product_save_ok in Hs as (_ & _ & ->). simpl.
  replace (Product.stock p + 1 * q) with (Product.stock p + q) by lia.
  reflexivity.
Qed.

Lemma releaseStock_throw (p : Product.t) (q : Z) (e : error)
  (db db' : gmap string Product.t) :
  Product.releaseStock p q db = (Throw e, db') -> db' = db.
Proof.
  unfold Product.releaseStock.
  intros Hs. apply product_save_throw in Hs as (_ & _ & ->). reflexivity.
Qed.

Lemma unitsOf_app (k : string) (l1 l2 : list (string * Z)) :
  Spec.unitsOf k (l1 ++ l2) = Spec.unitsOf k l1 + Spec.unitsOf k l2.
Proof.
  induction l1 as [|[p q] l1 IH]; simpl; [reflexivity|]. rewrite IH. lia.
Qed.

Section Loop.

(** A stock method that, when it succeeds on line quantity [q], stores
    the document with its stock moved by [sign * q]. *)
Variable method : Product.t -> Z -> gmap string Product.t
                  -> result Product.t * gmap string Product.t.
Variable sign : Z.
Hypothesis method_ok :
  forall p q db p' db',
    method p q db = (Ok p', db') ->
    db' = <[Product._id p := Product.set_stock p (Product.stock p + sign * q)]> db.

Lemma keyed_insert (db : gmap string Product.t) (p : Product.t) (s : Z) :
  Spec.keyed db ->
  Spec.keyed (<[Product._id p := Product.set_stock p s]> db).
Proof.
  intros Hk k x. rewrite lookup_insert.
  destruct (decide (Product._id p = k)) as [<-|Hne]; [|apply Hk].
  intros [= <-]. reflexivity.
Qed.

(** A loop that completes has moved the stock of every product by the
    units its lines carry, and nothing else. *)
Lemma forEachLine_ok (lines : list (string * Z)) :
  forall db db',
    Spec.keyed db ->
    forEachLine method lines db = (Ok tt, db') ->
    Spec.keyed db'
    /\ forall k,
        db' !! k
        = (fun p => Product.set_stock p (Product.stock p + sign * Spec.unitsOf k lines))
            <$> db !! k.
Proof.
  induction lines as [|[pid q] rest IH]; intros db db' Hk; simpl.
  - intros [= <-]. split; [assumption|]. intros k.
    destruct (db !! k) as [p|]; simpl; [|reflexivity].
    f_equal. rewrite <- (set_stock_same p) at 1.
    replace (Product.stock p + sign * 0) with (Product.stock p) by lia.
    reflexivity.
  - destruct (db !! pid) as [p|] eqn:Hp; [|discriminate].
    destruct (method p q db) as [[p'|e] db1] eqn:Hm; [|discriminate].
    intros Hrest. apply method_ok in Hm. subst db1.
    pose proof (Hk _ _ Hp) as Hid.
    destruct (IH _ _ (keyed_insert db p _ Hk) Hrest) as [Hk' Hst].
    split; [assumption|]. intros k. rewrite Hst, lookup_insert, Hid.
    destruct (decide (pid = k)) as [<-|Hne].
    + rewrite Hp, String.eqb_refl. simpl. rewrite set_stock_twice.
      do 2 f_equal; try lia.
    + destruct (String.eqb_spec pid k) as [->|_]; [contradiction|].
      destruct (db !! k); simpl; [|reflexivity]. do 2 f_equal; try lia.
Qed.

(** A loop that throws stops at one line: the lines before it went
    through and stay as they are. *)
Lemma forEachLine_throw (lines : list (string * Z)) :
  forall db db' e,
    forEachLine method lines db = (Throw e, db') ->
    exists before productId qty after db1,
      lines = (before ++ (productId, qty) :: after)%list
      /\ forEachLine method before db = (Ok tt, db1)
      /\ ((db1 !! productId = None /\ db' = db1
           /\ e = TypeError "Cannot read properties of null")
          \/ exists p, db1 !! productId = Some p
                       /\ method p qty db1 = (Throw e, db')).
Proof.
  induction lines as [|[pid q] rest IH]; intros db db' e; simpl; [discriminate|].
  destruct (db !! pid) as [p|] eqn:Hp.
  - destruct (method p q db) as [[p'|e'] db1] eqn:Hm.
    + intros Hrest.
      destruct (IH _ _ _ Hrest) as (b & pid' & q' & a & d1 & -> & Hb & Hcase).
      exists ((pid, q) :: b), pid', q', a, d1. split; [reflexivity|].
      split; [|exact Hcase]. simpl. rewrite Hp, Hm. exact Hb.
    + intros [= <- <-].
      exists [], pid, q, rest, db. repeat split. right. eauto.
  - intros [= <- <-].
    exists [], pid, q, rest, db. repeat split. left. auto.
Qed.

End Loop.

(** ** Saving orders *)

Lemma order_save_ok (now : Date) (o o' : Order.t) (db db' : list Order.t) :
  Order.save now o db = (Ok o', db') ->
  Order.valid o = true
  /\ o' = Order.set_isNew (Order.stamp now (Order.preSave now db o)) false
  /\ db' = Order.write (Order.stamp now (Order.preSave now db o)) db.
Proof.
  unfold Order.save. destruct (Order.valid o); [|discriminate].
  intros [= <- <-]. auto.
Qed.

Lemma order_save_throw (now : Date) (o : Order.t) (e : error) (db db' : list Order.t) :
  Order.save now o db = (Throw e, db') ->
  e = ValidationError "Order" /\ db' = db.
Proof.
  unfold Order.save. destruct (Order.valid o); [discriminate|].
  intros [= <- <-]. auto.
Qed.

(** The hooks of [save()] leave the status and its history alone. *)
Lemma saved_status (now : Date) (db : list Order.t) (o : Order.t) :
  Order.orderStatus (Order.set_isNew (Order.stamp now (Order.preSave now db o)) false)
  = Order.orderStatus o
  /\ Order.statusHistory (Order.set_isNew (Order.stamp now (Order.preSave now db o)) false)
     = Order.statusHistory o.
Proof.
  unfold Order.stamp, Order.preSave.
  destruct (Order.isNew o) eqn:E; simpl; rewrite ?E; simpl; auto.
Qed.

(** The first [save()] of a document inserts it, numbered by the hook. *)
Lemma order_save_new (now : Date) (o o' : Order.t) (db db' : list Order.t) :
  Order.isNew o = true ->
  Order.save now o db = (Ok o', db') ->
  db' = (db ++ [o'])%list
  /\ Order.isNew o' = false
  /\ Order.orderNumber o' = Order.formatOrderNumber now (Order.countToday now db)
  /\ Order.orderStatus o' = Order.orderStatus o
  /\ Order.statusHistory o' = Order.statusHistory o
  /\ Order.items o' = Order.items o
  /\ Order.price_ o' = Order.price_ o
  /\ Order.pay o' = Order.pay o
  /\ Order._id o' = Order._id o.
Proof.
  intros Hnew H. apply order_save_ok in H as (_ & -> & ->).
  unfold Order.write, Order.stamp, Order.preSave.
  repeat (rewrite Hnew; simpl). repeat split.
Qed.

(** A later [save()] replaces the stored document and keeps its number. *)
Lemma order_save_stored (now : Date) (o o' : Order.t) (db db' : list Order.t) :
  Order.isNew o = false ->
  Order.save now o db = (Ok o', db') ->
  db' = map (fun x => if String.eqb (Order._id x) (Order._id o) then o' else x) db
  /\ Order.isNew o' = false
  /\ Order.orderNumber o' = Order.orderNumber o
  /\ Order.orderStatus o' = Order.orderStatus o
  /\ Order.statusHistory o' = Order.statusHistory o
  /\ Order.items o' = Order.items o
  /\ Order.price_ o' = Order.price_ o
  /\ Order.pay o' = Order.pay o
  /\ Order.ship o' = Order.ship o
  /\ Order._id o' = Order._id o.
Proof.
  intros Hnew H. apply order_save_ok in H as (_ & -> & ->).
  unfold Order.write, Order.stamp, Order.preSave.
  repeat (rewrite Hnew; simpl). repeat split.
  apply map_ext. intros x. destruct (String.eqb _ _); [|reflexivity].
  destruct o; simpl in *. subst. reflexivity.
Qed.

Lemma find_replaced (id : string) (o o' : Order.t) (db : list Order.t) :
  Order.findById id db = Some o ->
  Order._id o' = Order._id o ->
  Order.findById id
    (map (fun x => if String.eqb (Order._id x) (Order._id o) then o' else x) db)
  = Some o'.
Proof.
  unfold Order.findById. intros Hf Hid.
  pose proof (find_some _ _ Hf) as [_ Heq]. apply String.eqb_eq in Heq. subst id.
  induction db as [|x db IH]; simpl in *; [discriminate|].
  destruct (String.eqb_spec (Order._id x) (Order._id o)) as [Hx|Hx].
  - rewrite Hid, String.eqb_refl. reflexivity.
  - destruct (String.eqb_spec (Order._id x) (Order._id o)) as [?|_]; [contradiction|].
    apply IH. exact Hf.
Qed.

(** ** createOrder: a reservation that fails *)

Lemma orderItems_throw (db : gmap string Product.t) (l : list Cart.item) (e : error) :
  OrderController.orderItems db l = Throw e ->
  e = TypeError "Cannot read properties of null".
Proof.
  induction l as [|it l IH]; simpl; [discriminate|].
  destruct (db !! Cart.product it); [|intros [= <-]; reflexivity].
  destruct (OrderController.orderItems db l); [discriminate|].
  intros [= <-]. apply IH. reflexivity.
Qed.

Lemma setupPayment_throw (e : OrderController.env) (o : Order.t) (w w' : World)
  (err : error) :
  OrderController.setupPayment e o w = (Throw err, w') ->
  err = ApiError 500 "Payment setup failed".
Proof.
  unfold OrderController.setupPayment.
  destruct (OrderController.paymentIntent e); [|intros [= <- _]; reflexivity].
  destruct (onOrders _ w) as [[o2|e2] w2]; [|intros [= <- _]; reflexivity].
  destruct (onOrders _ w2) as [[o3|e3] w3]; [discriminate|].
  intros [= <- _]; reflexivity.
Qed.

(** C1, as the source has it. During createOrder, if reserving stock for a
    cart line fails, the call fails with the "Insufficient stock" error and
    no compensating release is performed: the reservations already applied
    for the earlier lines of the order stay applied, the order document
    saved before the reservation loop stays stored, and the cart is not
    cleared. *)
Theorem createOrder_reservation_failure
  (e : OrderController.env) (u : ReqUser) (rq : OrderController.createRequest)
  (w w' : World) :
  Spec.keyed (products w) ->
  OrderController.createOrder e u rq w = (Throw InsufficientStock, w') ->
  exists cart before productId qty after p order,
    carts w !! userId u = Some cart
    /\ OrderController.cartLines (Cart.items cart)
       = (before ++ (productId, qty) :: after)%list
    /\ products w' !! productId = Some p
    /\ Product.stock p < qty
    /\ (forall k,
          products w' !! k
          = (fun p0 => Product.set_stock p0
                         (Product.stock p0 + (-1) * Spec.unitsOf k before))
              <$> products w !! k)
    /\ orders w' = (orders w ++ [order])%list
    /\ Order.orderStatus order = Order.pending
    /\ carts w' = carts w.
Proof.
  intros Hk H. unfold OrderController.createOrder, InsufficientStock in H.
  destruct (carts w !! userId u) as [cart|] eqn:Hc; [|discriminate].
  destruct (Cart.isEmpty cart); [discriminate|].
  destruct (Cart.validateItems _ _); [|discriminate].
  destruct (OrderController.couponFor _ _) as [discount coupon].
  destruct (OrderController.orderItems _ _) as [items|err] eqn:Hitems.
  2:{ apply orderItems_throw in Hitems. subst err. discriminate. }
  unfold bind, onOrders, onProducts, onCarts in H.
  match type of H with
  | context [Order.save ?n ?o ?db] =>
      destruct (Order.save n o db) as [[order|e1] os] eqn:Hsave
  end.
  2:{ apply order_save_throw in Hsave as [-> _]. discriminate. }
  apply order_save_new in Hsave as (Hos & _ & _ & Hst & _); [|reflexivity].
  simpl in H, Hst.
  destruct (forEachLine Product.reserveStock _ _) as [[[]|e2] ps] eqn:Hloop.
  - simpl in H.
    destruct (Cart.clearCart _ _ _) as [[c1|e3] cs] eqn:Hclear.
    + simpl in H. destruct (String.eqb _ "stripe").
      * apply setupPayment_throw in H. discriminate.
      * discriminate.
    + unfold Cart.clearCart, Cart.save in Hclear.
      destruct (Cart.valid _); [discriminate|].
      injection Hclear as <- _. discriminate.
  - injection H as -> <-. simpl.
    apply (forEachLine_throw Product.reserveStock) in Hloop
      as (before & pid & q & after & db1 & Hsplit & Hbefore & Hcase).
    destruct Hcase as [(_ & _ & [=])|(p & Hp & Hthrow)].
    apply reserveStock_throw in Hthrow as (Hlt & _ & ->).
    destruct (forEachLine_ok Product.reserveStock (-1)
                (fun p q db p' db' Hm => proj2 (reserveStock_ok p p' q db db' Hm))
                before _ _ Hk Hbefore) as [_ Hstock].
    exists cart, before, pid, q, after, p, order.
    repeat split; auto.
Qed.

Lemma keyed_singleton (p : Product.t) : Spec.keyed {[ Product._id p := p ]}.
Proof.
  intros k x H. apply lookup_singleton_Some in H as [<- <-]. reflexivity.
Qed.

Lemma createOrder_reservation_failure_witness :
  exists w' order,
    OrderController.createOrder Sample.env Sample.alice Sample.checkout
      Sample.twoVariants = (Throw InsufficientStock, w')
    /\ orders w' = [order]
    /\ Order.orderStatus order = Order.pending
    /\ carts w' = carts Sample.twoVariants.
Proof.
  destruct (OrderController.createOrder _ _ _ _) as [r w'] eqn:E.
  assert (Hr : r = Throw InsufficientStock).
  { apply (f_equal fst) in E. simpl in E. rewrite <- E. vm_compute. reflexivity. }
  subst r.
  destruct (createOrder_reservation_failure Sample.env Sample.alice
              Sample.checkout Sample.twoVariants w'
              (keyed_singleton (Sample.productP "p1" 3)) E)
    as (cart & before & pid & q & after & p & order & _ & _ & _ & _ & _ & Ho & Hs & Hc).
  exists w', order. repeat split; assumption.
Defined.

(** C1, as stated, fails. With three units of a product in stock and a
    cart that holds the product in two variants, two units each, the
    second reservation fails; createOrder throws "Insufficient stock" and
    the first reservation is not released: one unit is left, not three.
    The loop alone behaves the same on two products when the second has
    run short since the cart was validated. *)
Lemma createOrder_no_rollback_counterexample :
  let w := Sample.twoVariants in
  let r := OrderController.createOrder Sample.env Sample.alice Sample.checkout w in
  fst r = Throw InsufficientStock
  /\ Product.stock <$> products w !! "p1" = Some 3
  /\ Product.stock <$> products (snd r) !! "p1" = Some 1
  /\ let db : gmap string Product.t :=
       {[ "p1" := Sample.productP "p1" 5; "p2" := Sample.productP "p2" 0 ]} in
     let r2 := forEachLine Product.reserveStock [("p1", 2); ("p2", 1)] db in
     fst r2 = Throw InsufficientStock
     /\ Product.stock <$> snd r2 !! "p1" = Some 3.
Proof.
  vm_compute. repeat split.
Qed.

(** ** Status updates *)

Lemma find_id (id : string) (o : Order.t) (db : list Order.t) :
  Order.findById id db = Some o -> Order._id o = id.
Proof.
  unfold Order.findById. intros H. apply find_some in H as [_ H].
  apply String.eqb_eq. exact H.
Qed.

(** Validation does not look at [status], [statusHistory] or the tracking
    fields. *)
Lemma valid_after_status (now : Date) (o : Order.t) (s : Order.status)
  (n u : option string) (sh : Order.shipping) :
  Order.shipMethod sh = Order.shipMethod (Order.ship o) ->
  Order.cost sh = Order.cost (Order.ship o) ->
  Order.valid (Order.set_ship (Order.addStatusHistory now o s n u) sh)
  = Order.valid o.
Proof.
  intros Hm Hc. unfold Order.valid. simpl. rewrite Hm, Hc. reflexivity.
Qed.

(** C2, as the source has it. updateOrderStatus checks no transition: for
    a stored order and any requested status, inside or outside the graph
    of section 4.4, it appends one statusHistory entry with the requested
    status and sets the order's status to it. *)
Theorem updateOrderStatus_accepts_any
  (now : Date) (u : ReqUser) (id : string) (rq : OrderController.statusRequest)
  (w : World) (o : Order.t) :
  Order.findById id (orders w) = Some o ->
  Order.valid o = true ->
  Order.isNew o = false ->
  exists o' w',
    OrderController.updateOrderStatus now u id rq w = (Ok o', w')
    /\ Order.orderStatus o' = OrderController.status rq
    /\ Order.statusHistory o'
       = (Order.statusHistory o
            ++ [ {| Order.entryStatus := OrderController.status rq;
                    Order.timestamp := now;
                    Order.note := default "" (OrderController.note rq);
                    Order.updatedBy := Some (userId u) |} ])%list
    /\ Order.findById id (orders w') = Some o'.
Proof.
  intros Hf Hv Hnew. unfold OrderController.updateOrderStatus. rewrite Hf.
  unfold onOrders.
  match goal with
  | |- context [Order.save now ?x (orders w)] => set (o1 := x)
  end.
  assert (Hv1 : Order.valid o1 = true).
  { subst o1. rewrite valid_after_status; [exact Hv| |];
      repeat (match goal with |- context [if ?b then _ else _] => destruct b end);
      reflexivity. }
  assert (Hn1 : Order.isNew o1 = false) by exact Hnew.
  destruct (Order.save now o1 (orders w)) as [[o'|e] os] eqn:Hs.
  2:{ unfold Order.save in Hs. rewrite Hv1 in Hs. discriminate. }
  pose proof (order_save_stored _ _ _ _ _ Hn1 Hs)
    as (-> & _ & _ & Hst & Hh & _ & _ & _ & _ & Hid).
  exists o', (set_orders w
                (map (fun x => if String.eqb (Order._id x) (Order._id o1) then o' else x)
                     (orders w))).
  repeat split; auto.
  simpl. apply (find_replaced id o o' (orders w) Hf). rewrite Hid. reflexivity.
Qed.

Lemma updateOrderStatus_accepts_any_witness :
  exists o' w',
    OrderController.updateOrderStatus Sample.today Sample.admin "o1"
      (Sample.backTo Order.shipped) (Sample.afterCheckout Order.processing)
    = (Ok o', w')
    /\ Order.orderStatus o' = Order.shipped
    /\ Order.findById "o1" (orders w') = Some o'.
Proof.
  destruct (updateOrderStatus_accepts_any Sample.today Sample.admin "o1"
              (Sample.backTo Order.shipped) (Sample.afterCheckout Order.processing)
              (Sample.placed Order.processing))
    as (o' & w' & H & Hs & _ & Hf).
  - reflexivity.
  - vm_compute. reflexivity.
  - reflexivity.
  - exists o', w'. auto.
Defined.

(** C2, as stated, fails: delivered → pending is not in the graph, yet
    updateOrderStatus accepts it; the stored order is pending afterwards
    and its history has one more entry. *)
Lemma updateOrderStatus_counterexample :
  let w := Sample.afterCheckout Order.delivered in
  let r := OrderController.updateOrderStatus Sample.today Sample.admin "o1"
             (Sample.backTo Order.pending) w in
  Spec.allowedTransition Order.delivered Order.pending = false
  /\ Order.orderStatus <$> Order.findById "o1" (orders w) = Some Order.delivered
  /\ match fst r with
     | Ok o' => Order.orderStatus o' = Order.pending
     | Throw _ => False
     end
  /\ Order.orderStatus <$> Order.findById "o1" (orders (snd r)) = Some Order.pending
  /\ (length <$> (Order.statusHistory <$> Order.findById "o1" (orders (snd r)))) = Some 2%nat.
Proof.
  vm_compute. repeat split.
Qed.

(** ** Cancellation *)

Lemma canBeCancelled_spec (o : Order.t) :
  Order.canBeCancelled o = true
  <-> Order.orderStatus o = Order.pending
      \/ Order.orderStatus o = Order.confirmed
      \/ Order.orderStatus o = Order.processing.
Proof.
  unfold Order.canBeCancelled.
  destruct (Order.orderStatus o); split; intros H; auto;
    try discriminate; destruct H as [H|[H|H]]; discriminate.
Qed.

(** A cancelled order is refused: nothing is released, nothing is
    written. *)
Lemma cancel_refused (now : Date) (u : ReqUser) (id : string)
  (reason : option string) (w : World) (o : Order.t) :
  Order.findById id (orders w) = Some o ->
  Order.orderStatus o = Order.cancelled ->
  snd (OrderController.cancelOrder now u id reason w) = w
  /\ (exists e, fst (OrderController.cancelOrder now u id reason w) = Throw e)
  /\ (Order.user o = userId u \/ role u = "admin" ->
      fst (OrderController.cancelOrder now u id reason w)
      = Throw InvalidTransition).
Proof.
  intros Hf Hst. unfold OrderController.cancelOrder. rewrite Hf.
  assert (Hc : Order.canBeCancelled o = false)
    by (unfold Order.canBeCancelled; rewrite Hst; reflexivity).
  rewrite Hc. simpl.
  destruct (negb (Order.user o =? userId u)%string && negb (role u =? "admin")%string)
    eqn:Hperm; simpl.
  - split; [reflexivity|]. split; [eauto|].
    apply andb_true_iff in Hperm as [Hu Hr].
    apply negb_true_iff in Hu, Hr.
    intros [Ho|Ha].
    + rewrite Ho, String.eqb_refl in Hu. discriminate.
    + rewrite Ha in Hr. discriminate.
  - split; [reflexivity|]. split; [eauto|]. reflexivity.
Qed.

(** C5. cancelOrder succeeds only when the order's status is pending,
    confirmed or processing; it has then released the stock of every line
    and the order it has stored under the id, in place of the old one, is
    cancelled, with one more history entry; no other order and no cart is
    touched.  From then on, and on any order that is already cancelled, a
    call fails, with InvalidTransition for the owner or an admin, and
    releases nothing: the stores are left as they were. *)
Theorem cancelOrder_guarded
  (now : Date) (u : ReqUser) (id : string) (reason : option string) (w : World) :
  Spec.keyed (products w) ->
  (forall o, Order.findById id (orders w) = Some o -> Order.isNew o = false) ->
  (forall o' w',
     OrderController.cancelOrder now u id reason w = (Ok o', w') ->
     exists o,
       Order.findById id (orders w) = Some o
       /\ (Order.orderStatus o = Order.pending
           \/ Order.orderStatus o = Order.confirmed
           \/ Order.orderStatus o = Order.processing)
       /\ (forall k,
             products w' !! k
             = (fun p => Product.set_stock p
                           (Product.stock p
                            + Spec.unitsOf k (OrderController.orderLines (Order.items o))))
                 <$> products w !! k)
       /\ Order.orderStatus o' = Order.cancelled
       /\ Order.statusHistory o'
          = (Order.statusHistory o
               ++ [ {| Order.entryStatus := Order.cancelled;
                       Order.timestamp := now;
                       Order.note := default "" reason;
                       Order.updatedBy := Some (userId u) |} ])%list
       /\ Order.findById id (orders w') = Some o'
       /\ orders w'
          = map (fun x => if String.eqb (Order._id x) id then o' else x) (orders w)
       /\ carts w' = carts w
       /\ forall later u2 reason2,
            snd (OrderController.cancelOrder later u2 id reason2 w') = w'
            /\ (exists e, fst (OrderController.cancelOrder later u2 id reason2 w')
                          = Throw e)
            /\ (Order.user o = userId u2 \/ role u2 = "admin" ->
                fst (OrderController.cancelOrder later u2 id reason2 w')
                = Throw InvalidTransition))
  /\ (forall o,
        Order.findById id (orders w) = Some o ->
        Order.orderStatus o = Order.cancelled ->
        snd (OrderController.cancelOrder now u id reason w) = w
        /\ (exists e, fst (OrderController.cancelOrder now u id reason w) = Throw e)
        /\ (Order.user o = userId u \/ role u = "admin" ->
            fst (OrderController.cancelOrder now u id reason w)
            = Throw InvalidTransition)).
Proof.
  intros Hk Hstored. split; [|intros o; apply cancel_refused].
  intros o' w' H. unfold OrderController.cancelOrder in H.
  destruct (Order.findById id (orders w)) as [o|] eqn:Hf; [|discriminate].
  destruct (negb (Order.user o =? userId u)%string && negb (role u =? "admin")%string);
    [discriminate|].
  destruct (Order.canBeCancelled o) eqn:Hc; [|discriminate]. simpl in H.
  unfold bind, onProducts, onOrders in H.
  destruct (forEachLine Product.releaseStock _ _) as [[[]|e] ps] eqn:Hloop;
    [|discriminate].
  simpl in H.
  destruct (Order.save _ _ _) as [[o2|e] os] eqn:Hs; [|discriminate].
  injection H as -> <-.
  pose proof (order_save_ok _ _ _ _ _ Hs) as (_ & Ho' & _).
  eapply order_save_stored in Hs; [|exact (Hstored o eq_refl)].
  destruct Hs as (Hos & _ & _ & Hst & Hh & _ & _ & _ & _ & Hid).
  simpl in Hos, Hst, Hh, Hid. rewrite (find_id _ _ _ Hf) in Hos, Hid.
  destruct (forEachLine_ok Product.releaseStock 1
              (fun p q db p' db' Hm => releaseStock_ok p p' q db db' Hm)
              _ _ _ Hk Hloop)
    as [_ Hstock].
  assert (Hfind : Order.findById id os = Some o').
  { rewrite Hos. pose proof (find_replaced id o o' (orders w) Hf) as Hr.
    rewrite (find_id _ _ _ Hf) in Hr. apply Hr. exact Hid. }
  assert (Huser : Order.user o' = Order.user o).
  { rewrite Ho'. unfold Order.stamp, Order.preSave. simpl.
    destruct (Order.isNew o) eqn:En; simpl; rewrite ?En; reflexivity. }
  exists o. split; [reflexivity|]. split; [apply canBeCancelled_spec, Hc|].
  split.
  { intros k. simpl. rewrite Hstock.
    destruct (products w !! k) as [p|]; simpl; [|reflexivity].
    do 2 f_equal; lia. }
  split; [exact Hst|]. split; [exact Hh|]. split; [exact Hfind|].
  split; [exact Hos|]. split; [reflexivity|].
  intros later u2 reason2. rewrite <- Huser.
  apply cancel_refused; [exact Hfind | exact Hst].
Qed.

Lemma cancelOrder_guarded_witness :
  Spec.keyed (products (Sample.afterCheckout Order.pending))
  /\ (forall o' w',
        OrderController.cancelOrder Sample.today Sample.alice "o1" (Some "changed my mind")
          (Sample.afterCheckout Order.pending) = (Ok o', w') ->
        Product.stock <$> products w' !! "p1" = Some 5
        /\ Order.orderStatus o' = Order.cancelled
        /\ Order.findById "o1" (orders w') = Some o'
        /\ OrderController.cancelOrder Sample.nextWeek Sample.alice "o1" None w'
           = (Throw InvalidTransition, w'))
  /\ is_ok (fst (OrderController.cancelOrder Sample.today Sample.alice "o1"
                   (Some "changed my mind") (Sample.afterCheckout Order.pending)))
     = true
  /\ OrderController.cancelOrder Sample.today Sample.alice "o1" (Some "again")
       (Sample.afterCheckout Order.cancelled)
     = (Throw InvalidTransition, Sample.afterCheckout Order.cancelled).
Proof.
  pose proof (keyed_singleton (Sample.productP "p1" 3)) as Hk.
  assert (Hstored : forall st o,
            Order.findById "o1" (orders (Sample.afterCheckout st)) = Some o ->
            Order.isNew o = false)
    by (intros st o [= <-]; reflexivity).
  split; [exact Hk|]. split; [|split].
  - intros o' w' H.
    destruct (cancelOrder_guarded Sample.today Sample.alice "o1"
                (Some "changed my mind") (Sample.afterCheckout Order.pending) Hk
                (Hstored Order.pending))
      as [Hok _].
    destruct (Hok o' w' H) as (o & Hf & _ & Hstock & Hst & _ & Hfind & _ & _ & Hagain).
    injection Hf as <-. split; [|split; [exact Hst|split; [exact Hfind|]]].
    + rewrite Hstock. vm_compute. reflexivity.
    + destruct (Hagain Sample.nextWeek Sample.alice None) as (Hw & _ & He).
      rewrite (surjective_pairing (OrderController.cancelOrder _ _ _ _ _)).
      rewrite Hw, He; [reflexivity|]. left. reflexivity.
  - vm_compute. reflexivity.
  - destruct (cancelOrder_guarded Sample.today Sample.alice "o1"
                (Some "again") (Sample.afterCheckout Order.cancelled) Hk
                (Hstored Order.cancelled))
      as [_ Hno].
    destruct (Hno (Sample.placed Order.cancelled) eq_refl eq_refl) as (Hw & _ & He).
    rewrite (surjective_pairing (OrderController.cancelOrder _ _ _ _ _)).
    rewrite Hw, He; [reflexivity|]. left. reflexivity.
Defined.

(** ** Decimal numerals *)

Lemma string_of_uint_nonempty (d : Decimal.uint) :
  d <> Decimal.Nil -> NilEmpty.string_of_uint d <> "".
Proof. destruct d; simpl; intros H; [contradiction|..]; discriminate. Qed.

Lemma toString_nonempty (n : N) : JS.toString n <> "".
Proof.
  unfold JS.toString. apply string_of_uint_nonempty.
  destruct n as [|p]; simpl; [discriminate|].
  apply DecimalPos.Unsigned.to_uint_nonnil.
Qed.

Lemma parseDec_toString (n : N) : JS.parseDec (JS.toString n) = Some n.
Proof.
  unfold JS.parseDec. pose proof (toString_nonempty n) as Hne.
  destruct (JS.toString n) as [|c s] eqn:E; [congruence|].
  rewrite <- E. unfold JS.toString. rewrite NilEmpty.usu. simpl.
  f_equal. apply DecimalN.Unsigned.of_to.
Qed.

Lemma parseDec_zeros (m : nat) (s : string) :
  s <> "" -> JS.parseDec (JS.repeat0 m ++ s) = JS.parseDec s.
Proof.
  intros Hne. induction m as [|m IH]; simpl; [reflexivity|].
  rewrite <- IH. unfold JS.parseDec.
  destruct (JS.repeat0 m ++ s) as [|c t] eqn:E.
  - destruct m; simpl in E; [contradiction | discriminate].
  - simpl. destruct (uint_of_char c (NilEmpty.uint_of_string t)); reflexivity.
Qed.

Lemma parseDec_padStart (k : nat) (n : N) :
  JS.parseDec (JS.padStart k (JS.toString n)) = Some n.
Proof.
  unfold JS.padStart. rewrite parseDec_zeros by apply toString_nonempty.
  apply parseDec_toString.
Qed.

Lemma length_app_string (a b : string) :
  String.length (a ++ b) = (String.length a + String.length b)%nat.
Proof. induction a as [|c a IH]; simpl; [reflexivity | now rewrite IH]. Qed.

Lemma app_assoc_string (a b c : string) : (a ++ b) ++ c = a ++ (b ++ c).
Proof.
  induction a as [|x a IH]; [reflexivity|].
  change (String x ((a ++ b) ++ c) = String x (a ++ (b ++ c))).
  f_equal. exact IH.
Qed.

Lemma app_inv_head_string (p a b : string) : p ++ a = p ++ b -> a = b.
Proof.
  induction p as [|x p IH]; [exact (fun H => H)|].
  change (String x (p ++ a) = String x (p ++ b) -> a = b).
  intros [= H]. exact (IH H).
Qed.

Lemma length_repeat0 (m : nat) : String.length (JS.repeat0 m) = m.
Proof. induction m as [|m IH]; simpl; [reflexivity | now rewrite IH]. Qed.

Lemma length_padStart (k : nat) (s : string) :
  String.length (JS.padStart k s) = Nat.max k (String.length s).
Proof. unfold JS.padStart. rewrite length_app_string, length_repeat0. lia. Qed.

Lemma allDigits_app (a b : string) :
  Spec.allDigits (a ++ b) = Spec.allDigits a && Spec.allDigits b.
Proof.
  induction a as [|c a IH]; simpl; [reflexivity|].
  rewrite IH. apply andb_assoc.
Qed.

Lemma allDigits_toString (n : N) : Spec.allDigits (JS.toString n) = true.
Proof.
  unfold JS.toString. induction (N.to_uint n); simpl; auto.
Qed.

Lemma allDigits_padStart (k : nat) (n : N) :
  Spec.allDigits (JS.padStart k (JS.toString n)) = true.
Proof.
  unfold JS.padStart. rewrite allDigits_app, allDigits_toString, andb_true_r.
  induction (k - String.length (JS.toString n))%nat; simpl; auto.
Qed.

(** A property of numerals checked on every number up to a bound. *)
Lemma checked_up_to (P : N -> bool) (hi : N) :
  forallb P (map N.of_nat (seq 0 (S (N.to_nat hi)))) = true ->
  forall n, (n <= hi)%N -> P n = true.
Proof.
  intros H n Hn. rewrite forallb_forall in H. apply H.
  apply in_map_iff. exists (N.to_nat n). split; [apply N2Nat.id|].
  apply in_seq. lia.
Qed.

Lemma four_digits (n : N) :
  (n <= 9999)%N -> (String.length (JS.toString n) <= 4)%nat.
Proof.
  intros Hn.
  apply Nat.leb_le.
  apply (checked_up_to (fun n => (String.length (JS.toString n) <=? 4)%nat) 9999);
    [vm_compute; reflexivity | exact Hn].
Qed.

Lemma four_digits_exactly (n : N) :
  (1000 <= n <= 9999)%N -> String.length (JS.toString n) = 4%nat.
Proof.
  intros [Hlo Hhi].
  pose proof (checked_up_to
                (fun n => (n <? 1000)%N || (String.length (JS.toString n) =? 4)%nat)
                9999 ltac:(vm_compute; reflexivity) n Hhi) as H.
  apply orb_true_iff in H as [H|H].
  - apply N.ltb_lt in H. lia.
  - apply Nat.eqb_eq. exact H.
Qed.

Lemma two_digits (n : N) :
  (n <= 99)%N -> (String.length (JS.toString n) <= 2)%nat.
Proof.
  intros Hn.
  apply Nat.leb_le.
  apply (checked_up_to (fun n => (String.length (JS.toString n) <=? 2)%nat) 99);
    [vm_compute; reflexivity | exact Hn].
Qed.

(** ** Order numbers *)

(** C8, as the source has it. Every order is numbered when it is first
    saved and keeps the number on every later save.  The number is
    ORD-<date>-<counter>: the date is the year, the month and the day of
    the save, the month and the day padded to two digits (eight digits for
    a four-digit year); the counter is the count of orders already created
    on that calendar day plus 1, in decimal, padded with zeros to at least
    four digits: exactly four while that value is at most 9999, more
    beyond. *)
Theorem orderNumber_assigned_at_creation
  (now : Date) (db : list Order.t) (o : Order.t) :
  Order.isNew o = true ->
  Order.valid o = true ->
  exists o' Y M D counter,
    Order.save now o db = (Ok o', (db ++ [o'])%list)
    /\ Order.orderNumber o' = "ORD-" ++ (Y ++ M ++ D) ++ "-" ++ counter
    /\ JS.parseDec Y = Some (fullYear now)
    /\ JS.parseDec M = Some (monthIndex now + 1)%N
    /\ JS.parseDec D = Some (dayOfMonth now)
    /\ ((1000 <= fullYear now <= 9999)%N -> (monthIndex now <= 11)%N ->
        (dayOfMonth now <= 31)%N -> String.length (Y ++ M ++ D) = 8%nat)
    /\ JS.parseDec counter = Some (Order.countToday now db + 1)%N
    /\ Spec.allDigits counter = true
    /\ (4 <= String.length counter)%nat
    /\ ((Order.countToday now db + 1 <= 9999)%N -> String.length counter = 4%nat)
    /\ (forall now' db' o'' db'',
          Order.save now' o' db' = (Ok o'', db'') ->
          Order.orderNumber o'' = Order.orderNumber o').
Proof.
  intros Hnew Hvalid.
  destruct (Order.save now o db) as [[o'|e] db1] eqn:Hs.
  2:{ unfold Order.save in Hs. rewrite Hvalid in Hs. discriminate. }
  pose proof (order_save_new _ _ _ _ _ Hnew Hs) as (-> & Hn' & Hnum & _).
  exists o', (JS.toString (fullYear now)),
    (JS.padStart 2 (JS.toString (monthIndex now + 1))),
    (JS.padStart 2 (JS.toString (dayOfMonth now))),
    (JS.padStart 4 (JS.toString (Order.countToday now db + 1))).
  split; [reflexivity|].
  split.
  { rewrite Hnum. unfold Order.formatOrderNumber.
    rewrite !app_assoc_string. reflexivity. }
  split; [apply parseDec_toString|].
  split; [apply parseDec_padStart|].
  split; [apply parseDec_padStart|].
  split.
  { intros Hy Hm Hd. rewrite !length_app_string, !length_padStart.
    rewrite (four_digits_exactly _ Hy).
    pose proof (two_digits (monthIndex now + 1) ltac:(lia)).
    pose proof (two_digits (dayOfMonth now) ltac:(lia)). lia. }
  split; [apply parseDec_padStart|].
  split; [apply allDigits_padStart|].
  split; [rewrite length_padStart; lia|].
  split.
  { intros Hc. rewrite length_padStart.
    pose proof (four_digits _ Hc). lia. }
  intros now' db' o'' db'' Hs'.
  apply (order_save_stored _ _ _ _ _ Hn') in Hs' as (_ & _ & Hkeep & _).
  exact Hkeep.
Qed.

Lemma orderNumber_assigned_at_creation_witness :
  exists o' counter,
    Order.save Sample.today Sample.fresh [] = (Ok o', [o'])
    /\ JS.parseDec counter = Some 1%N
    /\ String.length counter = 4%nat.
Proof.
  destruct (orderNumber_assigned_at_creation Sample.today [] Sample.fresh)
    as (o' & Y & M & D & counter & Hs & _ & _ & _ & _ & _ & Hp & _ & _ & Hl & _).
  - reflexivity.
  - vm_compute. reflexivity.
  - exists o', counter. split; [exact Hs|]. split; [exact Hp|].
    apply Hl. vm_compute. discriminate.
Defined.

(** C8, as stated, fails on the counter: on a day that already has 9999
    orders the next order is numbered ORD-20261102-10000; its counter has
    five digits, not four. *)
Lemma orderNumber_counter_counterexample :
  Order.countToday Sample.today Sample.busyDay = 9999%N
  /\ match fst (Order.save Sample.today Sample.fresh Sample.busyDay) with
     | Ok o' =>
         Order.orderNumber o' = "ORD-20261102-10000"
         /\ ~ exists counter,
               Order.orderNumber o' = "ORD-20261102-" ++ counter
               /\ String.length counter = 4%nat
     | Throw _ => False
     end.
Proof.
  split; [vm_compute; reflexivity|].
  destruct (Order.save _ _ _) as [[o'|e] db'] eqn:E.
  - apply (order_save_new Sample.today Sample.fresh o' Sample.busyDay db' eq_refl)
      in E as (_ & _ & Hnum & _).
    simpl. rewrite Hnum.
    replace (Order.formatOrderNumber Sample.today
               (Order.countToday Sample.today Sample.busyDay))
      with "ORD-20261102-10000" by (vm_compute; reflexivity).
    split; [reflexivity|].
    intros (counter & H & L).
    change "ORD-20261102-10000" with ("ORD-20261102-" ++ "10000") in H.
    apply app_inv_head_string in H. subst counter. discriminate L.
  - vm_compute in E. discriminate E.
Qed.

(** ** Payment failure *)

(** The webhook handlers write to the order collection only. *)
Lemma handlePaymentFailure_products (now : Date) (intentId : string) (w : World) :
  products (PaymentService.handlePaymentFailure now intentId w) = products w.
Proof.
  unfold PaymentService.handlePaymentFailure.
  destruct (Order.findByPaymentIntent intentId (orders w)); [|reflexivity].
  unfold onOrders. destruct (Order.save _ _ _). reflexivity.
Qed.

(** C3, checked on the source. The payment-failed handler never writes to
    the product collection.  An order for two units was placed when five
    were in stock, so three are left: the payment-failed event sets
    payment.status to failed and moves the order to cancelled, but the two
    reserved units are not released; three are left, where cancelOrder on
    the same stores gives back five. *)
Theorem handlePaymentFailure_keeps_reservation :
  (forall now intentId w,
     products (PaymentService.handlePaymentFailure now intentId w) = products w)
  /\ let w := Sample.afterCheckout Order.pending in
     let w' := PaymentService.handlePaymentFailure Sample.today "pi_1" w in
     (fun o => Order.payStatus (Order.pay o)) <$> Order.findById "o1" (orders w')
     = Some Order.pay_failed
     /\ Order.orderStatus <$> Order.findById "o1" (orders w') = Some Order.cancelled
     /\ Product.stock <$> products w !! "p1" = Some 3
     /\ Product.stock <$> products w' !! "p1" = Some 3
     /\ Product.stock
          <$> products (snd (OrderController.cancelOrder Sample.today Sample.alice
                               "o1" None w)) !! "p1"
        = Some 5.
Proof.
  split; [exact handlePaymentFailure_products|].
  vm_compute. repeat split.
Qed.

(** ** Coupons at checkout *)

(** An unknown code leaves the discount at 0 and no coupon on the order. *)
Lemma couponFor_unknown (code : option string) (subtotal : float) :
  OrderController.mockCoupons (JS.toUpperCase (default "" code)) = None ->
  OrderController.couponFor code subtotal = (0%float, None).
Proof.
  intros H. unfold OrderController.couponFor. rewrite H.
  destruct (JS.truthy code); reflexivity.
Qed.

(** SAVE10 takes ten per cent off at checkout whatever the subtotal. *)
Lemma couponFor_SAVE10 (subtotal : float) :
  fst (OrderController.couponFor (Some "SAVE10") subtotal)
  = (subtotal * JS.ofZ 10 / 100)%float.
Proof. reflexivity. Qed.

(** C6, checked on the source. At checkout SAVE10 takes ten per cent off
    whatever the subtotal.  For a cart worth 20.00 the coupon evaluation
    of the cart reports the minimum-amount error, but createOrder does not
    consult it: its own table has no minimum, so the order is created with
    discount 2, not with discount 0, and the coupon is recorded on it.
    (Its total, 20 + 5.99 + 1.6 - 2 in binary64, is
    25.590000000000003.) *)
Theorem createOrder_ignores_coupon_minimum :
  (forall subtotal,
     fst (OrderController.couponFor (Some "SAVE10") subtotal)
     = (subtotal * JS.ofZ 10 / 100)%float)
  /\ let w := Sample.smallCart in
     Cart.totalAmount <$> carts w !! "u1" = Some 20%float
     /\ CartController.applyCoupon "SAVE10" Sample.alice w
        = Throw (ApiError 400 "Minimum order amount of $50 required")
     /\ match fst (OrderController.createOrder Sample.env Sample.alice
                     (Sample.checkoutWith "SAVE10") w) with
        | Ok o =>
            Order.discount (Order.price_ o) = 2%float
            /\ Order.discount (Order.price_ o) <> 0%float
            /\ Order.grandTotal (Order.price_ o) = 25.590000000000003%float
            /\ Order.appliedCoupon o
               = Some {| Order.code := "SAVE10"; Order.couponDiscount := 2%float;
                         Order.type := Order.percentage |}
        | Throw _ => False
        end.
Proof.
  split; [exact couponFor_SAVE10|].
  split; [|split].
  - vm_compute. reflexivity.
  - vm_compute. reflexivity.
  - destruct (OrderController.createOrder _ _ _ _) as [[o|e] w'] eqn:E;
      vm_compute in E; [|discriminate E].
    injection E as <- _. simpl.
    repeat split. intros H. apply (f_equal (fun x => PrimFloat.eqb x 0)) in H.
    vm_compute in H. discriminate H.
Qed.

(** ** Serialisation of orders *)

Section Serialisation.

Lemma existsb_none {A} (f : A -> bool) (l : list A) :
  Forall (fun x => f x = false) l -> existsb f l = false.
Proof.
  induction 1 as [|x l Hx _ IH]; simpl; [reflexivity|]. now rewrite Hx, IH.
Qed.

Lemma clean_array {A} (f : A -> jsval) (l : list A) :
  (forall x, Spec.clean (f x)) -> Spec.clean (JArr (map f l)).
Proof.
  intros H. unfold Spec.clean. simpl. apply existsb_none.
  apply Forall_map, Forall_forall. intros x _. apply H.
Qed.

Lemma clean_item (it : Order.item) : Spec.clean (Order.itemObject it).
Proof.
  unfold Spec.clean, Order.itemObject.
  destruct (Order.variant it), (Order.snapImage (Order.productSnapshot it));
    reflexivity.
Qed.

Lemma clean_entry (e : Order.historyEntry) : Spec.clean (Order.entryObject e).
Proof.
  unfold Spec.clean, Order.entryObject. destruct (Order.updatedBy e); reflexivity.
Qed.

Lemma clean_address (a : Order.address) : Spec.clean (Order.addressObject a).
Proof.
  unfold Spec.clean, Order.addressObject. destruct (Order.phone a); reflexivity.
Qed.

Lemma clean_payment (p : Order.payment) : Spec.clean (Order.paymentObject p).
Proof.
  unfold Spec.clean, Order.paymentObject.
  destruct (Order.transactionId p), (Order.paymentIntentId p),
    (Order.paidAt p), (Order.refundedAt p); reflexivity.
Qed.

Lemma clean_pricing (p : Order.pricing) : Spec.clean (Order.pricingObject p).
Proof. reflexivity. Qed.

Lemma clean_shipping (s : Order.shipping) : Spec.clean (Order.shippingObject s).
Proof.
  unfold Spec.clean, Order.shippingObject.
  destruct (Order.shipEstimatedDelivery s), (Order.shipActualDelivery s),
    (Order.trackingNumber s), (Order.carrier s); reflexivity.
Qed.

Lemma clean_coupon (c : Order.coupon) : Spec.clean (Order.couponObject c).
Proof. reflexivity. Qed.

Lemma clean_optField {A} (k : string) (f : A -> jsval) (v : option A) :
  (forall x, Spec.clean (f x)) ->
  Forall (fun kv => Spec.clean (snd kv)) (optField k f v).
Proof.
  intros H. destruct v; simpl; repeat constructor. apply H.
Qed.

(** Only the top-level path can carry the name. *)
Lemma toObject_values_clean (o : Order.t) :
  Forall (fun kv => Spec.clean (snd kv)) (Order.toObject o).
Proof.
  unfold Order.toObject.
  repeat first
    [ apply Forall_app; split
    | apply Forall_cons; split
    | apply Forall_nil
    | apply clean_optField; intros ? ].
  all: simpl;
    first [ reflexivity
          | apply (clean_array Order.itemObject), clean_item
          | apply (clean_array Order.entryObject), clean_entry
          | apply clean_address | apply clean_payment | apply clean_pricing
          | apply clean_shipping | apply clean_coupon ].
Qed.

Lemma deleteKey_spec (k : string) (fields : list (string * jsval))
  (kv : string * jsval) :
  In kv (deleteKey k fields) <-> In kv fields /\ fst kv <> k.
Proof.
  unfold deleteKey. rewrite filter_In. cbv beta. rewrite negb_true_iff.
  split; intros [H1 H2]; split; auto.
  - intros Heq. rewrite Heq, String.eqb_refl in H2. discriminate.
  - destruct (String.eqb_spec (fst kv) k); [contradiction | reflexivity].
Qed.

(** C10. Whatever the state of the order, the object that toJSON hands
    to the serialiser has no internalNotes property, at the top level or
    below, and every other property of the document is still there. *)
Theorem toJSON_omits_internalNotes (o : Order.t) :
  hasKey "internalNotes" (JObj (Order.toJSON o)) = false
  /\ (forall k v, k <> "internalNotes" ->
                  In (k, v) (Order.toObject o) -> In (k, v) (Order.toJSON o)).
Proof.
  split.
  - cbn [hasKey]. apply existsb_none, Forall_forall. intros kv Hin.
    unfold Order.toJSON in Hin.
    apply list_elem_of_In, deleteKey_spec in Hin as [Hin Hk].
    apply orb_false_iff. split.
    + destruct (String.eqb_spec (fst kv) "internalNotes"); [contradiction | reflexivity].
    + pose proof (toObject_values_clean o) as Hc.
      rewrite Forall_forall in Hc. apply (Hc kv).
      apply list_elem_of_In. exact Hin.
  - intros k v Hk Hin. apply deleteKey_spec. split; [exact Hin | exact Hk].
Qed.

End Serialisation.

(** ** The cart lock *)

(** The cart model throws validation, type and plain errors, never an
    [ApiError]. *)
Lemma findIndex_throws (productId : string) (variantId : option string)
  (l : list Cart.item) (e : error) :
  Cart.findIndex (Cart.matches productId variantId) l = Throw e ->
  e = TypeError "Cannot read properties of null".
Proof.
  induction l as [|it l IH]; simpl; [discriminate|].
  unfold Cart.matches at 1, Cart.refText.
  destruct (Cart.view_ it); try (intros [= <-]; reflexivity);
    match goal with
    | |- context [if ?b then _ else _] => destruct b
    end; try discriminate;
    destruct (Cart.findIndex _ l); try discriminate;
    intros [= <-]; apply IH; reflexivity.
Qed.

Lemma cart_save_result (now : Date) (c : Cart.t) (db db' : gmap string Cart.t)
  (r : result Cart.t) :
  Cart.save now c db = (r, db') ->
  forall code msg, r <> Throw (ApiError code msg).
Proof.
  unfold Cart.save. destruct (Cart.valid c); intros [= <- _] code msg; discriminate.
Qed.

Lemma addItem_result (now : Date) (c : Cart.t) (productId : string) (qty : Z)
  (unitPrice : float) (variantId : option string) (db db' : gmap string Cart.t)
  (r : result Cart.t) :
  Cart.addItem now c productId qty unitPrice variantId db = (r, db') ->
  forall code msg, r <> Throw (ApiError code msg).
Proof.
  unfold Cart.addItem.
  destruct (Cart.findIndex _ _) as [i|e] eqn:Hi.
  - apply cart_save_result.
  - apply findIndex_throws in Hi. subst e. intros [= <- _] code msg. discriminate.
Qed.

(** One step never puts a request on the path of a refused lock: the
    [SET] that the server receives always replies [OK]. *)
Lemma step_notRefused (now : Date) (u : ReqUser) (rq : CartController.addRequest)
  (p : CartController.pc) (w : World) :
  Spec.notRefused p ->
  Spec.notRefused (fst (CartController.step now u rq p w)).
Proof.
  destruct p as [|product lv|product lv|lv a o|a o|o]; simpl; intros Hp.
  - destruct (products w !! CartController.productId rq) as [product|];
      [|intros msg; discriminate].
    destruct (negb (Product.isActive product)); [intros msg; discriminate|].
    destruct (Product.stock product <? CartController.quantity rq);
      [intros msg; discriminate | exact I].
  - destruct (redis w); [exact I | intros msg; discriminate].
  - destruct (Cart.getOrCreateCart _ _ _ _) as [[cart|e] cs] eqn:Hg.
    + destruct (Cart.addItem _ _ _ _ _ _ _) as [r cs'] eqn:Ha. simpl.
      split; [reflexivity|]. intros msg. exact (addItem_result _ _ _ _ _ _ _ _ _ Ha 409 msg).
    + simpl. split; [reflexivity|]. intros msg.
      unfold Cart.getOrCreateCart in Hg.
      destruct (carts w !! userId u); [discriminate|].
      exact (cart_save_result _ _ _ _ _ Hg 409 msg).
  - destruct (redis w); [|intros msg; discriminate].
    destruct (bool_decide _); simpl; [exact Hp | exact (proj2 Hp)].
  - destruct (redis w); simpl; [exact (proj2 Hp) | intros msg; discriminate].
  - exact Hp.
Qed.

Lemma sysRun_notRefused (u : ReqUser) (rq1 rq2 : CartController.addRequest)
  (schedule : list (CartController.who * Date)) :
  forall s,
    Spec.notRefused (CartController.first s) ->
    Spec.notRefused (CartController.second s) ->
    Spec.notRefused
      (CartController.first (CartController.sysRun u rq1 rq2 schedule s))
    /\ Spec.notRefused
         (CartController.second (CartController.sysRun u rq1 rq2 schedule s)).
Proof.
  induction schedule as [|[who now] rest IH]; intros s H1 H2; [auto|].
  unfold CartController.sysRun. simpl. apply IH.
  - unfold CartController.sysStep. destruct who; simpl.
    + pose proof (step_notRefused now u rq1 _ (CartController.world s) H1) as H.
      destruct (CartController.step _ _ _ _ _). exact H.
    + destruct (CartController.step _ _ _ _ _). exact H1.
  - unfold CartController.sysStep. destruct who; simpl.
    + destruct (CartController.step _ _ _ _ _). exact H2.
    + pose proof (step_notRefused now u rq2 _ (CartController.world s) H2) as H.
      destruct (CartController.step _ _ _ _ _). exact H.
Qed.

(** C9, checked on the source. The lock excludes nothing.  Whatever the
    two requests, the stores and the interleaving, no addToCart request is
    ever refused the lock, and none is answered 409.  On the sample shop,
    with the second request for the same user and product starting one
    millisecond after the first: once both have issued their [SET] both
    hold the lock, and when both have run to their end both have been
    answered with the cart and both have changed it, the stored cart
    holding one line of each. *)
Theorem lock_excludes_nothing :
  (forall u rq1 rq2 schedule w,
     let s := CartController.sysRun u rq1 rq2 schedule (CartController.initial w) in
     Spec.notRefused (CartController.first s)
     /\ Spec.notRefused (CartController.second s))
  /\ (let s := CartController.sysRun Sample.alice Sample.addOne Sample.addOne
                 Sample.overlap (CartController.initial Sample.shop) in
      CartController.holding (CartController.first s) = true
      /\ CartController.holding (CartController.second s) = true)
  /\ (let s := CartController.sysRun Sample.alice Sample.addOne Sample.addOne
                 (Sample.overlap ++ Sample.toTheEnd)
                 (CartController.initial Sample.shop) in
      is_ok match CartController.first s with
            | CartController.Finished r => r
            | _ => Throw LockBusy
            end = true
      /\ is_ok match CartController.second s with
               | CartController.Finished r => r
               | _ => Throw LockBusy
               end = true
      /\ (map (fun it => (Cart.product it, Cart.quantity it)) <$>
            (Cart.items <$> carts (CartController.world s) !! "u1"))
         = Some [("p1", 1); ("p1", 1)]).
Proof.
  split; [|split].
  - intros u rq1 rq2 schedule w. apply sysRun_notRefused; exact I.
  - vm_compute. split; reflexivity.
  - vm_compute. repeat split.
Qed.


(** * Further properties of the modelled code *)

(** ** addItem on the cart that getOrCreateCart hands out *)

Lemma matches_loaded (productId : string) (variantId : option string)
  (it : Cart.item) (p : Product.t) :
  Cart.view_ it = Cart.Loaded p -> Cart.printed p <> productId ->
  Cart.matches productId variantId it = Ok false.
Proof.
  unfold Cart.matches, Cart.refText. intros -> Hne.
  apply String.eqb_neq in Hne. rewrite Hne. reflexivity.
Qed.

Lemma findIndex_populated (products : gmap string Product.t) (productId : string)
  (variantId : option string) (c0 : Cart.t) :
  (forall p, Cart.printed p <> productId) ->
  Cart.findIndex (Cart.matches productId variantId)
    (Cart.items (Cart.populate products c0))
  = if forallb (fun it => bool_decide (is_Some (products !! Cart.product it)))
         (Cart.items c0)
    then Ok None
    else Throw (TypeError "Cannot read properties of null").
Proof.
  intros Hne. unfold Cart.populate. simpl.
  induction (Cart.items c0) as [|it l IH]; [reflexivity|].
  cbn [map forallb Cart.findIndex].
  destruct (products !! Cart.product it) as [p|] eqn:Hp.
  - rewrite (matches_loaded productId variantId
               (Cart.set_view it (Cart.Loaded p)) p eq_refl (Hne p)), IH.
    rewrite bool_decide_eq_true_2 by eauto. simpl.
    destruct (forallb _ l); reflexivity.
  - rewrite bool_decide_eq_false_2 by (intros [? ?]; discriminate). reflexivity.
Qed.

(** A line loaded by [getOrCreateCart] is never matched by addItem: its
    populated reference prints as the product document, which is no
    product id.  When every line's product still exists, an addItem that
    completes appends a line, whatever the keys of the lines the cart
    holds; when the product of some line is gone, addItem throws a
    TypeError and writes nothing. *)
Theorem addItem_populated_appends
  (now : Date) (products : gmap string Product.t) (c0 : Cart.t)
  (productId : string) (qty : Z) (unitPrice : float) (variantId : option string)
  (db : gmap string Cart.t) :
  (forall p, Cart.printed p <> productId) ->
  (forall c' db',
     Cart.addItem now (Cart.populate products c0) productId qty unitPrice
       variantId db = (Ok c', db') ->
     Cart.items c'
     = (Cart.items (Cart.populate products c0)
          ++ [ {| Cart.product := productId; Cart.view_ := Cart.Unpopulated;
                  Cart.variant := variantId; Cart.quantity := qty;
                  Cart.price := unitPrice; Cart.addedAt := now |} ])%list)
  /\ ((exists it, it ∈ Cart.items c0 /\ products !! Cart.product it = None) ->
      Cart.addItem now (Cart.populate products c0) productId qty unitPrice
        variantId db
      = (Throw (TypeError "Cannot read properties of null"), db)).
Proof.
  intros Hne. unfold Cart.addItem.
  rewrite (findIndex_populated products productId variantId c0 Hne). split.
  - intros c' db'. destruct (forallb _ _); [|discriminate].
    intros H. apply cart_save_ok in H as (_ & -> & _). reflexivity.
  - intros (it & Hin & Hnone).
    destruct (forallb _ _) eqn:Hall; [|reflexivity].
    rewrite forallb_forall in Hall.
    specialize (Hall it (proj1 (list_elem_of_In _ _) Hin)).
    apply bool_decide_eq_true in Hall. rewrite Hnone in Hall.
    destruct Hall; discriminate.
Qed.

Lemma addItem_populated_appends_witness :
  let products : gmap string Product.t := {[ "p1" := Sample.productP "p1" 5 ]} in
  let '(r, _) :=
    Cart.addItem Sample.nextWeek
      (Cart.populate products (Sample.cartOf [Sample.line "p1" None 1]))
      "p1" 2 Sample.tenDollars None ∅ in
  match r with
  | Ok c' => map (fun it => (Cart.product it, Cart.quantity it)) (Cart.items c')
             = [("p1", 1); ("p1", 2)]
  | Throw _ => False
  end.
Proof.
  intros products.
  destruct (Cart.addItem _ _ _ _ _ _ _) as [r db'] eqn:E.
  destruct r as [c'|e].
  - assert (Hne : forall p, Cart.printed p <> "p1")
      by (intros p H; unfold Cart.printed in H; simpl in H; discriminate H).
    rewrite (proj1 (addItem_populated_appends Sample.nextWeek products
                      (Sample.cartOf [Sample.line "p1" None 1]) "p1" 2
                      Sample.tenDollars None ∅ Hne) c' db' E).
    reflexivity.
  - vm_compute in E. discriminate E.
Defined.

(** ** removeItem, updateItem and how the line operations compose *)

Lemma filter_filter_same {A} (g : A -> bool) (l : list A) :
  List.filter g (List.filter g l) = List.filter g l.
Proof.
  induction l as [|x l IH]; simpl; [reflexivity|].
  destruct (g x) eqn:E; simpl; [rewrite E, IH|]; auto.
Qed.

Lemma filter_all_true {A} (g : A -> bool) (l : list A) :
  (forall x, x ∈ l -> g x = true) -> List.filter g l = l.
Proof.
  induction l as [|x l IH]; simpl; intros H; [reflexivity|].
  rewrite (H x) by apply list_elem_of_here.
  f_equal. apply IH. intros y Hy. apply H. now apply list_elem_of_further.
Qed.

Lemma plain_filter (g : Cart.item -> bool) (l : list Cart.item) :
  Spec.plain l -> Spec.plain (List.filter g l).
Proof. intros H it Hin. apply filter_In in Hin as [Hin _]. auto. Qed.

Lemma plain_alter (g : Cart.item -> Cart.item) (i : nat) (l : list Cart.item) :
  (forall it, Cart.view_ (g it) = Cart.view_ it) ->
  Spec.plain l -> Spec.plain (alter g i l).
Proof.
  intros Hg. revert i. induction l as [|a l IH]; intros i Hl; [exact Hl|].
  apply plain_cons in Hl as [Ha Hl]. destruct i as [|i].
  - change (alter g 0%nat (a :: l)) with (g a :: l).
    apply plain_cons. rewrite Hg. auto.
  - change (alter g (S i) (a :: l)) with (a :: alter g i l).
    apply plain_cons. auto.
Qed.

Lemma plain_app (l1 l2 : list Cart.item) :
  Spec.plain l1 -> Spec.plain l2 -> Spec.plain (l1 ++ l2).
Proof.
  intros H1 H2 it Hin. apply in_app_or in Hin as [Hin|Hin]; auto.
Qed.

(** removeItem on the cart as it is stored (the handlers that remove a
    line load it without populating): once it has gone through, no line
    has the product and, when one is given, the variant; a second
    removeItem of the same key that goes through leaves the lines and both
    totals as they are. *)
Theorem removeItem_idempotent
  (now now' : Date) (c c1 c2 : Cart.t) (productId : string)
  (variantId : option string) (db db1 db2 : gmap string Cart.t) :
  Spec.plain (Cart.items c) ->
  Cart.removeItem now c productId variantId db = (Ok c1, db1) ->
  Cart.removeItem now' c1 productId variantId db1 = (Ok c2, db2) ->
  (forall it, it ∈ Cart.items c1 -> Spec.matchesId productId variantId it = false)
  /\ Cart.items c2 = Cart.items c1
  /\ Cart.totalItems c2 = Cart.totalItems c1
  /\ Cart.totalAmount c2 = Cart.totalAmount c1.
Proof.
  unfold Cart.removeItem. intros Hplain H1.
  rewrite (reject_plain _ _ _ Hplain) in H1.
  apply cart_save_ok in H1 as (_ & -> & _). simpl.
  set (keep := fun it => negb (Spec.matchesId productId variantId it)) in *.
  rewrite (reject_plain _ _ _ (plain_filter keep _ Hplain)).
  fold keep. rewrite filter_filter_same.
  intros H2. apply cart_save_ok in H2 as (_ & -> & _). simpl.
  split; [|auto].
  intros it Hin. apply list_elem_of_In, filter_In in Hin as [_ Hk].
  unfold keep in Hk. now apply negb_true_iff in Hk.
Qed.

Lemma removeItem_idempotent_witness :
  exists c1 db1 c2 db2,
    Cart.removeItem Sample.today
      (Sample.cartOf [Sample.line "p1" None 2; Sample.line "p2" None 1])
      "p1" None ∅ = (Ok c1, db1)
    /\ Cart.removeItem Sample.nextWeek c1 "p1" None db1 = (Ok c2, db2)
    /\ Cart.items c2 = Cart.items c1.
Proof.
  destruct (Cart.removeItem Sample.today _ "p1" None ∅) as [[c1|e1] db1] eqn:E1;
    [|vm_compute in E1; discriminate E1].
  destruct (Cart.removeItem Sample.nextWeek c1 "p1" None db1)
    as [[c2|e2] db2] eqn:E2.
  2:{ vm_compute in E1. injection E1 as <- <-. vm_compute in E2. discriminate E2. }
  exists c1, db1, c2, db2.
  split; [reflexivity|]. split; [exact E2|].
  exact (proj1 (proj2 (removeItem_idempotent Sample.today Sample.nextWeek
                         (Sample.cartOf [Sample.line "p1" None 2;
                                         Sample.line "p2" None 1])
                         c1 c2 "p1" None ∅ db1 db2
                         (plain_lines [Sample.line "p1" None 2;
                                       Sample.line "p2" None 1] eq_refl)
                         E1 E2))).
Defined.

(** updateItem on the cart as it is stored, at the first line with the
    product and, when one is given, the variant: without such a line it
    throws "Item not found in cart" and writes nothing; a quantity of 0 or
    less removes that line; a positive quantity replaces the line's
    quantity (it is not added to it) and keeps its price; no other line
    changes. *)
Theorem updateItem_cases
  (now : Date) (c : Cart.t) (productId : string) (qty : Z)
  (variantId : option string) (db db' : gmap string Cart.t) (r : result Cart.t) :
  Spec.plain (Cart.items c) ->
  Cart.updateItem now c productId qty variantId db = (r, db') ->
  match r with
  | Throw e =>
      db' = db
      /\ ((forall it, it ∈ Cart.items c ->
                      Spec.matchesId productId variantId it = false)
          -> e = JsError "Item not found in cart")
  | Ok c' =>
      exists i it,
        Cart.items c !! i = Some it
        /\ Spec.matchesId productId variantId it = true
        /\ (forall j y, (j < i)%nat -> Cart.items c !! j = Some y ->
                        Spec.matchesId productId variantId y = false)
        /\ (qty <= 0 -> Cart.items c' = delete i (Cart.items c))
        /\ (0 < qty ->
            Cart.items c' !! i
            = Some {| Cart.product := Cart.product it; Cart.view_ := Cart.view_ it;
                      Cart.variant := Cart.variant it;
                      Cart.quantity := qty; Cart.price := Cart.price it;
                      Cart.addedAt := Cart.addedAt it |}
            /\ (forall j, j <> i -> Cart.items c' !! j = Cart.items c !! j)
            /\ length (Cart.items c') = length (Cart.items c))
  end.
Proof.
  unfold Cart.updateItem. intros Hplain.
  rewrite (findIndex_plain _ _ _ Hplain).
  destruct (Spec.firstIndex _ _) as [i|] eqn:Hi.
  - destruct (firstIndex_Some _ _ _ Hi) as (it & Hit & Hm & Hmin).
    intros H. destruct r as [c'|e].
    + apply cart_save_ok in H as (_ & -> & _). simpl.
      exists i, it. repeat split; auto.
      * intros Hq. destruct (Z.leb_spec qty 0); [reflexivity | lia].
      * destruct (Z.leb_spec qty 0); [lia|].
        rewrite list_lookup_alter_eq, Hit. reflexivity.
      * intros j Hj. destruct (Z.leb_spec qty 0); [lia|].
        apply list_lookup_alter_ne. auto.
      * destruct (Z.leb_spec qty 0); [lia|]. apply length_alter.
    + apply cart_save_throw in H. split; [exact H|].
      intros Hnone. rewrite (Hnone it) in Hm; [discriminate|].
      apply list_elem_of_lookup. eauto.
  - intros [= <- <-]. split; [reflexivity|]. reflexivity.
Qed.

Lemma updateItem_cases_witness :
  let '(r, _) :=
    Cart.updateItem Sample.today
      (Sample.cartOf [Sample.line "p1" None 2; Sample.line "p2" None 1])
      "p2" 5 None ∅ in
  match r with
  | Ok c' => map Cart.quantity (Cart.items c') = [2; 5]
  | Throw _ => False
  end.
Proof.
  destruct (Cart.updateItem _ _ _ _ _ _) as [r db'] eqn:E.
  pose proof (updateItem_cases Sample.today
                (Sample.cartOf [Sample.line "p1" None 2; Sample.line "p2" None 1])
                "p2" 5 None ∅ db' r
                (plain_lines [Sample.line "p1" None 2; Sample.line "p2" None 1]
                   eq_refl) E) as H.
  destruct r as [c'|e].
  - destruct H as (i & it & Hit & Hm & _ & _ & Hpos).
    destruct Hpos as (Hnew & Hother & Hlen); [lia|].
    destruct i as [|[|i]]; simpl in Hit; try discriminate.
    + injection Hit as <-. discriminate Hm.
    + injection Hit as <-.
      specialize (Hother 0%nat ltac:(lia)). simpl in Hother, Hnew, Hlen.
      destruct (Cart.items c') as [|a [|b [|x l]]]; try discriminate Hlen.
      simpl in Hother, Hnew. injection Hother as ->. injection Hnew as ->.
      reflexivity.
  - vm_compute in E. discriminate E.
Defined.

(** ** validateItems *)

(** validateItems returns no message exactly when every line's product
    is found, is active and has at least the line's quantity in stock; it
    never returns more messages than there are lines. *)
Theorem validateItems_empty_iff
  (db : gmap string Product.t) (l : list Cart.item) :
  (Cart.validateItems db l = [] <-> forall it, it ∈ l -> Spec.available db it)
  /\ (length (Cart.validateItems db l) <= length l)%nat.
Proof.
  split.
  - induction l as [|it l IH]; simpl.
    + split; [intros _ x Hx; inversion Hx | reflexivity].
    + destruct (Cart.findProduct db it) as [p|] eqn:Hp.
      * destruct (Product.isActive p) eqn:Ha; simpl.
        -- destruct (Z.ltb_spec (Product.stock p) (Cart.quantity it)) as [Hlt|Hge].
           ++ split; [discriminate|]. intros H.
              destruct (H it (list_elem_of_here _ _)) as (p' & Hp' & _ & Hq).
              rewrite Hp in Hp'. injection Hp' as <-. lia.
           ++ rewrite IH. split; intros H x Hx.
              ** apply elem_of_cons in Hx as [->|Hx]; [|auto].
                 exists p. auto.
              ** apply H. now apply list_elem_of_further.
        -- split; [discriminate|]. intros H.
           destruct (H it (list_elem_of_here _ _)) as (p' & Hp' & Hact & _).
           rewrite Hp in Hp'. injection Hp' as <-. congruence.
      * split; [discriminate|]. intros H.
        destruct (H it (list_elem_of_here _ _)) as (p' & Hp' & _).
        congruence.
  - induction l as [|it l IH]; simpl; [lia|].
    destruct (Cart.findProduct db it) as [p|]; simpl; [|lia].
    destruct (negb (Product.isActive p)); simpl; [lia|].
    destruct (Product.stock p <? Cart.quantity it); simpl; lia.
Qed.

(** ** Two line operations in a row *)

Lemma firstIndex_alter {A} (f : A -> bool) (g : A -> A) (i : nat) (l : list A) :
  (forall x, f (g x) = f x) ->
  Spec.firstIndex f (alter g i l) = Spec.firstIndex f l.
Proof.
  intros Hfg. revert i. induction l as [|x l IH]; intros i; [reflexivity|].
  destruct i as [|i].
  - change (alter g 0%nat (x :: l)) with (g x :: l). simpl.
    rewrite Hfg. reflexivity.
  - change (alter g (S i) (x :: l)) with (x :: alter g i l). simpl.
    rewrite IH. reflexivity.
Qed.

Lemma firstIndex_app_new {A} (f : A -> bool) (l : list A) (x : A) :
  Spec.firstIndex f l = None -> f x = true ->
  Spec.firstIndex f (l ++ [x])%list = Some (length l).
Proof.
  intros Hnone Hx. induction l as [|a l IH]; simpl in *.
  - rewrite Hx. reflexivity.
  - destruct (f a); [discriminate|].
    destruct (Spec.firstIndex f l); [discriminate|].
    rewrite IH; reflexivity.
Qed.

Lemma alter_last {A} (g : A -> A) (l : list A) (x : A) :
  alter g (length l) (l ++ [x])%list = (l ++ [g x])%list.
Proof.
  induction l as [|a l IH]; [reflexivity|].
  change (a :: alter g (length l) (l ++ [x])%list = a :: (l ++ [g x])%list).
  now rewrite IH.
Qed.

Lemma alter_twice {A} (g h k : A -> A) (i : nat) (l : list A) :
  (forall x, g (h x) = k x) -> alter g i (alter h i l) = alter k i l.
Proof.
  intros Hk. revert i. induction l as [|a l IH]; intros i; [reflexivity|].
  destruct i as [|i].
  - change (g (h a) :: l = k a :: l). now rewrite Hk.
  - change (a :: alter g i (alter h i l) = a :: alter k i l). now rewrite IH.
Qed.

Lemma matches_new_line (productId : string) (variantId : option string)
  (qty : Z) (unitPrice : float) (now : Date) :
  Spec.matchesId productId variantId
    {| Cart.product := productId; Cart.view_ := Cart.Unpopulated;
       Cart.variant := variantId;
       Cart.quantity := qty; Cart.price := unitPrice; Cart.addedAt := now |}
  = true.
Proof.
  unfold Spec.matchesId. simpl. rewrite String.eqb_refl. simpl.
  destruct variantId as [v|]; simpl; [|reflexivity].
  rewrite String.eqb_refl. apply orb_true_r.
Qed.

(** The lines addItem hands to [save()] when the cart holds plain
    references. *)
Lemma addItem_items (now : Date) (c c' : Cart.t) (productId : string) (qty : Z)
  (unitPrice : float) (variantId : option string) (db db' : gmap string Cart.t) :
  Spec.plain (Cart.items c) ->
  Cart.addItem now c productId qty unitPrice variantId db = (Ok c', db') ->
  Cart.items c'
  = match Spec.firstIndex (Spec.matchesId productId variantId) (Cart.items c) with
    | Some i =>
        alter (fun it => Cart.set_price
                           (Cart.set_quantity it (Cart.quantity it + qty)) unitPrice)
              i (Cart.items c)
    | None =>
        (Cart.items c
           ++ [ {| Cart.product := productId; Cart.view_ := Cart.Unpopulated;
                   Cart.variant := variantId;
                   Cart.quantity := qty; Cart.price := unitPrice;
                   Cart.addedAt := now |} ])%list
    end.
Proof.
  unfold Cart.addItem. intros Hplain. rewrite (findIndex_plain _ _ _ Hplain).
  intros H. apply cart_save_ok in H as (_ & -> & _).
  reflexivity.
Qed.

Lemma addItem_plain (now : Date) (c c' : Cart.t) (productId : string) (qty : Z)
  (unitPrice : float) (variantId : option string) (db db' : gmap string Cart.t) :
  Spec.plain (Cart.items c) ->
  Cart.addItem now c productId qty unitPrice variantId db = (Ok c', db') ->
  Spec.plain (Cart.items c').
Proof.
  intros Hplain H. rewrite (addItem_items _ _ _ _ _ _ _ _ _ Hplain H).
  destruct (Spec.firstIndex _ _).
  - apply plain_alter; [reflexivity | exact Hplain].
  - apply plain_app; [exact Hplain|].
    intros it [<-|[]]. reflexivity.
Qed.

Lemma addItem_totals (now : Date) (c c' : Cart.t) (productId : string) (qty : Z)
  (unitPrice : float) (variantId : option string) (db db' : gmap string Cart.t) :
  Cart.addItem now c productId qty unitPrice variantId db = (Ok c', db') ->
  Cart.totalItems c' = Spec.sumQuantities (Cart.items c')
  /\ Cart.totalAmount c' = Spec.reducedAmounts (Cart.items c').
Proof.
  intros H.
  destruct (perform_saves now c c' (Spec.AddItem productId qty unitPrice variantId)
              db db' H) as [l S].
  apply cart_save_ok in S as (_ & -> & _).
  destruct (preSave_totals now (Cart.set_items c l)) as (-> & -> & -> & _).
  auto.
Qed.

(** Within one request (the reorder loop adds line after line to the cart
    it has in memory), adding a product twice to a cart of plain
    references is adding it once with the two quantities summed and the
    later price: the cart ends with the same lines and totals. *)
Theorem addItem_twice_accumulates
  (now now2 : Date) (c c1 c2 c3 : Cart.t) (productId : string) (q1 q2 : Z)
  (price1 price2 : float) (variantId : option string)
  (db db1 db2 db3 : gmap string Cart.t) :
  Spec.plain (Cart.items c) ->
  Cart.addItem now c productId q1 price1 variantId db = (Ok c1, db1) ->
  Cart.addItem now2 c1 productId q2 price2 variantId db1 = (Ok c2, db2) ->
  Cart.addItem now c productId (q1 + q2) price2 variantId db = (Ok c3, db3) ->
  Cart.items c2 = Cart.items c3
  /\ Cart.totalItems c2 = Cart.totalItems c3
  /\ Cart.totalAmount c2 = Cart.totalAmount c3.
Proof.
  intros Hplain H1 H2 H3.
  pose proof (addItem_plain _ _ _ _ _ _ _ _ _ Hplain H1) as Hplain1.
  assert (Hitems : Cart.items c2 = Cart.items c3).
  { rewrite (addItem_items _ _ _ _ _ _ _ _ _ Hplain1 H2),
      (addItem_items _ _ _ _ _ _ _ _ _ Hplain H3),
      (addItem_items _ _ _ _ _ _ _ _ _ Hplain H1).
    destruct (Spec.firstIndex _ (Cart.items c)) as [i|] eqn:Hi.
    - rewrite firstIndex_alter by reflexivity. rewrite Hi.
      apply alter_twice. intros it. unfold Cart.set_price, Cart.set_quantity. simpl.
      f_equal. lia.
    - rewrite (firstIndex_app_new _ _ _ Hi (matches_new_line _ _ _ _ _)).
      rewrite alter_last. unfold Cart.set_price, Cart.set_quantity. simpl.
      reflexivity. }
  split; [exact Hitems|].
  destruct (addItem_totals _ _ _ _ _ _ _ _ _ H2) as [-> ->].
  destruct (addItem_totals _ _ _ _ _ _ _ _ _ H3) as [-> ->].
  rewrite Hitems. auto.
Qed.

Lemma addItem_twice_accumulates_witness :
  exists c1 db1 c2 db2 c3 db3,
    Cart.addItem Sample.today (Sample.cartOf []) "p1" 2 Sample.tenDollars None ∅
    = (Ok c1, db1)
    /\ Cart.addItem Sample.nextWeek c1 "p1" 3 Sample.tenDollars None db1 = (Ok c2, db2)
    /\ Cart.addItem Sample.today (Sample.cartOf []) "p1" 5 Sample.tenDollars None ∅
       = (Ok c3, db3)
    /\ Cart.items c2 = Cart.items c3.
Proof.
  destruct (Cart.addItem Sample.today (Sample.cartOf []) "p1" 2 _ _ _)
    as [[c1|e1] db1] eqn:E1; [|vm_compute in E1; discriminate E1].
  destruct (Cart.addItem Sample.nextWeek c1 "p1" 3 Sample.tenDollars None db1)
    as [[c2|e2] db2] eqn:E2.
  2:{ vm_compute in E1. injection E1 as <- <-. vm_compute in E2. discriminate E2. }
  destruct (Cart.addItem Sample.today (Sample.cartOf []) "p1" 5 _ _ _)
    as [[c3|e3] db3] eqn:E3; [|vm_compute in E3; discriminate E3].
  exists c1, db1, c2, db2, c3, db3.
  split; [reflexivity|]. split; [exact E2|]. split; [reflexivity|].
  exact (proj1 (addItem_twice_accumulates Sample.today Sample.nextWeek
                  (Sample.cartOf []) c1 c2 c3 "p1" 2 3 Sample.tenDollars
                  Sample.tenDollars None ∅ db1 db2 db3
                  (plain_lines [] eq_refl) E1 E2 E3)).
Defined.

(** Adding a product that no line of a cart of plain references holds and
    removing it again gives the lines back as they were. *)
Theorem addItem_then_removeItem
  (now now2 : Date) (c c1 c2 : Cart.t) (productId : string) (qty : Z)
  (unitPrice : float) (variantId : option string) (db db1 db2 : gmap string Cart.t) :
  Spec.plain (Cart.items c) ->
  (forall it, it ∈ Cart.items c -> Spec.matchesId productId variantId it = false) ->
  Cart.addItem now c productId qty unitPrice variantId db = (Ok c1, db1) ->
  Cart.removeItem now2 c1 productId variantId db1 = (Ok c2, db2) ->
  Cart.items c2 = Cart.items c
  /\ Cart.totalItems c2 = Spec.sumQuantities (Cart.items c)
  /\ Cart.totalAmount c2 = Spec.reducedAmounts (Cart.items c).
Proof.
  intros Hplain Hnone H1 H2.
  pose proof (addItem_plain _ _ _ _ _ _ _ _ _ Hplain H1) as Hplain1.
  pose proof (addItem_items _ _ _ _ _ _ _ _ _ Hplain H1) as E1.
  destruct (Spec.firstIndex _ (Cart.items c)) as [i|] eqn:Hi.
  { destruct (firstIndex_Some _ _ _ Hi) as (it & Hit & Hm & _).
    rewrite (Hnone it) in Hm; [discriminate|]. apply list_elem_of_lookup. eauto. }
  unfold Cart.removeItem in H2. rewrite (reject_plain _ _ _ Hplain1) in H2.
  apply cart_save_ok in H2 as (_ & -> & _).
  destruct (preSave_totals now2
              (Cart.set_items c1
                 (List.filter (fun it => negb (Spec.matchesId productId variantId it))
                    (Cart.items c1)))) as (-> & -> & -> & _).
  simpl. rewrite E1, List.filter_app. simpl. rewrite matches_new_line. simpl.
  rewrite app_nil_r.
  rewrite filter_all_true; [auto|].
  intros it Hit. rewrite (Hnone it Hit). reflexivity.
Qed.

Lemma addItem_then_removeItem_witness :
  exists c1 db1 c2 db2,
    Cart.addItem Sample.today (Sample.cartOf [Sample.line "p1" None 2]) "p2" 1
      Sample.tenDollars None ∅ = (Ok c1, db1)
    /\ Cart.removeItem Sample.nextWeek c1 "p2" None db1 = (Ok c2, db2)
    /\ Cart.items c2 = [Sample.line "p1" None 2].
Proof.
  destruct (Cart.addItem Sample.today _ "p2" 1 _ _ _)
    as [[c1|e1] db1] eqn:E1; [|vm_compute in E1; discriminate E1].
  destruct (Cart.removeItem Sample.nextWeek c1 "p2" None db1)
    as [[c2|e2] db2] eqn:E2.
  2:{ vm_compute in E1. injection E1 as <- <-. vm_compute in E2. discriminate E2. }
  exists c1, db1, c2, db2.
  split; [reflexivity|]. split; [exact E2|].
  refine (proj1 (addItem_then_removeItem Sample.today Sample.nextWeek
                   (Sample.cartOf [Sample.line "p1" None 2]) c1 c2 "p2" 1
                   Sample.tenDollars None ∅ db1 db2
                   (plain_lines [Sample.line "p1" None 2] eq_refl) _ E1 E2)).
  intros it Hin. simpl in Hin. apply list_elem_of_singleton in Hin. subst it.
  reflexivity.
Defined.
(** ** Stock levels *)

Lemma nonneg_insert (db : gmap string Product.t) (k : string) (p : Product.t) :
  Spec.nonnegStock db -> 0 <= Product.stock p ->
  Spec.nonnegStock (<[k := p]> db).
Proof.
  intros Hdb Hp j x. rewrite lookup_insert.
  destruct (decide (k = j)); [intros [= <-]; exact Hp | apply Hdb].
Qed.

Lemma reserveStock_nonneg (p : Product.t) (q : Z) (r : result Product.t)
  (db db' : gmap string Product.t) :
  Spec.nonnegStock db ->
  Product.reserveStock p q db = (r, db') -> Spec.nonnegStock db'.
Proof.
  intros Hdb H. destruct r as [p'|e].
  - apply reserveStock_ok in H as [Hq ->]. apply nonneg_insert; [exact Hdb|].
    simpl. lia.
  - apply reserveStock_throw in H as (_ & _ & ->). exact Hdb.
Qed.

Lemma releaseStock_nonneg (p : Product.t) (q : Z) (r : result Product.t)
  (db db' : gmap string Product.t) :
  Spec.nonnegStock db ->
  Product.releaseStock p q db = (r, db') -> Spec.nonnegStock db'.
Proof.
  intros Hdb H. destruct r as [p'|e].
  - unfold Product.releaseStock in H.
    apply product_save_ok in H as (Hs & _ & ->).
    apply nonneg_insert; assumption.
  - apply releaseStock_throw in H. subst. exact Hdb.
Qed.

Lemma forEachLine_nonneg
  (method : Product.t -> Z -> gmap string Product.t
            -> result Product.t * gmap string Product.t)
  (lines : list (string * Z)) :
  (forall p q r db db', Spec.nonnegStock db -> method p q db = (r, db') ->
                        Spec.nonnegStock db') ->
  forall db r db',
    Spec.nonnegStock db -> forEachLine method lines db = (r, db') ->
    Spec.nonnegStock db'.
Proof.
  intros Hm. induction lines as [|[k q] rest IH]; intros db r db' Hdb; simpl.
  - intros [= _ <-]. exact Hdb.
  - destruct (db !! k) as [p|]; [|intros [= _ <-]; exact Hdb].
    destruct (method p q db) as [[p'|e] db1] eqn:E.
    + apply IH. exact (Hm _ _ _ _ _ Hdb E).
    + intros [= _ <-]. exact (Hm _ _ _ _ _ Hdb E).
Qed.

(** Available stock never goes negative: if no product has negative stock
    before the reservation loop of createOrder or the release loop of
    cancelOrder, none has afterwards, whether the loop completes or
    throws half way. *)
Theorem stock_never_negative
  (lines : list (string * Z)) (db db' : gmap string Product.t) (r : result unit) :
  Spec.nonnegStock db ->
  forEachLine Product.reserveStock lines db = (r, db')
  \/ forEachLine Product.releaseStock lines db = (r, db') ->
  Spec.nonnegStock db'.
Proof.
  intros Hdb [H|H].
  - exact (forEachLine_nonneg _ lines reserveStock_nonneg _ _ _ Hdb H).
  - exact (forEachLine_nonneg _ lines releaseStock_nonneg _ _ _ Hdb H).
Qed.

Lemma nonneg_singleton (k : string) (p : Product.t) :
  0 <= Product.stock p -> Spec.nonnegStock {[ k := p ]}.
Proof.
  intros Hp j x H. apply lookup_singleton_Some in H as [_ <-]. exact Hp.
Qed.

Lemma stock_never_negative_witness :
  Spec.nonnegStock
    (snd (forEachLine Product.reserveStock [("p1", 2); ("p1", 2)]
            {[ "p1" := Sample.productP "p1" 3 ]})).
Proof.
  apply (stock_never_negative [("p1", 2); ("p1", 2)]
           {[ "p1" := Sample.productP "p1" 3 ]} _
           (fst (forEachLine Product.reserveStock [("p1", 2); ("p1", 2)]
                   {[ "p1" := Sample.productP "p1" 3 ]}))).
  - apply nonneg_singleton. simpl. lia.
  - left. apply surjective_pairing.
Defined.

(** Every line of a completed loop found its product. *)
Lemma forEachLine_found
  (method : Product.t -> Z -> gmap string Product.t
            -> result Product.t * gmap string Product.t) (sign : Z)
  (lines : list (string * Z)) :
  (forall p q db p' db',
     method p q db = (Ok p', db') ->
     db' = <[Product._id p := Product.set_stock p (Product.stock p + sign * q)]> db) ->
  forall db db',
    Spec.keyed db ->
    forEachLine method lines db = (Ok tt, db') ->
    forall k q, (k, q) ∈ lines -> is_Some (db !! k).
Proof.
  intros Hm. induction lines as [|[k0 q0] rest IH]; intros db db' Hk H k q Hin.
  - inversion Hin.
  - simpl in H. destruct (db !! k0) as [p|] eqn:Hp; [|discriminate].
    destruct (method p q0 db) as [[p'|e] db1] eqn:E; [|discriminate].
    apply elem_of_cons in Hin as [[= -> ->]|Hin]; [eauto|].
    apply Hm in E. subst db1.
    pose proof (IH _ _ (keyed_insert db p _ Hk) H k q Hin) as Hs.
    rewrite lookup_insert in Hs. rewrite (Hk _ _ Hp) in Hs.
    destruct (decide (k0 = k)) as [<-|_]; [eauto | exact Hs].
Qed.

(** Releasing goes through when the products are there and nothing is
    negative. *)
Lemma release_loop_ok (lines : list (string * Z)) :
  forall db,
    Spec.keyed db -> Spec.nonnegStock db ->
    (forall k q, (k, q) ∈ lines -> 0 <= q /\ is_Some (db !! k)) ->
    exists db', forEachLine Product.releaseStock lines db = (Ok tt, db').
Proof.
  induction lines as [|[k q] rest IH]; intros db Hk Hn Hl; simpl; [eauto|].
  destruct (Hl k q (list_elem_of_here _ _)) as [Hq [p Hp]]. rewrite Hp.
  unfold Product.releaseStock at 1, Product.save. simpl.
  pose proof (Hn _ _ Hp) as Hs.
  destruct (Z.ltb_spec (Product.stock p + q) 0) as [?|_]; [lia|].
  apply IH.
  - apply keyed_insert, Hk.
  - apply nonneg_insert; [exact Hn | simpl; lia].
  - intros k' q' Hin. destruct (Hl k' q' (list_elem_of_further _ _ _ Hin)) as [Hq' Hs'].
    split; [exact Hq'|]. rewrite lookup_insert. simpl.
    destruct (decide (Product._id p = k')); [eauto | exact Hs'].
Qed.

Lemma release_undoes_reserve
  (lines : list (string * Z)) (db db1 : gmap string Product.t) :
  Spec.keyed db ->
  Spec.nonnegStock db ->
  (forall k q, (k, q) ∈ lines -> 0 <= q) ->
  forEachLine Product.reserveStock lines db = (Ok tt, db1) ->
  forEachLine Product.releaseStock lines db1 = (Ok tt, db).
Proof.
  intros Hk Hn Hq Hres.
  pose proof (forEachLine_ok Product.reserveStock (-1)
                (fun p q db p' db' Hm => proj2 (reserveStock_ok p p' q db db' Hm))
                lines _ _ Hk Hres) as [Hk1 Hst1].
  pose proof (forEachLine_nonneg _ lines reserveStock_nonneg _ _ _ Hn Hres) as Hn1.
  pose proof (forEachLine_found Product.reserveStock (-1) lines
                (fun p q db p' db' Hm => proj2 (reserveStock_ok p p' q db db' Hm))
                _ _ Hk Hres) as Hfound.
  destruct (release_loop_ok lines db1 Hk1 Hn1) as [db2 Hrel].
  { intros k q Hin. split; [exact (Hq k q Hin)|].
    rewrite Hst1. destruct (Hfound k q Hin) as [p ->]. simpl. eauto. }
  rewrite Hrel. f_equal.
  pose proof (forEachLine_ok Product.releaseStock 1
                (fun p q db p' db' Hm => releaseStock_ok p p' q db db' Hm)
                lines _ _ Hk1 Hrel) as [_ Hst2].
  apply map_eq. intros k. rewrite Hst2, Hst1.
  destruct (db !! k) as [p|]; simpl; [|reflexivity].
  f_equal. rewrite set_stock_twice.
  transitivity (Product.set_stock p (Product.stock p)); [|apply set_stock_same].
  f_equal. simpl. lia.
Qed.

(** Reserving the lines of an order and releasing the same lines is a
    round trip: in between, every product is down by the units the lines
    carry of it; the release then goes through and the product collection
    is back to what it was. *)
Theorem reserve_then_release
  (lines : list (string * Z)) (db db1 : gmap string Product.t) :
  Spec.keyed db ->
  Spec.nonnegStock db ->
  (forall k q, (k, q) ∈ lines -> 0 <= q) ->
  forEachLine Product.reserveStock lines db = (Ok tt, db1) ->
  (forall k,
     db1 !! k
     = (fun p => Product.set_stock p (Product.stock p - Spec.unitsOf k lines))
         <$> db !! k)
  /\ forEachLine Product.releaseStock lines db1 = (Ok tt, db).
Proof.
  intros Hk Hn Hq Hres. split.
  - intros k.
    destruct (forEachLine_ok Product.reserveStock (-1)
                (fun p q db p' db' Hm => proj2 (reserveStock_ok p p' q db db' Hm))
                lines _ _ Hk Hres) as [_ Hst].
    rewrite Hst. destruct (db !! k); simpl; [|reflexivity].
    do 2 f_equal; lia.
  - exact (release_undoes_reserve lines db db1 Hk Hn Hq Hres).
Qed.

Lemma reserve_then_release_witness :
  let db : gmap string Product.t := {[ "p1" := Sample.productP "p1" 5 ]} in
  exists db1,
    forEachLine Product.reserveStock [("p1", 2); ("p1", 1)] db = (Ok tt, db1)
    /\ forEachLine Product.releaseStock [("p1", 2); ("p1", 1)] db1 = (Ok tt, db).
Proof.
  intros db.
  destruct (forEachLine Product.reserveStock [("p1", 2); ("p1", 1)] db)
    as [[[]|e] db1] eqn:E; [|vm_compute in E; discriminate E].
  exists db1. split; [reflexivity|].
  apply (reserve_then_release [("p1", 2); ("p1", 1)] db db1).
  - apply (keyed_singleton (Sample.productP "p1" 5)).
  - apply nonneg_singleton. simpl. lia.
  - intros k q Hin.
    apply elem_of_cons in Hin as [[= -> ->]|Hin]; [lia|].
    apply list_elem_of_singleton in Hin as [= -> ->]. lia.
  - exact E.
Defined.

(** ** createOrder when it goes through *)

Lemma find_app_new (id : string) (o : Order.t) (db : list Order.t) :
  Order.findById id db = None -> Order._id o = id ->
  Order.findById id (db ++ [o]) = Some o.
Proof.
  unfold Order.findById. intros Hnone Hid.
  induction db as [|x db IH]; simpl in *.
  - rewrite Hid, String.eqb_refl. reflexivity.
  - destruct (String.eqb (Order._id x) id); [discriminate | auto].
Qed.

Lemma order_save_valid (now : Date) (o o' : Order.t) (db db' : list Order.t) :
  Order.save now o db = (Ok o', db') ->
  Order.user o' = Order.user o /\ Order.valid o' = true.
Proof.
  intros H. apply order_save_ok in H as (Hv & -> & _).
  unfold Order.stamp, Order.preSave.
  destruct (Order.isNew o) eqn:E; simpl; rewrite ?E; simpl;
    (split; [reflexivity|]).
  - unfold Order.valid in *. simpl.
    repeat (apply andb_true_iff in Hv as [Hv ?]).
    repeat (apply andb_true_iff; split); auto.
  - exact Hv.
Qed.

(** What a stored order keeps through the payment set-up. *)
Lemma setupPayment_ok (e : OrderController.env) (o o' : Order.t) (w w' : World) :
  Order.isNew o = false ->
  OrderController.setupPayment e o w = (Ok o', w') ->
  Order.orderStatus o' = Order.orderStatus o
  /\ Order.statusHistory o' = Order.statusHistory o
  /\ Order.items o' = Order.items o
  /\ Order.price_ o' = Order.price_ o
  /\ Order.amount (Order.pay o') = Order.amount (Order.pay o)
  /\ Order._id o' = Order._id o
  /\ Order.orderNumber o' = Order.orderNumber o
  /\ Order.isNew o' = false
  /\ products w' = products w /\ carts w' = carts w /\ redis w' = redis w
  /\ (forall id, Order.findById id (orders w) = Some o ->
                 Order.findById id (orders w') = Some o').
Proof.
  intros Hnew. unfold OrderController.setupPayment.
  destruct (OrderController.paymentIntent e) as [intentId|]; [|discriminate].
  unfold onOrders.
  destruct (Order.save _ _ (orders w)) as [[o2|e2] os2] eqn:S1; [|discriminate].
  simpl.
  destruct (Order.save _ o2 os2) as [[o3|e3] os3] eqn:S2; [|discriminate].
  intros [= <- <-]. simpl.
  eapply order_save_stored in S1; [|exact Hnew].
  destruct S1 as (-> & Hn2 & Hnum2 & Hst2 & Hh2 & Hi2 & Hp2 & Hpay2 & _ & Hid2).
  pose proof (order_save_stored _ _ _ _ _ Hn2 S2)
    as (-> & Hn3 & Hnum3 & Hst3 & Hh3 & Hi3 & Hp3 & Hpay3 & _ & Hid3).
  assert (Hfind : forall id, Order.findById id (orders w) = Some o ->
            Order.findById id
              (map (fun x => if String.eqb (Order._id x) (Order._id o2) then o3 else x)
                 (map (fun x => if String.eqb (Order._id x) (Order._id o) then o2 else x)
                    (orders w))) = Some o3).
  { intros id Hf.
    apply (find_replaced id o2 o3); [|exact Hid3].
    apply (find_replaced id o o2 (orders w) Hf Hid2). }
  simpl in *.
  rewrite Hst3, Hst2, Hh3, Hh2, Hi3, Hi2, Hp3, Hp2, Hpay3, Hpay2, Hid3, Hnum3, Hnum2.
  repeat split; auto.
Qed.

Lemma setupPayment_valid (e : OrderController.env) (o o' : Order.t) (w w' : World) :
  OrderController.setupPayment e o w = (Ok o', w') ->
  Order.user o' = Order.user o /\ Order.valid o' = true.
Proof.
  unfold OrderController.setupPayment.
  destruct (OrderController.paymentIntent e) as [intentId|]; [|discriminate].
  unfold onOrders.
  destruct (Order.save _ _ (orders w)) as [[o2|e2] os2] eqn:S1; [|discriminate].
  simpl.
  destruct (Order.save _ o2 os2) as [[o3|e3] os3] eqn:S2; [|discriminate].
  intros [= <- <-].
  apply order_save_valid in S1 as [U1 _], S2 as [U2 V2].
  split; [|exact V2]. rewrite U2, U1. reflexivity.
Qed.

Lemma createOrder_ok_inv
  (e : OrderController.env) (u : ReqUser) (rq : OrderController.createRequest)
  (w w1 : World) (o : Order.t) :
  OrderController.createOrder e u rq w = (Ok o, w1) ->
  exists cart items0,
    carts w !! userId u = Some cart
    /\ Cart.isEmpty cart = false
    /\ Cart.validateItems (products w)
         (Cart.items (Cart.populate (products w) cart)) = []
    /\ OrderController.orderItems (products w) (Cart.items cart) = Ok items0
    /\ Order.items o = items0
    /\ Order._id o = OrderController.newId e
    /\ Order.isNew o = false
    /\ Order.user o = userId u
    /\ Order.valid o = true
    /\ Order.orderStatus o = Order.pending
    /\ Order.statusHistory o
       = [ {| Order.entryStatus := Order.pending;
              Order.timestamp := OrderController.now e;
              Order.note := "Order created"; Order.updatedBy := None |} ]
    /\ Order.price_ o
       = (let sub := Cart.totalAmount cart in
          let sc :=
            JS.or_num (OrderController.shippingCosts
                         (default "standard" (OrderController.shippingMethod rq)))
              5.99%float in
          let tx := (sub * OrderController.taxRate)%float in
          let disc := fst (OrderController.couponFor (OrderController.couponCode rq) sub) in
          {| Order.subtotal := sub; Order.shippingFee := sc; Order.tax := tx;
             Order.discount := disc;
             Order.grandTotal := (sub + sc + tx - disc)%float |})
    /\ Order.amount (Order.pay o) = Order.grandTotal (Order.price_ o)
    /\ Order.nonneg (Order.grandTotal (Order.price_ o)) = true
    /\ Order.orderNumber o
       = Order.formatOrderNumber (OrderController.now e)
           (Order.countToday (OrderController.now e) (orders w))
    /\ forEachLine Product.reserveStock
         (OrderController.cartLines (Cart.items cart)) (products w)
       = (Ok tt, products w1)
    /\ carts w1
       = <[Cart.user cart :=
             Cart.depopulate
               (Cart.preSave (OrderController.now e) (Cart.set_items cart []))]>
           (carts w)
    /\ redis w1 = redis w
    /\ (Order.findById (OrderController.newId e) (orders w) = None ->
        Order.findById (OrderController.newId e) (orders w1) = Some o).
Proof.
  intros H. unfold OrderController.createOrder in H.
  destruct (carts w !! userId u) as [cart|] eqn:Hc; [|discriminate].
  destruct (Cart.isEmpty cart) eqn:Hempty; [discriminate|].
  destruct (Cart.validateItems _ _) eqn:Hval; [|discriminate].
  destruct (OrderController.couponFor _ _) as [discount coupon] eqn:Hcoupon.
  destruct (OrderController.orderItems _ _) as [items|err] eqn:Hitems; [|discriminate].
  unfold bind, onOrders, onProducts, onCarts in H.
  match type of H with
  | context [Order.save ?n ?x ?db] =>
      destruct (Order.save n x db) as [[order|e1] os] eqn:Hsave
  end; [|discriminate].
  pose proof (order_save_ok _ _ _ _ _ Hsave) as (Hvalid & _ & _).
  pose proof (order_save_valid _ _ _ _ _ Hsave) as [Huser Hvo]. simpl in Huser.
  apply order_save_new in Hsave
    as (Hos & Hnew & Hnum & Hst & Hh & Hi & Hp & Hpay & Hid); [|reflexivity].
  simpl in H, Hst, Hh, Hi, Hp, Hpay, Hid.
  destruct (forEachLine Product.reserveStock _ _) as [[[]|e2] ps] eqn:Hloop;
    [|discriminate].
  simpl in H.
  destruct (Cart.clearCart _ _ _) as [[c1|e3] cs] eqn:Hclear; [|discriminate].
  simpl in H.
  unfold Cart.clearCart in Hclear. apply cart_save_ok in Hclear as (_ & -> & Hcs).
  simpl in Hcs.
  assert (Htotal : Order.nonneg (Order.grandTotal (Order.price_ order)) = true).
  { rewrite Hp. simpl.
    unfold Order.valid in Hvalid. simpl in Hvalid.
    repeat (apply andb_true_iff in Hvalid as [Hvalid ?]).
    match goal with
    | Hg : Order.nonneg (_ + _ + _ - _)%float = true |- _ => exact Hg
    end. }
  assert (Hfresh : Order.findById (OrderController.newId e) (orders w) = None ->
                   Order.findById (OrderController.newId e) os = Some order).
  { intros Hnone. rewrite Hos. apply find_app_new; assumption. }
  exists cart, items. cbv zeta. rewrite Hcoupon. simpl fst.
  destruct (String.eqb (OrderController.paymentMethod rq) "stripe").
  - pose proof (setupPayment_ok _ _ _ _ _ Hnew H)
      as (Est & Eh & Ei & Ep & Ea & Eid & Enum & En & Epr & Eca & Ere & Efind).
    pose proof (setupPayment_valid _ _ _ _ _ H) as [Eu Ev].
    simpl in Epr, Eca, Ere, Efind.
    rewrite Est, Eh, Ei, Ep, Ea, Eid, Enum, En, Epr, Eca, Ere, Eu.
    rewrite Hp in *. rewrite Hpay.
    repeat split; auto; intros Hnone; apply Efind, Hfresh, Hnone.
  - injection H as <- <-. simpl.
    rewrite Hp in *. rewrite Hpay.
    repeat split; auto.
Qed.

Lemma shippingCost_cases (m : string) :
  let sc := JS.or_num (OrderController.shippingCosts m) 5.99%float in
  (sc = 5.99%float \/ sc = 12.99%float \/ sc = 24.99%float)
  /\ (m = "pickup" -> sc = 5.99%float).
Proof.
  unfold OrderController.shippingCosts. split.
  - repeat match goal with
           | |- context [String.eqb ?a ?b] => destruct (String.eqb a b)
           end; vm_compute; auto.
  - intros ->. reflexivity.
Qed.

(** The pricing of a created order: the subtotal is the cart's stored
    total, the tax is the subtotal times 0.08, the total is subtotal +
    shipping + tax - discount, summed in that order in binary64, and is
    also the amount to pay; it is not negative (and not NaN), since the
    schema's minimum rejects the order otherwise.  The shipping fee is
    5.99, 12.99 or 24.99: the pickup method, listed at 0, is charged
    5.99 as well, because of the fallback on a falsy cost. *)
Theorem createOrder_pricing
  (e : OrderController.env) (u : ReqUser) (rq : OrderController.createRequest)
  (w w1 : World) (o : Order.t) :
  OrderController.createOrder e u rq w = (Ok o, w1) ->
  exists cart,
    carts w !! userId u = Some cart
    /\ Order.subtotal (Order.price_ o) = Cart.totalAmount cart
    /\ Order.tax (Order.price_ o) = (Cart.totalAmount cart * 0.08)%float
    /\ (Order.shippingFee (Order.price_ o) = 5.99%float
        \/ Order.shippingFee (Order.price_ o) = 12.99%float
        \/ Order.shippingFee (Order.price_ o) = 24.99%float)
    /\ (OrderController.shippingMethod rq = Some "pickup" ->
        Order.shippingFee (Order.price_ o) = 5.99%float)
    /\ Order.grandTotal (Order.price_ o)
       = (Order.subtotal (Order.price_ o) + Order.shippingFee (Order.price_ o)
          + Order.tax (Order.price_ o) - Order.discount (Order.price_ o))%float
    /\ Order.amount (Order.pay o) = Order.grandTotal (Order.price_ o)
    /\ PrimFloat.leb 0 (Order.grandTotal (Order.price_ o)) = true.
Proof.
  intros H. apply createOrder_ok_inv in H
    as (cart & items & Hc & _ & _ & _ & _ & _ & _ & _ & _ & _ & _ & Hp & Ha & Ht & _).
  exists cart. rewrite Hp in *. simpl.
  destruct (shippingCost_cases (default "standard" (OrderController.shippingMethod rq)))
    as [Hs Hpick].
  repeat split; auto.
  intros Hm. apply Hpick. rewrite Hm. reflexivity.
Qed.

Lemma createOrder_pricing_witness :
  exists o w1,
    OrderController.createOrder Sample.env Sample.alice
      (Sample.checkoutWith "save10") Sample.smallCart = (Ok o, w1)
    /\ Order.grandTotal (Order.price_ o) = 25.590000000000003%float.
Proof.
  destruct (OrderController.createOrder Sample.env Sample.alice
              (Sample.checkoutWith "save10") Sample.smallCart)
    as [[o|err] w1] eqn:E; [|vm_compute in E; discriminate E].
  exists o, w1. split; [reflexivity|].
  destruct (createOrder_pricing _ _ _ _ _ _ E)
    as (cart & Hc & Hsub & Htax & _ & _ & Htot & _).
  injection Hc as <-.
  rewrite Htot, Htax, Hsub.
  vm_compute in E. injection E as <- _.
  reflexivity.
Defined.

(** ** What a created order leaves behind *)

Lemma orderItems_lines (db : gmap string Product.t) (l : list Cart.item) :
  Spec.keyed db ->
  forall items,
    OrderController.orderItems db l = Ok items ->
    OrderController.orderLines items = OrderController.cartLines l.
Proof.
  intros Hk. induction l as [|it l IH]; intros items; simpl.
  - intros [= <-]. reflexivity.
  - destruct (db !! Cart.product it) as [p|] eqn:Hp; [|discriminate].
    destruct (OrderController.orderItems db l) as [r|err]; [|discriminate].
    intros [= <-]. simpl. rewrite (IH r eq_refl), (Hk _ _ Hp). reflexivity.
Qed.

Lemma cartsKeyed_singleton (c : Cart.t) : Spec.cartsKeyed {[ Cart.user c := c ]}.
Proof.
  intros k c' H. apply lookup_singleton_Some in H as [<- <-]. reflexivity.
Qed.

(** What createOrder has done when it answers: the order is stored under
    the new id, belongs to the caller, is pending with a single history
    entry, and its lines carry the products and quantities of the cart
    lines; every product's stock is down by the units the cart held of
    it; the caller's cart is stored without lines and with both totals at
    zero, and no other cart is touched. *)
Theorem createOrder_effects
  (e : OrderController.env) (u : ReqUser) (rq : OrderController.createRequest)
  (w w1 : World) (o : Order.t) :
  Spec.keyed (products w) ->
  Spec.cartsKeyed (carts w) ->
  Order.findById (OrderController.newId e) (orders w) = None ->
  OrderController.createOrder e u rq w = (Ok o, w1) ->
  exists cart,
    carts w !! userId u = Some cart
    /\ Order.findById (OrderController.newId e) (orders w1) = Some o
    /\ Order.user o = userId u
    /\ Order.orderStatus o = Order.pending
    /\ length (Order.statusHistory o) = 1%nat
    /\ OrderController.orderLines (Order.items o)
       = OrderController.cartLines (Cart.items cart)
    /\ (forall k,
          products w1 !! k
          = (fun p => Product.set_stock p
                        (Product.stock p
                         - Spec.unitsOf k (OrderController.cartLines (Cart.items cart))))
              <$> products w !! k)
    /\ (exists c', carts w1 !! userId u = Some c'
                   /\ Cart.items c' = [] /\ Cart.totalItems c' = 0
                   /\ Cart.totalAmount c' = 0%float)
    /\ (forall k, k <> userId u -> carts w1 !! k = carts w !! k).
Proof.
  intros Hk Hck Hfresh H. apply createOrder_ok_inv in H
    as (cart & items & Hc & _ & _ & Hitems & Hi & _ & _ & Hu & _ & Hst & Hh
        & _ & _ & _ & _ & Hloop & Hcarts & _ & Hfind).
  exists cart. pose proof (Hck _ _ Hc) as Hcu.
  repeat split; auto.
  - rewrite Hh. reflexivity.
  - rewrite Hi. exact (orderItems_lines _ _ Hk _ Hitems).
  - intros k.
    destruct (forEachLine_ok Product.reserveStock (-1)
                (fun p q db p' db' Hm => proj2 (reserveStock_ok p p' q db db' Hm))
                _ _ _ Hk Hloop) as [_ Hstock].
    rewrite Hstock. destruct (products w !! k); simpl; [|reflexivity].
    do 2 f_equal; lia.
  - rewrite Hcarts, Hcu. rewrite lookup_insert_eq. eexists. split; [reflexivity|].
    repeat split; reflexivity.
  - intros k Hne. rewrite Hcarts, Hcu. apply lookup_insert_ne. congruence.
Qed.

Lemma createOrder_effects_witness :
  exists o w1,
    OrderController.createOrder Sample.env Sample.alice Sample.checkout
      Sample.smallCart = (Ok o, w1)
    /\ Product.stock <$> products w1 !! "p1" = Some 3
    /\ Order.findById "o1" (orders w1) = Some o.
Proof.
  destruct (OrderController.createOrder Sample.env Sample.alice Sample.checkout
              Sample.smallCart)
    as [[o|err] w1] eqn:E; [|vm_compute in E; discriminate E].
  exists o, w1. split; [reflexivity|].
  destruct (createOrder_effects Sample.env Sample.alice Sample.checkout
              Sample.smallCart w1 o
              (keyed_singleton (Sample.productP "p1" 5))
              (cartsKeyed_singleton (Sample.cartOf [Sample.line "p1" None 2]))
              eq_refl E)
    as (cart & Hc & Hfind & _ & _ & _ & _ & Hstock & _).
  injection Hc as <-. split; [|exact Hfind].
  rewrite Hstock. vm_compute. reflexivity.
Defined.

(** ** Placing an order and cancelling it *)

Lemma cancelOrder_runs
  (later : Date) (u : ReqUser) (id : string) (reason : option string)
  (w : World) (o : Order.t) (db : gmap string Product.t) :
  Order.findById id (orders w) = Some o ->
  Order.user o = userId u ->
  Order.canBeCancelled o = true ->
  Order.valid o = true ->
  forEachLine Product.releaseStock (OrderController.orderLines (Order.items o))
    (products w) = (Ok tt, db) ->
  exists o2 w2,
    OrderController.cancelOrder later u id reason w = (Ok o2, w2)
    /\ products w2 = db /\ carts w2 = carts w
    /\ Order.orderStatus o2 = Order.cancelled.
Proof.
  intros Hf Hu Hc Hv Hloop. unfold OrderController.cancelOrder.
  rewrite Hf, Hu, String.eqb_refl, Hc. simpl.
  unfold bind, onProducts, onOrders. rewrite Hloop. simpl.
  unfold Order.save at 1.
  replace (Order.valid _) with true by (symmetry; exact Hv).
  eexists _, _. split; [reflexivity|]. simpl.
  repeat split.
  exact (proj1 (saved_status later (orders w)
                  (Order.set_cancelReason
                     (Order.set_cancelledAt
                        (Order.addStatusHistory later o Order.cancelled reason
                           (Some (userId u)))
                        (Some later))
                     reason))).
Qed.

Lemma order_quantities (o : Order.t) :
  Order.valid o = true ->
  forall k q, (k, q) ∈ OrderController.orderLines (Order.items o) -> 0 <= q.
Proof.
  intros Hv k q Hin. unfold Order.valid in Hv.
  repeat (apply andb_true_iff in Hv as [Hv ?]).
  assert (Hitems : forallb Order.validItem (Order.items o) = true) by assumption.
  unfold OrderController.orderLines in Hin.
  apply list_elem_of_fmap in Hin as (it & [= -> ->] & Hit).
  rewrite forallb_forall in Hitems.
  specialize (Hitems it (proj1 (list_elem_of_In _ _) Hit)).
  unfold Order.validItem in Hitems.
  repeat (apply andb_true_iff in Hitems as [Hitems ?]).
  assert (Hq : (1 <=? Order.quantity it) = true) by assumption.
  lia.
Qed.

(** Cancelling an order right after placing it is accepted and puts the
    product collection back exactly as it was before the order; the cart
    stays cleared. *)
Theorem createOrder_then_cancelOrder
  (e : OrderController.env) (u : ReqUser) (rq : OrderController.createRequest)
  (later : Date) (reason : option string) (w w1 : World) (o : Order.t) :
  Spec.keyed (products w) ->
  Spec.nonnegStock (products w) ->
  Order.findById (OrderController.newId e) (orders w) = None ->
  OrderController.createOrder e u rq w = (Ok o, w1) ->
  exists o2 w2,
    OrderController.cancelOrder later u (OrderController.newId e) reason w1
    = (Ok o2, w2)
    /\ products w2 = products w
    /\ carts w2 = carts w1
    /\ Order.orderStatus o2 = Order.cancelled.
Proof.
  intros Hk Hn Hfresh H. apply createOrder_ok_inv in H
    as (cart & items & Hc & _ & _ & Hitems & Hi & _ & _ & Hu & Hv & Hst & _
        & _ & _ & _ & _ & Hloop & _ & _ & Hfind).
  apply (cancelOrder_runs later u _ reason w1 o (products w)); auto.
  - unfold Order.canBeCancelled. rewrite Hst. reflexivity.
  - pose proof (orderItems_lines _ _ Hk _ Hitems) as Hl. rewrite Hi, Hl.
    apply release_undoes_reserve; auto.
    rewrite <- Hl, <- Hi. apply order_quantities, Hv.
Qed.

Lemma createOrder_then_cancelOrder_witness :
  exists o w1 o2 w2,
    OrderController.createOrder Sample.env Sample.alice Sample.checkout
      Sample.smallCart = (Ok o, w1)
    /\ OrderController.cancelOrder Sample.nextWeek Sample.alice "o1" None w1
       = (Ok o2, w2)
    /\ products w2 = products Sample.smallCart.
Proof.
  destruct (OrderController.createOrder Sample.env Sample.alice Sample.checkout
              Sample.smallCart)
    as [[o|err] w1] eqn:E; [|vm_compute in E; discriminate E].
  destruct (createOrder_then_cancelOrder Sample.env Sample.alice Sample.checkout
              Sample.nextWeek None Sample.smallCart w1 o
              (keyed_singleton (Sample.productP "p1" 5)))
    as (o2 & w2 & Hc & Hp & _).
  - apply nonneg_singleton. simpl. lia.
  - reflexivity.
  - exact E.
  - exists o, w1, o2, w2. split; [reflexivity|]. split; [exact Hc | exact Hp].
Defined.

(** ** Validation and reservation *)

(** What a populated line is validated against, when the products are
    stored under their ids: the product its reference names. *)
Lemma findProduct_populated (db : gmap string Product.t) (it : Cart.item) :
  Spec.keyed db ->
  Cart.findProduct db
    (Cart.set_view it match db !! Cart.product it with
                      | Some p => Cart.Loaded p
                      | None => Cart.Missing
                      end)
  = db !! Cart.product it.
Proof.
  intros Hk. unfold Cart.findProduct. simpl.
  destruct (db !! Cart.product it) as [p|] eqn:Hp; simpl; [|reflexivity].
  rewrite (Hk _ _ Hp). exact Hp.
Qed.

Lemma validated_lines (db : gmap string Product.t) (c : Cart.t) :
  Spec.keyed db ->
  Cart.validateItems db (Cart.items (Cart.populate db c)) = [] ->
  forall it, it ∈ Cart.items c ->
    exists p, db !! Cart.product it = Some p
              /\ Product.isActive p = true
              /\ Cart.quantity it <= Product.stock p.
Proof.
  intros Hk. unfold Cart.populate. simpl.
  induction (Cart.items c) as [|x l IH]; intros Hval it Hin; [inversion Hin|].
  cbn [map Cart.validateItems] in Hval.
  rewrite (findProduct_populated db x Hk) in Hval.
  destruct (db !! Cart.product x) as [p|] eqn:Hp; [|discriminate].
  destruct (Product.isActive p) eqn:Ha; [|discriminate]. simpl in Hval.
  destruct (Z.ltb_spec (Product.stock p) (Cart.quantity x)) as [|Hq];
    [discriminate|].
  apply elem_of_cons in Hin as [->|Hin]; [eauto | exact (IH Hval it Hin)].
Qed.

Lemma reserve_loop_completes
  (l : list Cart.item) (db : gmap string Product.t) :
  Spec.keyed db ->
  NoDup (map Cart.product l) ->
  (forall it, it ∈ l ->
     exists p, db !! Cart.product it = Some p
               /\ Product.isActive p = true
               /\ Cart.quantity it <= Product.stock p) ->
  exists db',
    forEachLine Product.reserveStock (OrderController.cartLines l) db = (Ok tt, db').
Proof.
  revert db. induction l as [|it l IH]; intros db Hk Hnd Hval; simpl; [eauto|].
  apply NoDup_cons in Hnd as [Hnotin Hnd].
  destruct (Hval it (list_elem_of_here _ _)) as (p & Hp & _ & Hq). rewrite Hp.
  unfold Product.reserveStock at 1, Product.save.
  destruct (Z.ltb_spec (Product.stock p) (Cart.quantity it)) as [|_]; [lia|].
  simpl.
  destruct (Z.ltb_spec (Product.stock p - Cart.quantity it) 0) as [|_]; [lia|].
  apply IH; [apply keyed_insert, Hk | exact Hnd |].
  intros x Hx. destruct (Hval x (list_elem_of_further _ _ _ Hx)) as (px & Hpx & H).
  exists px. split; [|exact H].
  rewrite lookup_insert_ne; [exact Hpx|].
  rewrite (Hk _ _ Hp). intros Heq.
  apply Hnotin. rewrite Heq. apply list_elem_of_fmap. eauto.
Qed.

(** A cart that passes validateItems and whose lines refer to pairwise
    distinct products gets all its reservations: the loop of createOrder
    completes and leaves every product down by the units of its line.
    (With two lines of one product it may not complete, each line being
    checked against the full stock.) *)
Theorem validated_cart_reserves
  (c : Cart.t) (db : gmap string Product.t) :
  Spec.keyed db ->
  NoDup (map Cart.product (Cart.items c)) ->
  Cart.validateItems db (Cart.items (Cart.populate db c)) = [] ->
  exists db',
    forEachLine Product.reserveStock (OrderController.cartLines (Cart.items c)) db
    = (Ok tt, db')
    /\ forall k,
         db' !! k
         = (fun p => Product.set_stock p
                       (Product.stock p
                        - Spec.unitsOf k (OrderController.cartLines (Cart.items c))))
             <$> db !! k.
Proof.
  intros Hk Hnd Hval.
  destruct (reserve_loop_completes (Cart.items c) db Hk Hnd
              (validated_lines db c Hk Hval)) as [db' Hloop].
  exists db'. split; [exact Hloop|]. intros k.
  destruct (forEachLine_ok Product.reserveStock (-1)
              (fun p q db p' db' Hm => proj2 (reserveStock_ok p p' q db db' Hm))
              _ _ _ Hk Hloop) as [_ Hst].
  rewrite Hst. destruct (db !! k); simpl; [|reflexivity].
  do 2 f_equal; lia.
Qed.

Lemma validated_cart_reserves_witness :
  exists db',
    forEachLine Product.reserveStock
      (OrderController.cartLines [Sample.line "p1" None 2; Sample.line "p2" None 1])
      {[ "p1" := Sample.productP "p1" 5; "p2" := Sample.productP "p2" 1 ]}
    = (Ok tt, db').
Proof.
  cut (Spec.keyed {[ "p1" := Sample.productP "p1" 5; "p2" := Sample.productP "p2" 1 ]}
       /\ NoDup (map Cart.product
                   [Sample.line "p1" None 2; Sample.line "p2" None 1])
       /\ Cart.validateItems
            {[ "p1" := Sample.productP "p1" 5; "p2" := Sample.productP "p2" 1 ]}
            (Cart.items
               (Cart.populate
                  {[ "p1" := Sample.productP "p1" 5; "p2" := Sample.productP "p2" 1 ]}
                  (Sample.cartOf [Sample.line "p1" None 2; Sample.line "p2" None 1])))
          = []).
  { intros (Hk & Hnd & Hval).
    destruct (validated_cart_reserves
                (Sample.cartOf [Sample.line "p1" None 2; Sample.line "p2" None 1])
                _ Hk Hnd Hval) as (db' & Hloop & _).
    exists db'. exact Hloop. }
  split; [|split].
  - intros k p H.
    apply lookup_insert_Some in H as [[<- <-]|[_ H]]; [reflexivity|].
    apply lookup_singleton_Some in H as [<- <-]. reflexivity.
  - simpl. apply NoDup_cons. split.
    + intros H. apply list_elem_of_singleton in H. discriminate H.
    + apply NoDup_singleton.
  - vm_compute. reflexivity.
Defined.
(** ** Order numbers of one day *)

Lemma sameDay_fields (a b : Date) :
  sameDay a b = true ->
  fullYear b = fullYear a /\ monthIndex b = monthIndex a
  /\ dayOfMonth b = dayOfMonth a.
Proof.
  unfold sameDay. intros H.
  apply andb_true_iff in H as [H Hd]. apply andb_true_iff in H as [Hy Hm].
  apply N.eqb_eq in Hy, Hm, Hd. auto.
Qed.

Lemma countToday_app (now : Date) (db : list Order.t) (o : Order.t) :
  Order.createdAt o = Some now ->
  Order.countToday now (db ++ [o]) = (Order.countToday now db + 1)%N.
Proof.
  intros Hc. unfold Order.countToday.
  rewrite List.filter_app, length_app. simpl. rewrite Hc.
  unfold sameDay. rewrite !N.eqb_refl. simpl. lia.
Qed.

Lemma countToday_sameDay (a b : Date) (db : list Order.t) :
  sameDay a b = true -> Order.countToday b db = Order.countToday a db.
Proof.
  intros H. apply sameDay_fields in H as (Hy & Hm & Hd).
  unfold Order.countToday, sameDay. rewrite Hy, Hm, Hd. reflexivity.
Qed.

Lemma formatOrderNumber_sameDay (a b : Date) (n : N) :
  sameDay a b = true -> Order.formatOrderNumber b n = Order.formatOrderNumber a n.
Proof.
  intros H. apply sameDay_fields in H as (Hy & Hm & Hd).
  unfold Order.formatOrderNumber. rewrite Hy, Hm, Hd. reflexivity.
Qed.

Lemma formatOrderNumber_inj (now : Date) (m n : N) :
  Order.formatOrderNumber now m = Order.formatOrderNumber now n -> m = n.
Proof.
  unfold Order.formatOrderNumber. intros H.
  do 5 apply app_inv_head_string in H.
  apply (f_equal JS.parseDec) in H. rewrite !parseDec_padStart in H.
  injection H as H. lia.
Qed.

(** Two orders created one after the other on the same calendar day get
    consecutive counters, hence different order numbers. *)
Theorem consecutive_orderNumbers_distinct
  (now1 now2 : Date) (o1 o2 o1' o2' : Order.t) (db db1 db2 : list Order.t) :
  Order.isNew o1 = true -> Order.isNew o2 = true ->
  sameDay now1 now2 = true ->
  Order.save now1 o1 db = (Ok o1', db1) ->
  Order.save now2 o2 db1 = (Ok o2', db2) ->
  Order.orderNumber o1' = Order.formatOrderNumber now1 (Order.countToday now1 db)
  /\ Order.orderNumber o2'
     = Order.formatOrderNumber now1 (Order.countToday now1 db + 1)
  /\ Order.orderNumber o1' <> Order.orderNumber o2'.
Proof.
  intros Hn1 Hn2 Hday S1 S2.
  assert (Hc : Order.createdAt o1' = Some now1).
  { apply order_save_ok in S1 as (_ & -> & _).
    unfold Order.stamp, Order.preSave. repeat (rewrite Hn1; simpl). reflexivity. }
  apply (order_save_new _ _ _ _ _ Hn1) in S1 as (-> & _ & Hnum1 & _).
  apply (order_save_new _ _ _ _ _ Hn2) in S2 as (_ & _ & Hnum2 & _).
  rewrite (countToday_sameDay _ _ _ Hday), (formatOrderNumber_sameDay _ _ _ Hday),
    (countToday_app _ _ _ Hc) in Hnum2.
  split; [exact Hnum1|]. split; [exact Hnum2|].
  rewrite Hnum1, Hnum2. intros H. apply formatOrderNumber_inj in H. lia.
Qed.

Lemma consecutive_orderNumbers_distinct_witness :
  exists o1' db1 o2' db2,
    Order.save Sample.today Sample.fresh [] = (Ok o1', db1)
    /\ Order.save Sample.today Sample.fresh db1 = (Ok o2', db2)
    /\ Order.orderNumber o1' <> Order.orderNumber o2'.
Proof.
  destruct (Order.save Sample.today Sample.fresh []) as [[o1'|err] db1] eqn:E1;
    [|vm_compute in E1; discriminate E1].
  destruct (Order.save Sample.today Sample.fresh db1) as [[o2'|err] db2] eqn:E2;
    [|unfold Order.save in E1, E2;
      destruct (Order.valid Sample.fresh); discriminate].
  exists o1', db1, o2', db2. split; [reflexivity|]. split; [exact E2|].
  exact (proj2 (proj2 (consecutive_orderNumbers_distinct Sample.today Sample.today
                         Sample.fresh Sample.fresh o1' o2' [] db1 db2
                         eq_refl eq_refl eq_refl E1 E2))).
Defined.

(** ** The lock key after a request has run *)

Lemma release_own (key lockValue : string) (r : gmap string string) :
  CartController.release key lockValue (<[key := lockValue]> r) = delete key r.
Proof.
  unfold CartController.release, Redis.get, Redis.del.
  rewrite lookup_insert_eq, bool_decide_eq_true_2 by reflexivity.
  apply delete_insert_eq.
Qed.

(** An addToCart request that passes the product checks and runs from
    start to end is never answered 409, and once its finally block is
    through the lock key is gone, whatever it held before: a token that
    another request had stored under the key is overwritten by the [SET]
    and deleted with it.  Products and orders are not touched. *)
Theorem addToCart_clears_lock
  (clock : nat -> Date) (u : ReqUser) (rq : CartController.addRequest)
  (w : World) (r : gmap string string) (product : Product.t) :
  redis w = Some r ->
  products w !! CartController.productId rq = Some product ->
  Product.isActive product = true ->
  CartController.quantity rq <= Product.stock product ->
  exists outcome w',
    CartController.addToCart clock u rq w = (CartController.Finished outcome, w')
    /\ redis w' = Some (delete (CartController.lockKey u rq) r)
    /\ (forall msg, outcome <> Throw (ApiError 409 msg))
    /\ products w' = products w /\ orders w' = orders w.
Proof.
  intros Hr Hp Hact Hq. unfold CartController.addToCart. simpl.
  rewrite Hp, Hact. simpl.
  destruct (Z.ltb_spec (Product.stock product) (CartController.quantity rq)); [lia|].
  simpl. rewrite Hr. simpl.
  assert (Htail : forall res cs,
            (forall msg, res <> Throw (ApiError 409 msg)) ->
            exists outcome w',
              (let '(p', w'0) :=
                 CartController.step (clock 3%nat) u rq
                   (CartController.AtReleaseGet
                      (JS.toString (epochMs (clock 0%nat))) true res)
                   (set_carts
                      (set_redis w
                         (Some (<[CartController.lockKey u rq :=
                                    JS.toString (epochMs (clock 0%nat))]> r)))
                      cs) in
               let '(p'0, w'1) := CartController.step (clock 4%nat) u rq p' w'0 in
               (p'0, w'1)) = (CartController.Finished outcome, w')
              /\ redis w' = Some (delete (CartController.lockKey u rq) r)
              /\ (forall msg, outcome <> Throw (ApiError 409 msg))
              /\ products w' = products w /\ orders w' = orders w).
  { intros res cs Hres. simpl. unfold Redis.get.
    rewrite lookup_insert_eq, bool_decide_eq_true_2 by reflexivity. simpl.
    eexists _, _. split; [reflexivity|]. simpl.
    unfold Redis.del. rewrite delete_insert_eq. auto. }
  destruct (Cart.getOrCreateCart _ _ _ _) as [[cart|err] cs] eqn:Hg.
  - destruct (Cart.addItem _ _ _ _ _ _ _) as [res cs'] eqn:Ha.
    apply Htail. intros msg. exact (addItem_result _ _ _ _ _ _ _ _ _ Ha 409 msg).
  - apply Htail. intros msg. unfold Cart.getOrCreateCart in Hg. simpl in Hg.
    destruct (carts w !! userId u); [discriminate|].
    exact (cart_save_result _ _ _ _ _ Hg 409 msg).
Qed.

Lemma addToCart_clears_lock_witness :
  let held : gmap string string := {[ "cart_lock:u1:p1" := "1793577599000" ]} in
  exists outcome w',
    CartController.addToCart (fun _ => Sample.today) Sample.alice Sample.addOne
      (set_redis Sample.shop (Some held))
    = (CartController.Finished outcome, w')
    /\ redis w' = Some ∅.
Proof.
  intros held.
  destruct (addToCart_clears_lock (fun _ => Sample.today) Sample.alice Sample.addOne
              (set_redis Sample.shop (Some held)) held (Sample.productP "p1" 5)
              eq_refl eq_refl eq_refl)
    as (outcome & w' & Hrun & Hredis & _).
  - simpl. lia.
  - exists outcome, w'. split; [exact Hrun|]. rewrite Hredis. reflexivity.
Defined.

(** updateCartItem shares the key with addToCart and treats it the same
    way: a request that passes the product checks is never answered 409,
    and it leaves the key deleted, whatever it held before, the token of
    an addToCart request that is still running included. *)
Theorem updateCartItem_clears_lock
  (clock : nat -> Date) (u : ReqUser) (rq : CartController.updateRequest)
  (w : World) (r : gmap string string) (product : Product.t) :
  redis w = Some r ->
  products w !! CartController.updProductId rq = Some product ->
  CartController.updQuantity rq <= Product.stock product ->
  let '(res, w') := CartController.updateCartItem clock u rq w in
  redis w'
  = Some (delete ("cart_lock:" ++ userId u ++ ":" ++ CartController.updProductId rq) r)
  /\ (forall msg, res <> Throw (ApiError 409 msg))
  /\ products w' = products w /\ orders w' = orders w.
Proof.
  intros Hr Hp Hq. unfold CartController.updateCartItem. rewrite Hp.
  destruct (Z.ltb_spec (Product.stock product) (CartController.updQuantity rq)); [lia|].
  rewrite Hr. unfold Redis.set. simpl JS.truthy. cbv iota beta.
  rewrite release_own.
  destruct (carts w !! userId u) as [cart|]; [|repeat split; discriminate].
  destruct (Cart.updateItem _ _ _ _ _ _) as [res cs] eqn:Hu.
  repeat split. intros msg Hres. subst res.
  unfold Cart.updateItem in Hu.
  destruct (Cart.findIndex _ _) as [[i|]|e] eqn:Hi.
  - exact (cart_save_result _ _ _ _ _ Hu 409 msg eq_refl).
  - discriminate.
  - apply findIndex_throws in Hi. subst e. discriminate.
Qed.

Lemma updateCartItem_clears_lock_witness :
  let held : gmap string string := {[ "cart_lock:u1:p1" := "1793577599000" ]} in
  redis (snd (CartController.updateCartItem (fun _ => Sample.today) Sample.alice
                {| CartController.updProductId := "p1";
                   CartController.updQuantity := 3;
                   CartController.updVariantId := None |}
                (set_redis Sample.smallCart (Some held))))
  = Some ∅.
Proof.
  intros held.
  pose proof (updateCartItem_clears_lock (fun _ => Sample.today) Sample.alice
                {| CartController.updProductId := "p1";
                   CartController.updQuantity := 3;
                   CartController.updVariantId := None |}
                (set_redis Sample.smallCart (Some held)) held
                (Sample.productP "p1" 5) eq_refl eq_refl) as H.
  destruct (CartController.updateCartItem _ _ _ _) as [res w'].
  destruct H as [Hredis _]; [simpl; lia|].
  simpl. rewrite Hredis. reflexivity.
Defined.

(** ** addToCart on a cart that already holds the product *)

(** The key of a line, and its quantity. *)
Lemma depopulate_keys (c : Cart.t) :
  map (fun it => (Cart.product it, Cart.variant it, Cart.quantity it))
    (Cart.items (Cart.depopulate c))
  = map (fun it => (Cart.product it, Cart.variant it, Cart.quantity it))
      (Cart.items c).
Proof.
  unfold Cart.depopulate. simpl. rewrite map_map. reflexivity.
Qed.

Lemma populate_keys (products : gmap string Product.t) (c : Cart.t) :
  map (fun it => (Cart.product it, Cart.variant it, Cart.quantity it))
    (Cart.items (Cart.populate products c))
  = map (fun it => (Cart.product it, Cart.variant it, Cart.quantity it))
      (Cart.items c).
Proof.
  unfold Cart.populate. simpl. rewrite map_map. reflexivity.
Qed.

(** addToCart never merges: the handler loads the cart through
    [getOrCreateCart], so no stored line is matched, and a request that
    is answered with the cart has appended a line to the stored cart,
    also when a line with the same product and variant was already
    there.  (The product id of a request is no printed document.) *)
Theorem addToCart_never_merges
  (clock : nat -> Date) (u : ReqUser) (rq : CartController.addRequest)
  (w w' : World) (stored c' : Cart.t) :
  (forall p, Cart.printed p <> CartController.productId rq) ->
  carts w !! userId u = Some stored ->
  Cart.user stored = userId u ->
  CartController.addToCart clock u rq w
  = (CartController.Finished (Ok c'), w') ->
  exists stored',
    carts w' !! userId u = Some stored'
    /\ map (fun it => (Cart.product it, Cart.variant it, Cart.quantity it))
         (Cart.items stored')
       = (map (fun it => (Cart.product it, Cart.variant it, Cart.quantity it))
            (Cart.items stored)
            ++ [ (CartController.productId rq, CartController.variantId rq,
                  CartController.quantity rq) ])%list.
Proof.
  intros Hne Hc Hu. unfold CartController.addToCart. simpl.
  destruct (products w !! CartController.productId rq) as [product|];
    [|simpl; destruct (redis w); discriminate].
  destruct (negb (Product.isActive product));
    [simpl; destruct (redis w); discriminate|].
  destruct (Product.stock product <? CartController.quantity rq);
    [simpl; destruct (redis w); discriminate|].
  simpl. destruct (redis w) as [r|] eqn:Hr; [|simpl; rewrite ?Hr; discriminate].
  simpl. unfold Cart.getOrCreateCart. rewrite Hc.
  unfold Cart.addItem.
  rewrite (findIndex_populated (products w) (CartController.productId rq)
             (CartController.variantId rq) stored Hne).
  destruct (forallb _ _).
  2:{ simpl. unfold Redis.get.
      rewrite lookup_insert_eq, bool_decide_eq_true_2 by reflexivity.
      simpl. discriminate. }
  destruct (Cart.save _ _ _) as [[c1|err] cs] eqn:Hs.
  2:{ simpl. unfold Redis.get.
      rewrite lookup_insert_eq, bool_decide_eq_true_2 by reflexivity.
      simpl. discriminate. }
  simpl. unfold Redis.get.
  rewrite lookup_insert_eq, bool_decide_eq_true_2 by reflexivity. simpl.
  intros [= <- <-]. simpl.
  apply cart_save_ok in Hs as (_ & -> & ->). simpl Cart.user.
  rewrite Hu, lookup_insert_eq. eexists. split; [reflexivity|].
  rewrite depopulate_keys.
  match goal with
  | |- context [Cart.items (Cart.preSave ?n ?c)] =>
      destruct (preSave_totals n c) as (_ & _ & -> & _)
  end.
  unfold Cart.set_items. cbn [Cart.items].
  rewrite map_app, (populate_keys (products w) stored). reflexivity.
Qed.

Lemma addToCart_never_merges_witness :
  exists c' w' stored',
    CartController.addToCart (fun _ => Sample.today) Sample.alice Sample.addOne
      (set_redis Sample.smallCart (Some ∅))
    = (CartController.Finished (Ok c'), w')
    /\ carts w' !! "u1" = Some stored'
    /\ map (fun it => (Cart.product it, Cart.variant it, Cart.quantity it))
         (Cart.items stored')
       = [("p1", None, 2); ("p1", None, 1)].
Proof.
  destruct (CartController.addToCart (fun _ => Sample.today) Sample.alice
              Sample.addOne (set_redis Sample.smallCart (Some ∅)))
    as [p w'] eqn:E.
  assert (Hp : exists c', p = CartController.Finished (Ok c')).
  { apply (f_equal fst) in E. vm_compute in E. rewrite <- E. eexists. reflexivity. }
  destruct Hp as [c' ->].
  assert (Hne : forall p, Cart.printed p <> "p1")
    by (intros p H; unfold Cart.printed in H; simpl in H; discriminate H).
  destruct (addToCart_never_merges (fun _ => Sample.today) Sample.alice
              Sample.addOne (set_redis Sample.smallCart (Some ∅)) w'
              (Sample.cartOf [Sample.line "p1" None 2]) c' Hne eq_refl eq_refl E)
    as (stored' & Hs & Hkeys).
  exists c', w', stored'. split; [reflexivity|]. split; [exact Hs | exact Hkeys].
Defined.
(** ** Refunds *)

(** requestRefund never goes through: the payment service calls
    [stripe.refunds.create] without having imported [stripe], so
    processRefund always ends in its catch block.  Whatever the order and
    the caller, the request is answered with 404, 403, 400 or 500, the
    order is never marked refunded and no store is written. *)
Theorem requestRefund_never_succeeds
  (show : float -> string) (now : Date) (u : ReqUser) (id : string)
  (reason : option string) (amount : option float) (w : World) :
  exists code msg,
    Refund.requestRefund show now u id reason amount w
    = (Throw (ApiError code msg), w)
    /\ (code = 404 \/ code = 403 \/ code = 400 \/ code = 500)
    /\ (code = 500 <->
        exists o, Order.findById id (orders w) = Some o
                  /\ Order.user o = userId u
                  /\ Order.orderStatus o = Order.delivered
                  /\ Order.payStatus (Order.pay o) = Order.pay_succeeded).
Proof.
  unfold Refund.requestRefund.
  destruct (Order.findById id (orders w)) as [o|] eqn:Hf.
  - destruct (String.eqb_spec (Order.user o) (userId u)) as [Hu|Hu]; simpl.
    + destruct (Order.canBeRefunded o) eqn:Hc; simpl.
      * eexists _, _. split; [reflexivity|]. split; [auto|].
        split; [intros _|reflexivity].
        exists o. unfold Order.canBeRefunded in Hc.
        destruct (Order.orderStatus o); try discriminate.
        apply bool_decide_eq_true in Hc. auto.
      * eexists _, _. split; [reflexivity|]. split; [auto|].
        split; [discriminate|]. intros (o' & [= <-] & _ & Hst & Hpay).
        unfold Order.canBeRefunded in Hc. rewrite Hst in Hc.
        apply bool_decide_eq_false in Hc. contradiction.
    + eexists _, _. split; [reflexivity|]. split; [auto|].
      split; [discriminate|]. intros (o' & [= <-] & Hu' & _). contradiction.
  - eexists _, _. split; [reflexivity|]. split; [auto|].
    split; [discriminate|]. intros (o' & Ho & _). discriminate.
Qed.

(** ** Payment webhooks *)

Lemma onOrders_keeps {A} (f : list Order.t -> result A * list Order.t) (w : World) :
  products (snd (onOrders f w)) = products w
  /\ carts (snd (onOrders f w)) = carts w
  /\ redis (snd (onOrders f w)) = redis w.
Proof. unfold onOrders. destruct (f (orders w)). repeat split. Qed.

(** No webhook touches the stock: whatever event arrives, verified or
    not, handleWebhook leaves the product collection, the carts and the
    locks as they were.  A failed or cancelled payment releases nothing,
    and a payment that succeeds after the order was cancelled reserves
    nothing again. *)
Theorem handleWebhook_keeps_stock
  (now : Date) (verified : option PaymentService.event) (w : World) :
  let w' := snd (PaymentService.handleWebhook now verified w) in
  products w' = products w /\ carts w' = carts w /\ redis w' = redis w.
Proof.
  unfold PaymentService.handleWebhook.
  destruct verified as [ev|]; [|repeat split].
  repeat match goal with
         | |- context [String.eqb ?a ?b] => destruct (String.eqb a b)
         end; simpl; try (repeat split; fail).
  - unfold PaymentService.handlePaymentSuccess.
    destruct (Order.findByPaymentIntent _ _); [apply onOrders_keeps | repeat split].
  - unfold PaymentService.handlePaymentFailure.
    destruct (Order.findByPaymentIntent _ _); [apply onOrders_keeps | repeat split].
  - unfold PaymentService.handlePaymentCancellation.
    destruct (Order.findByPaymentIntent _ _); [apply onOrders_keeps | repeat split].
Qed.

(** handlePaymentSuccess checks no status: the order that carries the
    payment intent is moved to confirmed from whatever status it had, a
    cancelled or delivered one included, with its payment marked
    succeeded and one history entry added. *)
Theorem handlePaymentSuccess_confirms
  (now : Date) (intentId : string) (w : World) (o : Order.t) :
  Order.findByPaymentIntent intentId (orders w) = Some o ->
  Order.findById (Order._id o) (orders w) = Some o ->
  Order.isNew o = false ->
  Order.valid o = true ->
  exists o',
    Order.findById (Order._id o)
      (orders (PaymentService.handlePaymentSuccess now intentId w)) = Some o'
    /\ Order.orderStatus o' = Order.confirmed
    /\ Order.statusHistory o'
       = (Order.statusHistory o
            ++ [ {| Order.entryStatus := Order.confirmed;
                    Order.timestamp := now;
                    Order.note := "Payment received successfully";
                    Order.updatedBy := None |} ])%list
    /\ Order.payStatus (Order.pay o') = Order.pay_succeeded
    /\ Order.transactionId (Order.pay o') = Some intentId
    /\ Order.paidAt (Order.pay o') = Some now
    /\ Order.items o' = Order.items o.
Proof.
  intros Hpi Hf Hn Hv. unfold PaymentService.handlePaymentSuccess.
  rewrite Hpi. unfold onOrders.
  destruct (Order.save _ _ _) as [[o'|err] db'] eqn:Hs.
  - eapply order_save_stored in Hs; [|exact Hn].
    destruct Hs as (-> & _ & _ & Hst & Hh & Hi & _ & Hpay & _ & Hid).
    exists o'. simpl in *. rewrite Hst, Hh, Hi, Hpay. simpl.
    repeat split.
    apply (find_replaced _ o o' _ Hf Hid).
  - unfold Order.save in Hs.
    replace (Order.valid _) with true in Hs by (symmetry; exact Hv).
    discriminate.
Qed.

Lemma handlePaymentSuccess_confirms_witness :
  exists o',
    Order.findById "o1"
      (orders (PaymentService.handlePaymentSuccess Sample.nextWeek "pi_1"
                 (Sample.afterCheckout Order.cancelled))) = Some o'
    /\ Order.orderStatus o' = Order.confirmed.
Proof.
  destruct (handlePaymentSuccess_confirms Sample.nextWeek "pi_1"
              (Sample.afterCheckout Order.cancelled)
              (Sample.placed Order.cancelled) eq_refl eq_refl eq_refl)
    as (o' & Hf & Hst & _).
  - vm_compute. reflexivity.
  - exists o'. split; [exact Hf | exact Hst].
Defined.

(** ** Changing the shipping address *)

(** updateShippingAddress goes through only for the owner of the order
    (an administrator is refused like anyone else), only while the order
    is pending or confirmed, and only on an order that has a shipping
    address; the address it answers with is the stored one with the
    fields of the request written over it, and it passes the address
    validators.  Stock and carts are not touched. *)
Theorem updateShippingAddress_guard
  (now : Date) (u : ReqUser) (id : string)
  (updates : OrderController.addressUpdates) (w w1 : World)
  (a : option Order.address) :
  OrderController.updateShippingAddress now u id updates w = (Ok a, w1) ->
  exists o addr,
    Order.findById id (orders w) = Some o
    /\ Order.user o = userId u
    /\ (Order.orderStatus o = Order.pending
        \/ Order.orderStatus o = Order.confirmed)
    /\ Order.shippingAddress o = Some addr
    /\ a = Some (OrderController.applyUpdates updates addr)
    /\ Order.validAddress (OrderController.applyUpdates updates addr) = true
    /\ products w1 = products w /\ carts w1 = carts w.
Proof.
  unfold OrderController.updateShippingAddress.
  destruct (Order.findById id (orders w)) as [o|] eqn:Hf; [|discriminate].
  destruct (String.eqb_spec (Order.user o) (userId u)) as [Hu|]; [|discriminate].
  simpl.
  assert (Hst : (negb match Order.orderStatus o with
                      | Order.pending | Order.confirmed => true
                      | _ => false
                      end) = false ->
                Order.orderStatus o = Order.pending
                \/ Order.orderStatus o = Order.confirmed)
    by (destruct (Order.orderStatus o); simpl; auto; discriminate).
  destruct (negb _); [discriminate|]. specialize (Hst eq_refl).
  unfold onOrders.
  destruct (Order.shippingAddress o) as [addr|] eqn:Ha.
  - destruct (Order.save _ _ _) as [[o'|err] db'] eqn:Hs; [|discriminate].
    intros [= <- <-]. apply order_save_ok in Hs as (Hv & -> & _).
    exists o, addr. repeat split; auto.
    + unfold Order.stamp, Order.preSave. simpl.
      destruct (Order.isNew o) eqn:En; simpl; rewrite ?En; reflexivity.
    + unfold Order.valid in Hv. simpl in Hv.
      repeat (apply andb_true_iff in Hv as [Hv ?]). assumption.
  - destruct (OrderController.noUpdates updates); [|discriminate].
    unfold Order.save.
    destruct (Order.valid o) eqn:Hv; [|discriminate].
    unfold Order.valid in Hv. rewrite Ha in Hv.
    repeat (apply andb_true_iff in Hv as [Hv ?]). discriminate.
Qed.

Lemma updateShippingAddress_guard_witness :
  exists a w1,
    OrderController.updateShippingAddress Sample.nextWeek Sample.alice "o1"
      {| OrderController.newFirstName := None; OrderController.newLastName := None;
         OrderController.newStreet := Some "2 Side St";
         OrderController.newCity := None; OrderController.newState := None;
         OrderController.newZipCode := None; OrderController.newCountry := None;
         OrderController.newPhone := None |}
      (Sample.afterCheckout Order.confirmed) = (Ok a, w1)
    /\ products w1 = products (Sample.afterCheckout Order.confirmed).
Proof.
  destruct (OrderController.updateShippingAddress Sample.nextWeek Sample.alice "o1"
              {| OrderController.newFirstName := None;
                 OrderController.newLastName := None;
                 OrderController.newStreet := Some "2 Side St";
                 OrderController.newCity := None; OrderController.newState := None;
                 OrderController.newZipCode := None;
                 OrderController.newCountry := None;
                 OrderController.newPhone := None |}
              (Sample.afterCheckout Order.confirmed))
    as [[a|err] w1] eqn:E; [|vm_compute in E; discriminate E].
  exists a, w1. split; [reflexivity|].
  destruct (updateShippingAddress_guard _ _ _ _ _ _ _ E)
    as (o & addr & _ & _ & _ & _ & _ & _ & Hp & _).
  exact Hp.
Defined.

(** ** Notes on an order *)

Lemma deleteKey_app (k : string) (a b : list (string * jsval)) :
  deleteKey k (a ++ b) = (deleteKey k a ++ deleteKey k b)%list.
Proof. apply List.filter_app. Qed.

Lemma deleteKey_own {A} (k : string) (f : A -> jsval) (v : option A) :
  deleteKey k (optField k f v) = [].
Proof.
  destruct v; [|reflexivity]. unfold deleteKey. simpl.
  rewrite String.eqb_refl. reflexivity.
Qed.

Lemma toJSON_internalNotes (o : Order.t) (x : option string) :
  Order.toJSON (Order.set_internalNotes o x) = Order.toJSON o.
Proof.
  unfold Order.toJSON, Order.toObject.
  cbv zeta. rewrite !deleteKey_app, !deleteKey_own. reflexivity.
Qed.

Lemma resave (now : Date) (x o' : Order.t) (db db' : list Order.t) :
  Order.isNew x = false ->
  Order.save now x db = (Ok o', db') ->
  o' = Order.set_isNew (Order.set_updatedAt x (Some now)) false
  /\ forall id o, Order.findById id db = Some o -> Order._id x = Order._id o ->
                  Order.findById id db' = Some o'.
Proof.
  intros Hn Hs.
  pose proof (order_save_stored _ _ _ _ _ Hn Hs) as (-> & _ & _ & _ & _ & _ & _ & _ & _ & Hid).
  apply order_save_ok in Hs as (_ & -> & _).
  unfold Order.stamp, Order.preSave. rewrite Hn. simpl. rewrite Hn.
  split; [reflexivity|].
  intros id o Hf Hx. simpl in Hid. rewrite Hx.
  apply (find_replaced id o _ db Hf). simpl. exact Hx.
Qed.

(** A note added as internal never reaches the customer: the stored
    order then serialises exactly as it would after a save without any
    note, while a note that is not internal appears in the serialised
    [notes] and leaves the internal notes alone. *)
Theorem addOrderNote_visibility
  (now : Date) (iso id note_ : string) (isInternal : bool)
  (w w1 : World) (o : Order.t) :
  Order.findById id (orders w) = Some o ->
  Order.isNew o = false ->
  OrderController.addOrderNote now iso id note_ isInternal w = (Ok tt, w1) ->
  exists o1,
    Order.findById id (orders w1) = Some o1
    /\ (isInternal = true ->
        Order.internalNotes o1
        = Some (default "" (Order.internalNotes o)
                  ++ JS.newline ++ "[" ++ iso ++ "] " ++ note_)
        /\ Order.toJSON o1 = Order.toJSON (Order.set_updatedAt o (Some now)))
    /\ (isInternal = false ->
        Order.internalNotes o1 = Order.internalNotes o
        /\ In ("notes",
               JStr (default "" (Order.notes o)
                       ++ JS.newline ++ "[" ++ iso ++ "] " ++ note_))
             (Order.toJSON o1)).
Proof.
  intros Hf Hn. unfold OrderController.addOrderNote. rewrite Hf.
  unfold onOrders.
  destruct (Order.save _ _ _) as [[o1|err] db1] eqn:Hs; [|discriminate].
  intros [= <-]. exists o1.
  destruct isInternal.
  - apply resave in Hs as [-> Hfind]; [|exact Hn].
    split; [apply (Hfind id o Hf); reflexivity|].
    split; [intros _|discriminate].
    split; [reflexivity|].
    transitivity (Order.toJSON
                    (Order.set_internalNotes (Order.set_updatedAt o (Some now))
                       (Some (default "" (Order.internalNotes o)
                                ++ JS.newline ++ "[" ++ iso ++ "] " ++ note_))));
      [reflexivity | apply toJSON_internalNotes].
  - apply resave in Hs as [-> Hfind]; [|exact Hn].
    split; [apply (Hfind id o Hf); reflexivity|].
    split; [discriminate|intros _].
    split; [reflexivity|].
    apply deleteKey_spec. split; [|discriminate].
    unfold Order.toObject. simpl Order.notes.
    do 5 (apply in_or_app; right). apply in_or_app; left.
    left. reflexivity.
Qed.

Lemma addOrderNote_visibility_witness :
  exists w1 o1,
    OrderController.addOrderNote Sample.nextWeek "2026-11-09T00:00:00.000Z" "o1"
      "fragile" true (Sample.afterCheckout Order.pending) = (Ok tt, w1)
    /\ Order.findById "o1" (orders w1) = Some o1
    /\ Order.toJSON o1
       = Order.toJSON (Order.set_updatedAt (Sample.placed Order.pending)
                         (Some Sample.nextWeek)).
Proof.
  destruct (OrderController.addOrderNote Sample.nextWeek "2026-11-09T00:00:00.000Z"
              "o1" "fragile" true (Sample.afterCheckout Order.pending))
    as [[[]|err] w1] eqn:E; [|vm_compute in E; discriminate E].
  destruct (addOrderNote_visibility Sample.nextWeek "2026-11-09T00:00:00.000Z"
              "o1" "fragile" true (Sample.afterCheckout Order.pending) w1
              (Sample.placed Order.pending) eq_refl eq_refl E)
    as (o1 & Hf & Hint & _).
  exists w1, o1. split; [reflexivity|]. split; [exact Hf|].
  exact (proj2 (Hint eq_refl)).
Defined.

(** ** The totals of a created order *)

Lemma orderItems_total (db : gmap string Product.t) (l : list Cart.item) :
  forall items acc,
    OrderController.orderItems db l = Ok items ->
    fold_left (fun sum it => (sum + Order.total it)%float) items acc
    = fold_left (fun sum it =>
                   (sum + Cart.price it * JS.ofZ (Cart.quantity it))%float)
        l acc.
Proof.
  induction l as [|it l IH]; intros items acc; simpl.
  - intros [= <-]. reflexivity.
  - destruct (db !! Cart.product it) as [p|]; [|discriminate].
    destruct (OrderController.orderItems db l) as [r|err]; [|discriminate].
    intros [= <-]. simpl. apply IH. reflexivity.
Qed.

(** When the cart's stored total is up to date, the subtotal of the
    order created from it is the sum of the totals of the order's own
    lines, and calculateTotals, run on the created order, changes
    nothing. *)
Theorem created_order_totals_agree
  (e : OrderController.env) (u : ReqUser) (rq : OrderController.createRequest)
  (w w1 : World) (o : Order.t) :
  (forall cart, carts w !! userId u = Some cart ->
                Cart.totalAmount (Cart.preSave (OrderController.now e) cart)
                = Cart.totalAmount cart) ->
  OrderController.createOrder e u rq w = (Ok o, w1) ->
  Order.subtotal (Order.price_ o)
  = fold_left (fun sum it => (sum + Order.total it)%float) (Order.items o) 0%float
  /\ Order.calculateTotals o = Order.price_ o.
Proof.
  intros Hcart H. apply createOrder_ok_inv in H
    as (cart & items & Hc & _ & _ & Hitems & Hi & _ & _ & _ & _ & _ & _ & Hp & _).
  assert (Hsub : fold_left (fun sum it => (sum + Order.total it)%float)
                   (Order.items o) 0%float
                 = Cart.totalAmount cart).
  { rewrite Hi, (orderItems_total _ _ _ _ Hitems). exact (Hcart cart Hc). }
  unfold Order.calculateTotals. rewrite Hsub, Hp. simpl. split; reflexivity.
Qed.

Lemma created_order_totals_agree_witness :
  exists o w1,
    OrderController.createOrder Sample.env Sample.alice Sample.checkout
      Sample.smallCart = (Ok o, w1)
    /\ Order.calculateTotals o = Order.price_ o.
Proof.
  destruct (OrderController.createOrder Sample.env Sample.alice Sample.checkout
              Sample.smallCart)
    as [[o|err] w1] eqn:E; [|vm_compute in E; discriminate E].
  exists o, w1. split; [reflexivity|].
  refine (proj2 (created_order_totals_agree Sample.env Sample.alice Sample.checkout
                   Sample.smallCart w1 o _ E)).
  intros cart Hc. vm_compute in Hc. injection Hc as <-. reflexivity.
Defined.

(** ** createOrder answering with an API error *)

Lemma setupPayment_throw_world (e : OrderController.env) (o : Order.t)
  (w w' : World) (err : error) :
  Order.isNew o = false ->
  OrderController.setupPayment e o w = (Throw err, w') ->
  products w' = products w /\ carts w' = carts w
  /\ length (orders w') = length (orders w).
Proof.
  intros Hn. unfold OrderController.setupPayment.
  destruct (OrderController.paymentIntent e); [|intros [= _ <-]; auto].
  unfold onOrders.
  destruct (Order.save _ _ (orders w)) as [[o2|e2] os2] eqn:S1.
  - eapply order_save_stored in S1; [|exact Hn].
    destruct S1 as (-> & Hn2 & _). simpl.
    destruct (Order.save _ o2 _) as [[o3|e3] os3] eqn:S2; [discriminate|].
    apply order_save_throw in S2 as [_ ->].
    intros [= _ <-]. simpl. rewrite length_map. auto.
  - apply order_save_throw in S1 as [_ ->]. intros [= _ <-]. auto.
Qed.

(** The API errors of createOrder.  A 400 answer (no cart, an empty
    cart, a cart that fails validation) is given before anything is
    written.  A 500 answer is given only when the payment set-up of a
    Stripe order fails, and then nothing is taken back: the order stays
    stored, the stock of all lines stays reserved and the cart stays
    cleared. *)
Theorem createOrder_api_errors
  (e : OrderController.env) (u : ReqUser) (rq : OrderController.createRequest)
  (w w1 : World) (code : Z) (msg : string) :
  OrderController.createOrder e u rq w = (Throw (ApiError code msg), w1) ->
  (code = 400 /\ w1 = w)
  \/ (code = 500
      /\ OrderController.paymentMethod rq = "stripe"
      /\ exists cart,
           carts w !! userId u = Some cart
           /\ forEachLine Product.reserveStock
                (OrderController.cartLines (Cart.items cart)) (products w)
              = (Ok tt, products w1)
           /\ carts w1
              = <[Cart.user cart :=
                    Cart.depopulate
                      (Cart.preSave (OrderController.now e)
                         (Cart.set_items cart []))]>
                  (carts w)
           /\ length (orders w1) = S (length (orders w))).
Proof.
  intros H. unfold OrderController.createOrder in H.
  destruct (carts w !! userId u) as [cart|] eqn:Hc;
    [|injection H as <- _ <-; auto].
  destruct (Cart.isEmpty cart); [injection H as <- _ <-; auto|].
  destruct (Cart.validateItems _ _); [|injection H as <- _ <-; auto].
  destruct (OrderController.couponFor _ _) as [discount coupon].
  destruct (OrderController.orderItems _ _) as [items|err] eqn:Hitems.
  2:{ apply orderItems_throw in Hitems. subst err. discriminate. }
  unfold bind, onOrders, onProducts, onCarts in H.
  match type of H with
  | context [Order.save ?n ?o ?db] =>
      destruct (Order.save n o db) as [[order|e1] os] eqn:Hsave
  end.
  2:{ apply order_save_throw in Hsave as [-> _]. discriminate. }
  apply order_save_new in Hsave as (Hos & Hnew & _); [|reflexivity].
  simpl in H.
  destruct (forEachLine Product.reserveStock _ _) as [[[]|e2] ps] eqn:Hloop.
  - simpl in H.
    destruct (Cart.clearCart _ _ _) as [[c1|e3] cs] eqn:Hclear.
    + simpl in H.
      unfold Cart.clearCart in Hclear.
      apply cart_save_ok in Hclear as (_ & -> & Hcs). simpl in Hcs.
      destruct (String.eqb_spec (OrderController.paymentMethod rq) "stripe")
        as [Hm|_]; [|discriminate].
      pose proof (setupPayment_throw _ _ _ _ _ H) as [= -> ->].
      apply (setupPayment_throw_world _ _ _ _ _ Hnew) in H as (Hp & Hca & Hlen).
      simpl in Hp, Hca, Hlen. right. split; [reflexivity|]. split; [exact Hm|].
      exists cart. rewrite Hp, Hca, Hlen, Hos, length_app. simpl.
      repeat split; auto. lia.
    + unfold Cart.clearCart, Cart.save in Hclear.
      destruct (Cart.valid _); [discriminate|].
      injection Hclear as <- _. discriminate.
  - injection H as -> _.
    apply (forEachLine_throw Product.reserveStock) in Hloop
      as (before & pid & q & after & db1 & _ & _ & Hcase).
    destruct Hcase as [(_ & _ & [=])|(p & _ & Hthrow)].
    apply reserveStock_throw in Hthrow as (_ & [=] & _).
Qed.

Lemma createOrder_api_errors_witness :
  exists w1,
    OrderController.createOrder
      {| OrderController.now := Sample.today;
         OrderController.weekAhead := Sample.nextWeek;
         OrderController.newId := "o1";
         OrderController.paymentIntent := None |}
      Sample.alice
      {| OrderController.shippingAddress := Some Sample.home;
         OrderController.billingAddress := None;
         OrderController.paymentMethod := "stripe";
         OrderController.shippingMethod := None;
         OrderController.couponCode := None;
         OrderController.notes := None |}
      Sample.smallCart
    = (Throw (ApiError 500 "Payment setup failed"), w1)
    /\ length (orders w1) = 1%nat.
Proof.
  destruct (OrderController.createOrder
              {| OrderController.now := Sample.today;
                 OrderController.weekAhead := Sample.nextWeek;
                 OrderController.newId := "o1";
                 OrderController.paymentIntent := None |}
              Sample.alice
              {| OrderController.shippingAddress := Some Sample.home;
                 OrderController.billingAddress := None;
                 OrderController.paymentMethod := "stripe";
                 OrderController.shippingMethod := None;
                 OrderController.couponCode := None;
                 OrderController.notes := None |}
              Sample.smallCart) as [r w1] eqn:E.
  assert (Hr : r = Throw (ApiError 500 "Payment setup failed")).
  { apply (f_equal fst) in E. vm_compute in E. symmetry. exact E. }
  subst r. exists w1. split; [reflexivity|].
  destruct (createOrder_api_errors _ _ _ _ _ _ _ E)
    as [[H _]|(_ & _ & cart & _ & _ & _ & Hlen)]; [discriminate H|].
  exact Hlen.
Defined.

(** ** Status and status history *)

Lemma inSync_status (now : Date) (o : Order.t) (s : Order.status)
  (n u : option string) :
  Spec.inSync (Order.addStatusHistory now o s n u).
Proof. unfold Spec.inSync. simpl. rewrite last_snoc. reflexivity. Qed.

Lemma inSync_found (id : string) (o : Order.t) (db : list Order.t) :
  Forall Spec.inSync db -> Order.findById id db = Some o -> Spec.inSync o.
Proof.
  unfold Order.findById. induction 1 as [|x l Hx Hl IH]; simpl; [discriminate|].
  destruct (String.eqb (Order._id x) id); [intros [= <-]; exact Hx | exact IH].
Qed.

Lemma save_inSync (now : Date) (x : Order.t) (db db' : list Order.t)
  (r : result Order.t) :
  Forall Spec.inSync db -> Spec.inSync x ->
  Order.save now x db = (r, db') ->
  Forall Spec.inSync db' /\ forall o', r = Ok o' -> Spec.inSync o'.
Proof.
  intros Hdb Hx. unfold Order.save.
  destruct (Order.valid x); [|intros [= <- <-]; split; [exact Hdb | discriminate]].
  intros [= <- <-].
  assert (Hs : Spec.inSync
                 (Order.set_isNew (Order.stamp now (Order.preSave now db x)) false)).
  { unfold Spec.inSync. destruct (saved_status now db x) as [-> ->]. exact Hx. }
  split; [|intros o' [= <-]; exact Hs].
  remember (Order.stamp now (Order.preSave now db x)) as saved eqn:Hsaved.
  clear Hsaved.
  unfold Order.write. destruct (Order.isNew _).
  - apply Forall_app. split; [exact Hdb|]. apply Forall_cons. split; [exact Hs|].
    apply Forall_nil. exact I.
  - clear Hx. induction Hdb as [|y l Hy Hl IH]; simpl; constructor; [|exact IH].
    destruct (String.eqb _ _); [exact Hs | exact Hy].
Qed.

Lemma onOrders_save_inSync (now : Date) (x : Order.t) (w : World) :
  Forall Spec.inSync (orders w) -> Spec.inSync x ->
  Forall Spec.inSync (orders (snd (onOrders (Order.save now x) w)))
  /\ forall o', fst (onOrders (Order.save now x) w) = Ok o' -> Spec.inSync o'.
Proof.
  intros Hdb Hx. unfold onOrders.
  destruct (Order.save now x (orders w)) as [r db'] eqn:Hs. simpl.
  exact (save_inSync _ _ _ _ _ Hdb Hx Hs).
Qed.

Lemma setupPayment_inSync (e : OrderController.env) (o : Order.t) (w : World) :
  Forall Spec.inSync (orders w) -> Spec.inSync o ->
  Forall Spec.inSync (orders (snd (OrderController.setupPayment e o w))).
Proof.
  intros Hdb Ho. unfold OrderController.setupPayment.
  destruct (OrderController.paymentIntent e) as [intentId|]; [|exact Hdb].
  match goal with
  | |- context [onOrders (Order.save ?n ?x) w] =>
      destruct (onOrders_save_inSync n x w Hdb Ho) as [H1 H1'];
      destruct (onOrders (Order.save n x) w) as [[o2|e2] w2]
  end; [|exact H1].
  simpl in H1. specialize (H1' o2 eq_refl).
  destruct (onOrders_save_inSync (OrderController.now e) o2 w2 H1 H1') as [H2 _].
  destruct (onOrders (Order.save _ o2) w2) as [[o3|e3] w3]; exact H2.
Qed.

Lemma createOrder_inSync (e : OrderController.env) (u : ReqUser)
  (rq : OrderController.createRequest) (w : World) :
  Forall Spec.inSync (orders w) ->
  Forall Spec.inSync (orders (snd (OrderController.createOrder e u rq w))).
Proof.
  intros Hdb. unfold OrderController.createOrder.
  destruct (carts w !! userId u) as [cart|]; [|exact Hdb].
  destruct (Cart.isEmpty cart); [exact Hdb|].
  destruct (Cart.validateItems _ _); [|exact Hdb].
  destruct (OrderController.couponFor _ _) as [discount coupon].
  destruct (OrderController.orderItems _ _) as [items|err]; [|exact Hdb].
  unfold bind.
  match goal with
  | |- context [onOrders (Order.save ?n ?x) w] =>
      destruct (onOrders_save_inSync n x w Hdb (inSync_status _ _ _ _ _))
        as [H1 H1'];
      destruct (onOrders (Order.save n x) w) as [[order|e1] w1]
  end; [|exact H1].
  simpl in H1. specialize (H1' order eq_refl).
  unfold onProducts, onCarts.
  destruct (forEachLine _ _ _) as [[[]|e2] ps]; [|exact H1]. simpl.
  destruct (Cart.clearCart _ _ _) as [[c1|e3] cs]; [|exact H1].
  destruct (String.eqb _ "stripe"); [|exact H1].
  apply setupPayment_inSync; assumption.
Qed.

(** Status and history never drift apart: if every stored order's status
    is the status of its last history entry, this is still so after any
    request of the order controller and any payment webhook, whether the
    request is answered or fails half way. *)
Theorem status_history_in_sync (r : Spec.request) (w : World) :
  Forall Spec.inSync (orders w) ->
  Forall Spec.inSync (orders (Spec.handle r w)).
Proof.
  intros Hdb. destruct r; simpl.
  - apply createOrder_inSync, Hdb.
  - unfold OrderController.cancelOrder.
    destruct (Order.findById id (orders w)) as [o|]; [|exact Hdb].
    destruct (negb _ && negb _); [exact Hdb|].
    destruct (negb (Order.canBeCancelled o)); [exact Hdb|].
    unfold bind, onProducts.
    destruct (forEachLine _ _ _) as [[[]|e2] ps]; [|exact Hdb].
    refine (proj1 (onOrders_save_inSync _ _ (set_products w ps) Hdb _)).
    exact (inSync_status now o Order.cancelled reason (Some (userId u))).
  - unfold OrderController.updateOrderStatus.
    destruct (Order.findById id (orders w)) as [o|]; [|exact Hdb].
    refine (proj1 (onOrders_save_inSync _ _ _ Hdb _)).
    exact (inSync_status now o _ _ _).
  - unfold OrderController.addOrderNote.
    destruct (Order.findById id (orders w)) as [o|] eqn:Hf; [|exact Hdb].
    pose proof (inSync_found _ _ _ Hdb Hf) as Ho.
    match goal with
    | |- context [onOrders (Order.save ?n ?x) w] =>
        assert (Hx : Spec.inSync x) by (destruct isInternal; exact Ho);
        destruct (onOrders_save_inSync n x w Hdb Hx) as [H1 _];
        destruct (onOrders (Order.save n x) w) as [[o1|e1] w1]
    end; exact H1.
  - unfold OrderController.updateShippingAddress.
    destruct (Order.findById id (orders w)) as [o|] eqn:Hf; [|exact Hdb].
    pose proof (inSync_found _ _ _ Hdb Hf) as Ho.
    destruct (negb (String.eqb _ _)); [exact Hdb|].
    destruct (negb _); [exact Hdb|].
    destruct (Order.shippingAddress o) as [a|].
    + match goal with
      | |- context [onOrders (Order.save ?n ?x) w] =>
          destruct (onOrders_save_inSync n x w Hdb Ho) as [H1 _];
          destruct (onOrders (Order.save n x) w) as [[o1|e1] w1]
      end; exact H1.
    + destruct (OrderController.noUpdates updates); [|exact Hdb].
      destruct (onOrders_save_inSync now o w Hdb Ho) as [H1 _].
      destruct (onOrders (Order.save now o) w) as [[o1|e1] w1]; exact H1.
  - unfold Refund.requestRefund.
    destruct (Order.findById id (orders w)) as [o|]; [|exact Hdb].
    destruct (negb (String.eqb _ _)); [exact Hdb|].
    destruct (negb _); exact Hdb.
  - unfold PaymentService.handleWebhook.
    destruct verified as [ev|]; [|exact Hdb].
    repeat match goal with
           | |- context [String.eqb ?a ?b] => destruct (String.eqb a b)
           end; simpl; try exact Hdb.
    + unfold PaymentService.handlePaymentSuccess.
      destruct (Order.findByPaymentIntent _ _) as [o|]; [|exact Hdb].
      refine (proj1 (onOrders_save_inSync _ _ _ Hdb _)).
      exact (inSync_status now _ Order.confirmed _ _).
    + unfold PaymentService.handlePaymentFailure.
      destruct (Order.findByPaymentIntent _ _) as [o|]; [|exact Hdb].
      refine (proj1 (onOrders_save_inSync _ _ _ Hdb _)).
      exact (inSync_status now _ Order.cancelled _ _).
    + unfold PaymentService.handlePaymentCancellation.
      destruct (Order.findByPaymentIntent _ _) as [o|]; [|exact Hdb].
      refine (proj1 (onOrders_save_inSync _ _ _ Hdb _)).
      exact (inSync_status now _ Order.cancelled _ _).
Qed.

Lemma status_history_in_sync_witness :
  Forall Spec.inSync
    (orders (Spec.handle (Spec.CancelOrder Sample.nextWeek Sample.alice "o1" None)
               (Sample.afterCheckout Order.pending))).
Proof.
  apply status_history_in_sync. apply Forall_cons. split; [reflexivity|].
  apply Forall_nil. exact I.
Defined.


(** ** getOrCreateCart *)

(** getOrCreateCart always answers with the cart stored under the user,
    its lines populated: it creates an empty cart with both totals at zero
    when there is none, touches no other cart, and a second call returns
    the same cart and changes nothing. *)
Theorem getOrCreateCart_idempotent
  (now later : Date) (u : string) (products : gmap string Product.t)
  (db : gmap string Cart.t) :
  exists c db1 stored,
    Cart.getOrCreateCart now u products db = (Ok c, db1)
    /\ db1 !! u = Some stored
    /\ c = Cart.populate products stored
    /\ Cart.getOrCreateCart later u products db1 = (Ok c, db1)
    /\ (forall k, k <> u -> db1 !! k = db !! k)
    /\ (db !! u = None ->
        Cart.user c = u /\ Cart.items c = []
        /\ Cart.totalItems c = 0 /\ Cart.totalAmount c = 0%float).
Proof.
  unfold Cart.getOrCreateCart at 1.
  destruct (db !! u) as [c|] eqn:Hc.
  - exists (Cart.populate products c), db, c.
    unfold Cart.getOrCreateCart. rewrite Hc.
    repeat split; auto; discriminate.
  - unfold Cart.save.
    replace (Cart.valid _) with true by reflexivity.
    eexists _, _, _. split; [reflexivity|]. simpl.
    split; [apply lookup_insert_eq|].
    split; [reflexivity|].
    split; [unfold Cart.getOrCreateCart; rewrite lookup_insert_eq; reflexivity|].
    split; [intros k Hk; apply lookup_insert_ne; congruence|].
    intros _. repeat split.
Qed.
